(** * Steamworks plugin for Corona: event dispatch, polling and Lua entry points

    A shallow embedding of the plugin's C++ sources:
    - [SteamImageInfo.cpp]      : image handle plus cached pixel size;
    - [DispatchEventTask.cpp]   : one task class per Steam event, each
                                  serialised to a Lua event table;
    - [RuntimeContext.cpp]      : the per-runtime queue, caches and the
                                  per-frame poll ([OnCoronaEnterFrame]);
    - the plugin's Lua API file : one C function per [steamworks.*] entry.

    Machine integers are [Z] with their ranges written out, C strings are
    [string], Lua values are an inductive type, the leaderboard cache is a
    [gmap] and the avatar subscription set a [gset].  The Steam SDK and the
    Corona host are external: their answers are fields of records held in
    the modelled world. *)

From Stdlib Require Import ZArith QArith Qround Qabs String Ascii List Bool Lia Lqa.
From stdpp Require Import base option list gmap strings.

Local Open Scope Z_scope.

(** ** Machine integers *)

Definition INT32_MAX : Z := 2147483647.
Definition INT32_MIN : Z := -2147483648.
Definition UINT32_MAX : Z := 4294967295.
Definition UINT64_MAX : Z := 18446744073709551615.

Definition in_int32 (z : Z) : Prop := INT32_MIN <= z <= INT32_MAX.
Definition in_uint32 (z : Z) : Prop := 0 <= z <= UINT32_MAX.
Definition in_uint64 (z : Z) : Prop := 0 <= z <= UINT64_MAX.

(** [(int32)x] for a wider integer [x]: two's complement wrap-around. *)
Definition cast_int32 (z : Z) : Z := (z + 2147483648) mod 4294967296 - 2147483648.

(** [(uint32)x]. *)
Definition cast_uint32 (z : Z) : Z := z mod 4294967296.

(** ** Decimal text of unsigned integers

    [std::stringstream] imbued with the classic locale: [operator<<] on an
    unsigned integer writes its decimal digits, most significant first, with
    no grouping; [operator>>] skips leading white space, takes an optional
    sign and the longest run of decimal digits, and sets [failbit] when there
    is no digit or the value does not fit the target type. *)

Definition digit_char (d : Z) : ascii := ascii_of_nat (48 + Z.to_nat d).

Definition is_digit (c : ascii) : bool :=
  let n := nat_of_ascii c in (48 <=? n)%nat && (n <=? 57)%nat.

Definition digit_value (c : ascii) : Z := Z.of_nat (nat_of_ascii c) - 48.

Definition is_space (c : ascii) : bool :=
  let n := nat_of_ascii c in (n =? 32)%nat || ((9 <=? n)%nat && (n <=? 13)%nat).

(** Digits of [n], prepended to [acc]; [fuel] bounds the digit count. *)
Fixpoint put_decimal (fuel : nat) (n : Z) (acc : string) : string :=
  let acc' := String (digit_char (n mod 10)) acc in
  match fuel with
  | O => acc'
  | S f => if n / 10 =? 0 then acc' else put_decimal f (n / 10) acc'
  end.

(** [stream << value] for [uint64] (20 digits at most) and [uint32]. *)
Definition stream_put_unsigned (n : Z) : string := put_decimal 19 n EmptyString.

Fixpoint skip_spaces (s : string) : string :=
  match s with
  | String c r => if is_space c then skip_spaces r else s
  | EmptyString => s
  end.

Fixpoint scan_digits (s : string) (acc : Z) : Z :=
  match s with
  | String c r => if is_digit c then scan_digits r (acc * 10 + digit_value c) else acc
  | EmptyString => acc
  end.

(** [stream >> value] for an unsigned type with largest value [max];
    [None] is [stream.fail()]. *)
Definition stream_get_unsigned (max : Z) (s : string) : option Z :=
  let s1 := skip_spaces s in
  let '(negative, s2) :=
    match s1 with
    | String c r =>
        if Ascii.eqb c "+"%char then (false, r)
        else if Ascii.eqb c "-"%char then (true, r)
        else (false, s1)
    | EmptyString => (false, s1)
    end in
  match s2 with
  | String c _ =>
      if is_digit c then
        let v := scan_digits s2 0 in
        if v >? max then None
        else Some (if negative then (max + 1 - v) mod (max + 1) else v)
      else None
  | EmptyString => None
  end.

Definition stream_get_uint64 : string -> option Z := stream_get_unsigned UINT64_MAX.
Definition stream_get_uint32 : string -> option Z := stream_get_unsigned UINT32_MAX.

(** ** SteamImageInfo.cpp *)

Record SteamImageInfo := {
  fImageHandle : Z;   (* int *)
  fPixelWidth : Z;    (* uint32 *)
  fPixelHeight : Z    (* uint32 *)
}.

(** [SteamImageInfo::SteamImageInfo()] *)
Definition SteamImageInfo_default : SteamImageInfo :=
  {| fImageHandle := 0; fPixelWidth := 0; fPixelHeight := 0 |}.

(** [SteamImageInfo::IsValid] *)
Definition IsValid (i : SteamImageInfo) : bool :=
  if negb (fImageHandle i =? 0) && negb (fImageHandle i =? -1) then
    if (fPixelWidth i >? 0) && (fPixelHeight i >? 0) then true else false
  else false.

(** [SteamImageInfo::IsNotValid] *)
Definition IsNotValid (i : SteamImageInfo) : bool := negb (IsValid i).

(** ** Lua values

    A [lua_Number] is a C [double]: every finite double is a rational; the
    three non-finite values are kept apart. *)

Inductive lua_Number :=
| Finite (q : Q)
| PlusInfinity
| MinusInfinity
| NotANumber.

(** The value of a [(float)] cast of a double, kept symbolic. *)
Inductive c_float := float_cast (d : lua_Number).

Inductive LuaType :=
| LUA_TNONE | LUA_TNIL | LUA_TBOOLEAN | LUA_TLIGHTUSERDATA | LUA_TNUMBER
| LUA_TSTRING | LUA_TTABLE | LUA_TFUNCTION | LUA_TUSERDATA.

#[global] Instance LuaType_eq_dec : EqDecision LuaType.
Proof. solve_decision. Defined.

(** The C closures this plugin pushes with [lua_pushcclosure]: the
    continuation that re-sends a leaderboard request once the leaderboard's
    handle is known.  Its one upvalue is the original settings table. *)
Inductive PluginClosure := RetryRequestLeaderboardEntries | RetryRequestSetHighScore.

(** A table is its array part (indices 1..n, [lua_objlen] is n) and its
    string-keyed fields; tables are plain (no metatable).  Lua strings are
    taken without embedded NUL, so that [lua_tostring] is the whole string. *)
#[warnings="-register-all"]
Inductive LuaValue :=
| LuaNil
| LuaBoolean (b : bool)
| LuaNumber (n : lua_Number)
| LuaString (s : string)
| LuaTable (array : list LuaValue) (fields : list (string * LuaValue))
| LuaFunction (ref : Z)
| LuaCClosure (f : PluginClosure) (upvalue : LuaValue)
| LuaUserdata (ref : Z).

Definition lua_typeof (v : LuaValue) : LuaType :=
  match v with
  | LuaNil => LUA_TNIL
  | LuaBoolean _ => LUA_TBOOLEAN
  | LuaNumber _ => LUA_TNUMBER
  | LuaString _ => LUA_TSTRING
  | LuaTable _ _ => LUA_TTABLE
  | LuaFunction _ | LuaCClosure _ _ => LUA_TFUNCTION
  | LuaUserdata _ => LUA_TUSERDATA
  end.

Definition lua_istable (v : LuaValue) : bool :=
  match v with LuaTable _ _ => true | _ => false end.

Definition lua_isfunction (v : LuaValue) : bool :=
  match v with LuaFunction _ | LuaCClosure _ _ => true | _ => false end.

Definition lua_isnil (v : LuaValue) : bool :=
  match v with LuaNil => true | _ => false end.

Fixpoint assoc_get (k : string) (l : list (string * LuaValue)) : LuaValue :=
  match l with
  | [] => LuaNil
  | (k', v) :: r => if String.eqb k k' then v else assoc_get k r
  end.

(** [lua_getfield] on a plain table: the first entry for the key, [nil]
    when there is none. *)
Definition table_getfield (t : LuaValue) (k : string) : LuaValue :=
  match t with
  | LuaTable _ fields => assoc_get k fields
  | _ => LuaNil
  end.

(** [lua_objlen] and [lua_rawgeti] on a table. *)
Definition table_objlen (t : LuaValue) : Z :=
  match t with
  | LuaTable array _ => Z.of_nat (length array)
  | _ => 0
  end.

Definition table_array (t : LuaValue) : list LuaValue :=
  match t with
  | LuaTable array _ => array
  | _ => []
  end.

(** [lua_pushinteger] and [lua_pushnumber((double)n)] of an integer. *)
Definition lua_integer (z : Z) : LuaValue := LuaNumber (Finite (inject_Z z)).

(** The arguments of a call: [lua_type(L, i)] and the value at index [i]
    (1-based); an index past the last argument is [LUA_TNONE]. *)
Definition lua_arg (args : list LuaValue) (i : nat) : option LuaValue :=
  match i with
  | O => None
  | S j => args !! j
  end.

Definition lua_type (args : list LuaValue) (i : nat) : LuaType :=
  match lua_arg args i with
  | Some v => lua_typeof v
  | None => LUA_TNONE
  end.

Definition arg_value (args : list LuaValue) (i : nat) : LuaValue :=
  default LuaNil (lua_arg args i).

(** [lua_tostring] of a value whose type was checked to be [LUA_TSTRING]. *)
Definition string_of_value (v : LuaValue) : option string :=
  match v with
  | LuaString s => Some s
  | _ => None
  end.

(** ** The Steam SDK, by interface

    Each accessor ([SteamUserStats()], ...) returns a null pointer when the
    Steam client is not running.  The methods' answers are the SDK's own. *)

Record LeaderboardEntry_t := {
  m_steamIDUser : Z;    (* uint64 *)
  m_nGlobalRank : Z;    (* int32 *)
  m_nScore : Z          (* int32 *)
}.

Inductive ELeaderboardDataRequest :=
| k_ELeaderboardDataRequestGlobal
| k_ELeaderboardDataRequestGlobalAroundUser
| k_ELeaderboardDataRequestFriends.

#[global] Instance ELeaderboardDataRequest_eq_dec : EqDecision ELeaderboardDataRequest.
Proof. solve_decision. Defined.

Inductive ENotificationPosition :=
| k_EPositionTopLeft | k_EPositionTopRight | k_EPositionBottomLeft | k_EPositionBottomRight.

Record ISteamUserStats := {
  GetAchievementIcon : string -> Z;
  GetUserAchievementAndUnlockTime : Z -> string -> option (bool * Z);
  GetAchievementAndUnlockTime : string -> option (bool * Z);
  GetAchievementDisplayAttribute : string -> string -> option string;
  GetUserStat_int32 : Z -> string -> option Z;
  GetUserStat_float : Z -> string -> option lua_Number;
  GetStat_int32 : string -> option Z;
  GetStat_float : string -> option lua_Number;
  GetNumberOfCurrentPlayers : Z;
  FindLeaderboard : string -> Z;
  DownloadLeaderboardEntries : Z -> ELeaderboardDataRequest -> Z -> Z -> Z;
  UploadLeaderboardScore : Z -> Z -> Z;
  RequestUserStats : Z -> Z;
  RequestCurrentStats : bool;
  ResetAllStats : bool -> bool;
  IndicateAchievementProgress : string -> Z -> Z -> bool;
  SetAchievement : string -> bool;
  SetStat_int32 : string -> Z -> bool;
  SetStat_float : string -> c_float -> bool;
  UpdateAvgRateStat : string -> c_float -> lua_Number -> bool;
  GetNumAchievements : Z;
  GetAchievementName : Z -> option string;
  GetLeaderboardName : Z -> option string;
  GetLeaderboardEntryCount : Z -> Z;
  GetLeaderboardSortMethod : Z -> Z;
  GetLeaderboardDisplayType : Z -> Z;
  GetDownloadedLeaderboardEntry : Z -> Z -> option LeaderboardEntry_t
}.

Record ISteamFriends := {
  GetSmallFriendAvatar : Z -> Z;
  GetMediumFriendAvatar : Z -> Z;
  GetLargeFriendAvatar : Z -> Z;
  RequestUserInformation : Z -> bool -> bool;
  GetFriendPersonaName : Z -> option string;
  GetPersonaName : option string;
  GetPlayerNickname : Z -> option string;
  GetFriendSteamLevel : Z -> Z;
  GetFriendPersonaState : Z -> Z;
  GetPersonaState : Z;
  GetFriendRelationship : Z -> Z
}.

Record ISteamUser := {
  GetSteamID : Z;
  GetPlayerSteamLevel : Z
}.

Record ISteamUtils := {
  GetAppID : Z;
  IsOverlayEnabled : bool;
  GetImageSize : Z -> option (Z * Z);
  BOverlayNeedsPresent : bool
}.

Record ISteamApps := {
  BIsDlcInstalled : Z -> bool;
  GetAppOwner : Z
}.

(** The SDK as the plugin sees it.  [CSteamID_IsValid] and the two [CGameID]
    constructors are inline functions of the SDK's headers, taken as given. *)
Record SteamAPI := {
  SteamUserStats : option ISteamUserStats;
  SteamFriends : option ISteamFriends;
  SteamUser : option ISteamUser;
  SteamUtils : option ISteamUtils;
  SteamApps : option ISteamApps;
  CSteamID_IsValid : Z -> bool;
  CGameID_of_AppId : Z -> Z;
  CGameID_of_uint64 : Z -> Z
}.

(** [CSteamID::CSteamID()] and [CSteamID::Clear()]: the all-zero ID. *)
Definition CSteamID_default : Z := 0.

(** Requests and commands sent to the SDK, as logged by the model: those
    the functions of the Lua API send.  The getters of the SDK are read as
    queries and are not logged; among them [GetLargeFriendAvatar], which
    also makes Steam start the download of an avatar it does not hold. *)
Inductive SteamCall :=
| Call_RequestUserInformation (user : Z) (nameOnly : bool)
| Call_GetNumberOfCurrentPlayers
| Call_FindLeaderboard (name : string)
| Call_DownloadLeaderboardEntries (handle : Z) (scope : ELeaderboardDataRequest) (first last : Z)
| Call_UploadLeaderboardScore (handle : Z) (score : Z)
| Call_RequestUserStats (user : Z)
| Call_RequestCurrentStats
| Call_ResetAllStats (achievementsToo : bool)
| Call_IndicateAchievementProgress (name : string) (current max : Z)
| Call_SetAchievement (name : string)
| Call_StoreStats
| Call_SetStat_int32 (name : string) (value : Z)
| Call_SetStat_float (name : string) (value : c_float)
| Call_UpdateAvgRateStat (name : string) (value : c_float) (sessionLength : lua_Number)
| Call_ActivateGameOverlay (dialog : option string)
| Call_ActivateGameOverlayToStore (appId : Z)
| Call_ActivateGameOverlayToUser (dialog : option string) (user : Z)
| Call_ActivateGameOverlayToWebPage (url : option string)
| Call_SetOverlayNotificationPosition (position : ENotificationPosition).

(** ** Lua states and event dispatchers *)

(** What the plugin reads from a [lua_State*]: the arguments of the running
    call, whether upvalue 1 holds a non-null [RuntimeContext*], and the
    global table. *)
Record lua_State := {
  lua_stack : list LuaValue;
  lua_upvalue_context : bool;
  lua_globals : list (string * LuaValue)
}.

(** An event table under construction: [CoronaLuaNewEvent] creates it with
    its ["name"] field, each [lua_setfield] adds one entry at the end. *)
Definition EventTable := list (string * LuaValue).

Definition CoronaLuaNewEvent (eventName : string) : EventTable :=
  [("name"%string, LuaString eventName)].

Definition lua_setfield (t : EventTable) (k : string) (v : LuaValue) : EventTable :=
  t ++ [(k, v)].

(** [LuaEventDispatcher] (its header is not part of the sources at hand):
    the Lua state it belongs to, and the outcome of
    [DispatchEventWithoutResult] on an event table. *)
Record LuaEventDispatcher := {
  GetLuaState : option lua_State;
  DispatchEventWithoutResult : EventTable -> bool
}.

(** ** Steam event structures (fields as in the SDK's headers) *)

Module GameOverlayActivated_t.
Record t := { m_bActive : Z }.
End GameOverlayActivated_t.

Module LeaderboardScoresDownloaded_t.
Record t := { m_hSteamLeaderboard : Z; m_hSteamLeaderboardEntries : Z; m_cEntryCount : Z }.
End LeaderboardScoresDownloaded_t.

Module LeaderboardFindResult_t.
Record t := { m_hSteamLeaderboard : Z; m_bLeaderboardFound : Z }.
End LeaderboardFindResult_t.

Module LeaderboardScoreUploaded_t.
Record t := {
  m_bSuccess : Z; m_hSteamLeaderboard : Z; m_nScore : Z; m_bScoreChanged : Z;
  m_nGlobalRankNew : Z; m_nGlobalRankPrevious : Z
}.
End LeaderboardScoreUploaded_t.

Module MicroTxnAuthorizationResponse_t.
Record t := { m_unAppID : Z; m_ulOrderID : Z; m_bAuthorized : Z }.
End MicroTxnAuthorizationResponse_t.

Module NumberOfCurrentPlayers_t.
Record t := { m_bSuccess : Z; m_cPlayers : Z }.
End NumberOfCurrentPlayers_t.

Module PersonaStateChange_t.
Record t := { m_ulSteamID : Z; m_nChangeFlags : Z }.
End PersonaStateChange_t.

Module AvatarImageLoaded_t.
Record t := { m_steamID : Z; m_iImage : Z; m_iWide : Z; m_iTall : Z }.
End AvatarImageLoaded_t.

Module UserAchievementIconFetched_t.
Record t := {
  m_nGameID : Z; m_rgchAchievementName : string; m_bAchieved : bool; m_nIconHandle : Z
}.
End UserAchievementIconFetched_t.

Module UserAchievementStored_t.
Record t := {
  m_nGameID : Z; m_bGroupAchievement : bool; m_rgchAchievementName : string;
  m_nCurProgress : Z; m_nMaxProgress : Z
}.
End UserAchievementStored_t.

Module UserStatsReceived_t.
Record t := { m_nGameID : Z; m_eResult : Z; m_steamIDUser : Z }.
End UserStatsReceived_t.

Module UserStatsStored_t.
Record t := { m_nGameID : Z; m_eResult : Z }.
End UserStatsStored_t.

Module UserStatsUnloaded_t.
Record t := { m_steamIDUser : Z }.
End UserStatsUnloaded_t.

(** Enumeration constants of the SDK's public headers. *)
Definition k_ELeaderboardSortMethodNone : Z := 0.
Definition k_ELeaderboardSortMethodAscending : Z := 1.
Definition k_ELeaderboardSortMethodDescending : Z := 2.
Definition k_ELeaderboardDisplayTypeNone : Z := 0.
Definition k_ELeaderboardDisplayTypeNumeric : Z := 1.
Definition k_ELeaderboardDisplayTypeTimeSeconds : Z := 2.
Definition k_ELeaderboardDisplayTypeTimeMilliSeconds : Z := 3.
Definition k_EResultOK : Z := 1.
Definition k_EResultFail : Z := 2.
Definition k_EPersonaChangeName : Z := 1.
Definition k_EPersonaChangeStatus : Z := 2.
Definition k_EPersonaChangeComeOnline : Z := 4.
Definition k_EPersonaChangeGoneOffline : Z := 8.
Definition k_EPersonaChangeAvatar : Z := 64.
Definition k_EPersonaChangeRelationshipChanged : Z := 512.
Definition k_EPersonaChangeNameFirstSet : Z := 1024.
Definition k_EPersonaChangeNickname : Z := 4096.
Definition k_EPersonaChangeSteamLevel : Z := 8192.
Definition k_uAPICallInvalid : Z := 0.

(** A C integer used as a condition. *)
Definition truthy (z : Z) : bool := negb (z =? 0).

(** [SteamImageInfo::FromImageHandle] *)
Definition FromImageHandle (steam : SteamAPI) (imageHandle : Z) : SteamImageInfo :=
  match SteamUtils steam with
  | Some steamUtilsPointer =>
      match GetImageSize steamUtilsPointer imageHandle with
      | Some (pixelWidth, pixelHeight) =>
          {| fImageHandle := imageHandle; fPixelWidth := pixelWidth; fPixelHeight := pixelHeight |}
      | None => SteamImageInfo_default
      end
  | None => SteamImageInfo_default
  end.

(** [SteamImageInfo::PushToLua]: the pushed value, [None] when the function
    returns false (null Lua state). *)
Definition PushToLua (luaStatePointer : option lua_State) (i : SteamImageInfo) : option LuaValue :=
  match luaStatePointer with
  | None => None
  | Some _ =>
      if IsValid i then
        Some (LuaTable [] [("imageHandle"%string, lua_integer (fImageHandle i));
                           ("pixelWidth"%string, lua_integer (fPixelWidth i));
                           ("pixelHeight"%string, lua_integer (fPixelHeight i))])
      else Some LuaNil
  end.

(** ** DispatchEventTask.cpp: one module per task class

    Each module holds the class's data members (those of the intermediate
    base classes [BaseDispatchCallResultEventTask] and
    [BaseDispatchLeaderboardEventTask] included), its constructor [new],
    [AcquireEventDataFrom] and [PushLuaEventTableTo].  The latter returns the
    event table it leaves on the Lua stack, or [None] where the C++ returns
    false. *)

Definition uint64_string (n : Z) : LuaValue := LuaString (stream_put_unsigned n).

Module DispatchGameOverlayActivatedEventTask.
Record t := { fWasActivated : bool }.
Definition kLuaEventName : string := "overlayStatus".
Definition new : t := {| fWasActivated := false |}.
Definition AcquireEventDataFrom (self : t) (steamEventData : GameOverlayActivated_t.t) : t :=
  {| fWasActivated := truthy (GameOverlayActivated_t.m_bActive steamEventData) |}.
Definition PushLuaEventTableTo (luaStatePointer : option lua_State) (self : t) : option EventTable :=
  match luaStatePointer with
  | None => None
  | Some _ =>
      let e := CoronaLuaNewEvent kLuaEventName in
      let e := lua_setfield e "phase"
                 (LuaString (if fWasActivated self then "shown" else "hidden")) in
      Some e
  end.
End DispatchGameOverlayActivatedEventTask.

Module DispatchLeaderboardScoresDownloadedEventTask.
Record t := {
  fHadIOFailure : bool;
  fLeaderboardName : string;
  fLeaderboardHandle : Z;
  fEntryCollection : list LeaderboardEntry_t
}.
Definition kLuaEventName : string := "leaderboardEntries".
Definition new : t :=
  {| fHadIOFailure := false; fLeaderboardName := EmptyString; fLeaderboardHandle := 0;
     fEntryCollection := [] |}.
Definition SetLeaderboardName (self : t) (name : option string) : t :=
  {| fHadIOFailure := fHadIOFailure self; fLeaderboardName := default EmptyString name;
     fLeaderboardHandle := fLeaderboardHandle self;
     fEntryCollection := fEntryCollection self |}.
Definition SetHadIOFailure (self : t) (value : bool) : t :=
  {| fHadIOFailure := value; fLeaderboardName := fLeaderboardName self;
     fLeaderboardHandle := fLeaderboardHandle self;
     fEntryCollection := fEntryCollection self |}.
Definition AcquireEventDataFrom (steam : SteamAPI) (self : t)
    (steamEventData : LeaderboardScoresDownloaded_t.t) : t :=
  let handle := LeaderboardScoresDownloaded_t.m_hSteamLeaderboard steamEventData in
  let count := LeaderboardScoresDownloaded_t.m_cEntryCount steamEventData in
  match SteamUserStats steam with
  | None =>
      {| fHadIOFailure := fHadIOFailure self; fLeaderboardName := EmptyString;
         fLeaderboardHandle := handle; fEntryCollection := [] |}
  | Some steamUserStatsPointer =>
      {| fHadIOFailure := fHadIOFailure self;
         fLeaderboardName :=
           if truthy handle then default EmptyString (GetLeaderboardName steamUserStatsPointer handle)
           else EmptyString;
         fLeaderboardHandle := handle;
         fEntryCollection :=
           if count >? 0 then
             omap (GetDownloadedLeaderboardEntry steamUserStatsPointer
                     (LeaderboardScoresDownloaded_t.m_hSteamLeaderboardEntries steamEventData))
                  (seqZ 0 count)
           else [] |}
  end.
Definition entry_table (entry : LeaderboardEntry_t) : LuaValue :=
  LuaTable [] [("userSteamId"%string, uint64_string (m_steamIDUser entry));
               ("globalRank"%string, lua_integer (m_nGlobalRank entry));
               ("score"%string, lua_integer (m_nScore entry))].
Definition PushLuaEventTableTo (luaStatePointer : option lua_State) (self : t) : option EventTable :=
  match luaStatePointer with
  | None => None
  | Some _ =>
      let e := CoronaLuaNewEvent kLuaEventName in
      let e := lua_setfield e "isError" (LuaBoolean (fHadIOFailure self)) in
      let e := lua_setfield e "leaderboardName" (LuaString (fLeaderboardName self)) in
      let e := lua_setfield e "leaderboardHandle" (uint64_string (fLeaderboardHandle self)) in
      let e := lua_setfield e "entries" (LuaTable (map entry_table (fEntryCollection self)) []) in
      Some e
  end.
End DispatchLeaderboardScoresDownloadedEventTask.

Module DispatchLeaderboardFindResultEventTask.
Record t := {
  fHadIOFailure : bool;
  fLeaderboardName : string;
  fIsError : bool;
  fLeaderboardHandle : Z;
  fEntryCount : Z;
  fDisplayType : Z;
  fSortMethod : Z
}.
Definition kLuaEventName : string := "leaderboardInfo".
Definition ClearEventData (self : t) : t :=
  {| fHadIOFailure := fHadIOFailure self; fLeaderboardName := EmptyString; fIsError := true;
     fLeaderboardHandle := 0; fEntryCount := 0;
     fDisplayType := k_ELeaderboardDisplayTypeNone;
     fSortMethod := k_ELeaderboardSortMethodNone |}.
Definition new : t :=
  ClearEventData {| fHadIOFailure := false; fLeaderboardName := EmptyString; fIsError := true;
                    fLeaderboardHandle := 0; fEntryCount := 0; fDisplayType := 0;
                    fSortMethod := 0 |}.
Definition SetLeaderboardName (self : t) (name : option string) : t :=
  {| fHadIOFailure := fHadIOFailure self; fLeaderboardName := default EmptyString name;
     fIsError := fIsError self; fLeaderboardHandle := fLeaderboardHandle self;
     fEntryCount := fEntryCount self; fDisplayType := fDisplayType self;
     fSortMethod := fSortMethod self |}.
Definition SetHadIOFailure (self : t) (value : bool) : t :=
  {| fHadIOFailure := value; fLeaderboardName := fLeaderboardName self;
     fIsError := fIsError self; fLeaderboardHandle := fLeaderboardHandle self;
     fEntryCount := fEntryCount self; fDisplayType := fDisplayType self;
     fSortMethod := fSortMethod self |}.
Definition AcquireEventDataFrom (steam : SteamAPI) (self : t)
    (steamEventData : LeaderboardFindResult_t.t) : t :=
  let cleared := ClearEventData self in
  match SteamUserStats steam with
  | None => cleared
  | Some steamUserStatsPointer =>
      let handle := LeaderboardFindResult_t.m_hSteamLeaderboard steamEventData in
      let isError := negb (truthy (LeaderboardFindResult_t.m_bLeaderboardFound steamEventData)) in
      if negb isError then
        {| fHadIOFailure := fHadIOFailure self;
           fLeaderboardName := default EmptyString (GetLeaderboardName steamUserStatsPointer handle);
           fIsError := isError; fLeaderboardHandle := handle;
           fEntryCount := GetLeaderboardEntryCount steamUserStatsPointer handle;
           fDisplayType := GetLeaderboardDisplayType steamUserStatsPointer handle;
           fSortMethod := GetLeaderboardSortMethod steamUserStatsPointer handle |}
      else
        {| fHadIOFailure := fHadIOFailure self; fLeaderboardName := fLeaderboardName cleared;
           fIsError := isError; fLeaderboardHandle := handle;
           fEntryCount := fEntryCount cleared; fDisplayType := fDisplayType cleared;
           fSortMethod := fSortMethod cleared |}
  end.
Definition sortMethodName (m : Z) : string :=
  if m =? k_ELeaderboardSortMethodNone then "none"
  else if m =? k_ELeaderboardSortMethodAscending then "ascending"
  else if m =? k_ELeaderboardSortMethodDescending then "descending"
  else "unknown".
Definition displayTypeName (d : Z) : string :=
  if d =? k_ELeaderboardDisplayTypeNone then "none"
  else if d =? k_ELeaderboardDisplayTypeNumeric then "numeric"
  else if d =? k_ELeaderboardDisplayTypeTimeSeconds then "seconds"
  else if d =? k_ELeaderboardDisplayTypeTimeMilliSeconds then "milliseconds"
  else "unknown".
Definition PushLuaEventTableTo (luaStatePointer : option lua_State) (self : t) : option EventTable :=
  match luaStatePointer with
  | None => None
  | Some _ =>
      let isError := fIsError self || fHadIOFailure self in
      let e := CoronaLuaNewEvent kLuaEventName in
      let e := lua_setfield e "isError" (LuaBoolean isError) in
      let e := lua_setfield e "leaderboardName" (LuaString (fLeaderboardName self)) in
      if negb isError then
        let e := lua_setfield e "leaderboardHandle" (uint64_string (fLeaderboardHandle self)) in
        let e := lua_setfield e "entryCount"
                   (lua_integer (if fEntryCount self >? 0 then fEntryCount self else 0)) in
        let e := lua_setfield e "sortMethod" (LuaString (sortMethodName (fSortMethod self))) in
        let e := lua_setfield e "displayType" (LuaString (displayTypeName (fDisplayType self))) in
        Some e
      else Some e
  end.
End DispatchLeaderboardFindResultEventTask.

Module DispatchLeaderboardScoreUploadEventTask.
Record t := {
  fHadIOFailure : bool;
  fLeaderboardName : string;
  fIsError : bool;
  fLeaderboardHandle : Z;
  fWasScoreChanged : bool;
  fCurrentGlobalRank : Z;
  fPreviousGlobalRank : Z
}.
Definition kLuaEventName : string := "setHighScore".
Definition ClearEventData (self : t) : t :=
  {| fHadIOFailure := fHadIOFailure self; fLeaderboardName := EmptyString; fIsError := true;
     fLeaderboardHandle := 0; fWasScoreChanged := false; fCurrentGlobalRank := 0;
     fPreviousGlobalRank := 0 |}.
Definition new : t :=
  ClearEventData {| fHadIOFailure := false; fLeaderboardName := EmptyString; fIsError := true;
                    fLeaderboardHandle := 0; fWasScoreChanged := false;
                    fCurrentGlobalRank := 0; fPreviousGlobalRank := 0 |}.
Definition SetLeaderboardName (self : t) (name : option string) : t :=
  {| fHadIOFailure := fHadIOFailure self; fLeaderboardName := default EmptyString name;
     fIsError := fIsError self; fLeaderboardHandle := fLeaderboardHandle self;
     fWasScoreChanged := fWasScoreChanged self;
     fCurrentGlobalRank := fCurrentGlobalRank self;
     fPreviousGlobalRank := fPreviousGlobalRank self |}.
Definition SetHadIOFailure (self : t) (value : bool) : t :=
  {| fHadIOFailure := value; fLeaderboardName := fLeaderboardName self;
     fIsError := fIsError self; fLeaderboardHandle := fLeaderboardHandle self;
     fWasScoreChanged := fWasScoreChanged self;
     fCurrentGlobalRank := fCurrentGlobalRank self;
     fPreviousGlobalRank := fPreviousGlobalRank self |}.
Definition AcquireEventDataFrom (steam : SteamAPI) (self : t)
    (steamEventData : LeaderboardScoreUploaded_t.t) : t :=
  let cleared := ClearEventData self in
  match SteamUserStats steam with
  | None => cleared
  | Some steamUserStatsPointer =>
      let handle := LeaderboardScoreUploaded_t.m_hSteamLeaderboard steamEventData in
      let isError := negb (truthy (LeaderboardScoreUploaded_t.m_bSuccess steamEventData)) in
      if negb isError then
        {| fHadIOFailure := fHadIOFailure self;
           fLeaderboardName := default EmptyString (GetLeaderboardName steamUserStatsPointer handle);
           fIsError := isError; fLeaderboardHandle := handle;
           fWasScoreChanged := truthy (LeaderboardScoreUploaded_t.m_bScoreChanged steamEventData);
           fCurrentGlobalRank := LeaderboardScoreUploaded_t.m_nGlobalRankNew steamEventData;
           fPreviousGlobalRank := LeaderboardScoreUploaded_t.m_nGlobalRankPrevious steamEventData |}
      else
        {| fHadIOFailure := fHadIOFailure self; fLeaderboardName := fLeaderboardName cleared;
           fIsError := isError; fLeaderboardHandle := handle;
           fWasScoreChanged := fWasScoreChanged cleared;
           fCurrentGlobalRank := fCurrentGlobalRank cleared;
           fPreviousGlobalRank := fPreviousGlobalRank cleared |}
  end.
Definition PushLuaEventTableTo (luaStatePointer : option lua_State) (self : t) : option EventTable :=
  match luaStatePointer with
  | None => None
  | Some _ =>
      let isError := fIsError self || fHadIOFailure self in
      let e := CoronaLuaNewEvent kLuaEventName in
      let e := lua_setfield e "isError" (LuaBoolean isError) in
      let e := lua_setfield e "leaderboardHandle" (uint64_string (fLeaderboardHandle self)) in
      let e := lua_setfield e "leaderboardName" (LuaString (fLeaderboardName self)) in
      let e := lua_setfield e "scoreChanged" (LuaBoolean (fWasScoreChanged self)) in
      if fWasScoreChanged self then
        let e := if fCurrentGlobalRank self >? 0
                 then lua_setfield e "currentGlobalRank" (lua_integer (fCurrentGlobalRank self))
                 else e in
        let e := if fPreviousGlobalRank self >? 0
                 then lua_setfield e "previousGlobalRank" (lua_integer (fPreviousGlobalRank self))
                 else e in
        Some e
      else Some e
  end.
End DispatchLeaderboardScoreUploadEventTask.

Module DispatchMicrotransactionAuthorizationResponseEventTask.
Record t := { fWasAuthorized : bool; fOrderId : Z }.
Definition kLuaEventName : string := "microtransactionAuthorization".
Definition new : t := {| fWasAuthorized := false; fOrderId := 0 |}.
Definition AcquireEventDataFrom (self : t) (steamEventData : MicroTxnAuthorizationResponse_t.t) : t :=
  {| fWasAuthorized := truthy (MicroTxnAuthorizationResponse_t.m_bAuthorized steamEventData);
     fOrderId := MicroTxnAuthorizationResponse_t.m_ulOrderID steamEventData |}.
Definition PushLuaEventTableTo (luaStatePointer : option lua_State) (self : t) : option EventTable :=
  match luaStatePointer with
  | None => None
  | Some _ =>
      let e := CoronaLuaNewEvent kLuaEventName in
      let e := lua_setfield e "authorized" (LuaBoolean (fWasAuthorized self)) in
      let e := lua_setfield e "orderId" (uint64_string (fOrderId self)) in
      Some e
  end.
End DispatchMicrotransactionAuthorizationResponseEventTask.

Module DispatchNumberOfCurrentPlayersEventTask.
Record t := { fHadIOFailure : bool; fIsError : bool; fPlayerCount : Z }.
Definition kLuaEventName : string := "activePlayerCount".
Definition new : t := {| fHadIOFailure := false; fIsError := true; fPlayerCount := 0 |}.
Definition SetHadIOFailure (self : t) (value : bool) : t :=
  {| fHadIOFailure := value; fIsError := fIsError self; fPlayerCount := fPlayerCount self |}.
Definition AcquireEventDataFrom (self : t) (steamEventData : NumberOfCurrentPlayers_t.t) : t :=
  {| fHadIOFailure := fHadIOFailure self;
     fIsError := negb (truthy (NumberOfCurrentPlayers_t.m_bSuccess steamEventData));
     fPlayerCount := NumberOfCurrentPlayers_t.m_cPlayers steamEventData |}.
Definition PushLuaEventTableTo (luaStatePointer : option lua_State) (self : t) : option EventTable :=
  match luaStatePointer with
  | None => None
  | Some _ =>
      let isError := fIsError self || fHadIOFailure self in
      let e := CoronaLuaNewEvent kLuaEventName in
      let e := lua_setfield e "isError" (LuaBoolean isError) in
      if negb isError then Some (lua_setfield e "count" (lua_integer (fPlayerCount self)))
      else Some e
  end.
End DispatchNumberOfCurrentPlayersEventTask.

Module DispatchPersonaStateChangedEventTask.
Record t := { fUserIntegerId : Z; fFlags : Z; fHasLargeAvatarChanged : bool }.
Definition kLuaEventName : string := "userInfoUpdate".
Definition new : t := {| fUserIntegerId := 0; fFlags := 0; fHasLargeAvatarChanged := false |}.
Definition has_flag (flags mask : Z) : bool := truthy (Z.land flags mask).
(** [AcquireEventDataFrom(const PersonaStateChange_t&)] *)
Definition AcquireEventDataFrom (steam : SteamAPI) (self : t)
    (steamEventData : PersonaStateChange_t.t) : t :=
  let user := PersonaStateChange_t.m_ulSteamID steamEventData in
  let flags := PersonaStateChange_t.m_nChangeFlags steamEventData in
  {| fUserIntegerId := user; fFlags := flags;
     fHasLargeAvatarChanged :=
       if has_flag flags k_EPersonaChangeAvatar then
         match SteamFriends steam with
         | Some steamFriendsPointer => GetSmallFriendAvatar steamFriendsPointer user =? 0
         | None => false
         end
       else false |}.
(** [AcquireEventDataFrom(const AvatarImageLoaded_t&)] *)
Definition AcquireEventDataFrom_AvatarImageLoaded (steam : SteamAPI) (self : t)
    (steamEventData : AvatarImageLoaded_t.t) : t :=
  let imageInfo := FromImageHandle steam (AvatarImageLoaded_t.m_iImage steamEventData) in
  let user := AvatarImageLoaded_t.m_steamID steamEventData in
  if IsValid imageInfo then
    if fPixelWidth imageInfo >=? 184 then
      {| fUserIntegerId := user; fFlags := 0; fHasLargeAvatarChanged := true |}
    else
      {| fUserIntegerId := user; fFlags := Z.lor 0 k_EPersonaChangeAvatar;
         fHasLargeAvatarChanged := false |}
  else {| fUserIntegerId := user; fFlags := 0; fHasLargeAvatarChanged := false |}.
Definition SetHasLargeAvatarChanged (self : t) (value : bool) : t :=
  {| fUserIntegerId := fUserIntegerId self; fFlags := fFlags self;
     fHasLargeAvatarChanged := value |}.
Definition PushLuaEventTableTo (luaStatePointer : option lua_State) (self : t) : option EventTable :=
  match luaStatePointer with
  | None => None
  | Some _ =>
      let flags := fFlags self in
      let e := CoronaLuaNewEvent kLuaEventName in
      let e := lua_setfield e "userSteamId" (uint64_string (fUserIntegerId self)) in
      let e := lua_setfield e "nameChanged"
                 (LuaBoolean (has_flag flags (Z.lor k_EPersonaChangeName k_EPersonaChangeNameFirstSet))) in
      let e := lua_setfield e "statusChanged"
                 (LuaBoolean (has_flag flags
                    (Z.lor (Z.lor k_EPersonaChangeStatus k_EPersonaChangeComeOnline)
                           k_EPersonaChangeGoneOffline))) in
      let hasAvatarChanged := has_flag flags k_EPersonaChangeAvatar in
      let e := lua_setfield e "smallAvatarChanged" (LuaBoolean hasAvatarChanged) in
      let e := lua_setfield e "mediumAvatarChanged" (LuaBoolean hasAvatarChanged) in
      let e := lua_setfield e "largeAvatarChanged" (LuaBoolean (fHasLargeAvatarChanged self)) in
      let e := lua_setfield e "relationshipChanged"
                 (LuaBoolean (has_flag flags k_EPersonaChangeRelationshipChanged)) in
      let e := lua_setfield e "facebookInfoChanged" (LuaBoolean false) in
      let e := lua_setfield e "nicknameChanged" (LuaBoolean (has_flag flags k_EPersonaChangeNickname)) in
      let e := lua_setfield e "steamLevelChanged" (LuaBoolean (has_flag flags k_EPersonaChangeSteamLevel)) in
      Some e
  end.
End DispatchPersonaStateChangedEventTask.

Module DispatchUserAchievementIconFetchedEventTask.
Record t := { fAchievementName : string; fIsUnlocked : bool; fImageHandle : Z }.
Definition kLuaEventName : string := "achievementImageUpdate".
Definition new : t := {| fAchievementName := EmptyString; fIsUnlocked := false; fImageHandle := 0 |}.
Definition AcquireEventDataFrom (self : t) (steamEventData : UserAchievementIconFetched_t.t) : t :=
  {| fAchievementName := UserAchievementIconFetched_t.m_rgchAchievementName steamEventData;
     fIsUnlocked := UserAchievementIconFetched_t.m_bAchieved steamEventData;
     fImageHandle := UserAchievementIconFetched_t.m_nIconHandle steamEventData |}.
(** The image's size is read from the SDK again at the time of the push. *)
Definition PushLuaEventTableTo (steam : SteamAPI) (luaStatePointer : option lua_State)
    (self : t) : option EventTable :=
  match luaStatePointer with
  | None => None
  | Some _ =>
      let imageInfo := FromImageHandle steam (fImageHandle self) in
      if IsNotValid imageInfo then None
      else
        let e := CoronaLuaNewEvent kLuaEventName in
        let e := lua_setfield e "achievementName" (LuaString (fAchievementName self)) in
        let e := lua_setfield e "imageInfo"
                   (match PushToLua luaStatePointer imageInfo with
                    | Some v => v
                    | None => LuaTable [] []
                    end) in
        let e := lua_setfield e "unlocked" (LuaBoolean (fIsUnlocked self)) in
        Some e
  end.
End DispatchUserAchievementIconFetchedEventTask.

Module DispatchUserAchievementStoredEventTask.
Record t := {
  fAchievementName : string; fIsGroup : bool; fCurrentProgress : Z; fMaxProgress : Z
}.
Definition kLuaEventName : string := "achievementInfoUpdate".
Definition new : t :=
  {| fAchievementName := EmptyString; fIsGroup := false; fCurrentProgress := 0; fMaxProgress := 0 |}.
Definition AcquireEventDataFrom (self : t) (steamEventData : UserAchievementStored_t.t) : t :=
  {| fAchievementName := UserAchievementStored_t.m_rgchAchievementName steamEventData;
     fIsGroup := UserAchievementStored_t.m_bGroupAchievement steamEventData;
     fCurrentProgress := UserAchievementStored_t.m_nCurProgress steamEventData;
     fMaxProgress := UserAchievementStored_t.m_nMaxProgress steamEventData |}.
Definition PushLuaEventTableTo (luaStatePointer : option lua_State) (self : t) : option EventTable :=
  match luaStatePointer with
  | None => None
  | Some _ =>
      let e := CoronaLuaNewEvent kLuaEventName in
      let e := lua_setfield e "achievementName" (LuaString (fAchievementName self)) in
      let e := lua_setfield e "isGroup" (LuaBoolean (fIsGroup self)) in
      if fMaxProgress self >? 0 then
        let e := lua_setfield e "currentProgress" (lua_integer (fCurrentProgress self)) in
        let e := lua_setfield e "maxProgress" (lua_integer (fMaxProgress self)) in
        Some e
      else Some e
  end.
End DispatchUserAchievementStoredEventTask.

Module DispatchUserStatsReceivedEventTask.
Record t := { fUserIntegerId : Z; fSteamResultCode : Z }.
Definition kLuaEventName : string := "userProgressUpdate".
Definition new : t := {| fUserIntegerId := 0; fSteamResultCode := k_EResultFail |}.
Definition AcquireEventDataFrom (self : t) (steamEventData : UserStatsReceived_t.t) : t :=
  {| fUserIntegerId := UserStatsReceived_t.m_steamIDUser steamEventData;
     fSteamResultCode := UserStatsReceived_t.m_eResult steamEventData |}.
Definition PushLuaEventTableTo (luaStatePointer : option lua_State) (self : t) : option EventTable :=
  match luaStatePointer with
  | None => None
  | Some _ =>
      let e := CoronaLuaNewEvent kLuaEventName in
      let e := lua_setfield e "userSteamId" (uint64_string (fUserIntegerId self)) in
      let e := lua_setfield e "isError" (LuaBoolean (negb (fSteamResultCode self =? k_EResultOK))) in
      let e := lua_setfield e "resultCode" (lua_integer (fSteamResultCode self)) in
      Some e
  end.
End DispatchUserStatsReceivedEventTask.

Module DispatchUserStatsStoredEventTask.
Record t := { fUserIntegerId : Z; fSteamResultCode : Z }.
Definition kLuaEventName : string := "userProgressSave".
Definition new : t := {| fUserIntegerId := 0; fSteamResultCode := k_EResultFail |}.
Definition AcquireEventDataFrom (steam : SteamAPI) (self : t)
    (steamEventData : UserStatsStored_t.t) : t :=
  {| fUserIntegerId :=
       match SteamUser steam with
       | Some steamUserPointer => GetSteamID steamUserPointer
       | None => 0
       end;
     fSteamResultCode := UserStatsStored_t.m_eResult steamEventData |}.
Definition PushLuaEventTableTo (luaStatePointer : option lua_State) (self : t) : option EventTable :=
  match luaStatePointer with
  | None => None
  | Some _ =>
      let e := CoronaLuaNewEvent kLuaEventName in
      let e := lua_setfield e "userSteamId" (uint64_string (fUserIntegerId self)) in
      let e := lua_setfield e "isError" (LuaBoolean (negb (fSteamResultCode self =? k_EResultOK))) in
      let e := lua_setfield e "resultCode" (lua_integer (fSteamResultCode self)) in
      Some e
  end.
End DispatchUserStatsStoredEventTask.

Module DispatchUserStatsUnloadedEventTask.
Record t := { fUserIntegerId : Z }.
Definition kLuaEventName : string := "userProgressUnload".
Definition new : t := {| fUserIntegerId := 0 |}.
Definition AcquireEventDataFrom (self : t) (steamEventData : UserStatsUnloaded_t.t) : t :=
  {| fUserIntegerId := UserStatsUnloaded_t.m_steamIDUser steamEventData |}.
Definition PushLuaEventTableTo (luaStatePointer : option lua_State) (self : t) : option EventTable :=
  match luaStatePointer with
  | None => None
  | Some _ =>
      Some (lua_setfield (CoronaLuaNewEvent kLuaEventName) "userSteamId"
              (uint64_string (fUserIntegerId self)))
  end.
End DispatchUserStatsUnloadedEventTask.

(** The polymorphic task: the derived object behind a
    [BaseDispatchEventTask*], and the base class's dispatcher pointer. *)
Inductive DerivedTask :=
| GameOverlayActivatedTask (d : DispatchGameOverlayActivatedEventTask.t)
| LeaderboardScoresDownloadedTask (d : DispatchLeaderboardScoresDownloadedEventTask.t)
| LeaderboardFindResultTask (d : DispatchLeaderboardFindResultEventTask.t)
| LeaderboardScoreUploadTask (d : DispatchLeaderboardScoreUploadEventTask.t)
| MicrotransactionAuthorizationResponseTask
    (d : DispatchMicrotransactionAuthorizationResponseEventTask.t)
| NumberOfCurrentPlayersTask (d : DispatchNumberOfCurrentPlayersEventTask.t)
| PersonaStateChangedTask (d : DispatchPersonaStateChangedEventTask.t)
| UserAchievementIconFetchedTask (d : DispatchUserAchievementIconFetchedEventTask.t)
| UserAchievementStoredTask (d : DispatchUserAchievementStoredEventTask.t)
| UserStatsReceivedTask (d : DispatchUserStatsReceivedEventTask.t)
| UserStatsStoredTask (d : DispatchUserStatsStoredEventTask.t)
| UserStatsUnloadedTask (d : DispatchUserStatsUnloadedEventTask.t).

Record BaseDispatchEventTask := {
  fLuaEventDispatcherPointer : option LuaEventDispatcher;
  derived : DerivedTask
}.

(** The virtual [GetLuaEventName]. *)
Definition GetLuaEventName (d : DerivedTask) : string :=
  match d with
  | GameOverlayActivatedTask _ => DispatchGameOverlayActivatedEventTask.kLuaEventName
  | LeaderboardScoresDownloadedTask _ => DispatchLeaderboardScoresDownloadedEventTask.kLuaEventName
  | LeaderboardFindResultTask _ => DispatchLeaderboardFindResultEventTask.kLuaEventName
  | LeaderboardScoreUploadTask _ => DispatchLeaderboardScoreUploadEventTask.kLuaEventName
  | MicrotransactionAuthorizationResponseTask _ =>
      DispatchMicrotransactionAuthorizationResponseEventTask.kLuaEventName
  | NumberOfCurrentPlayersTask _ => DispatchNumberOfCurrentPlayersEventTask.kLuaEventName
  | PersonaStateChangedTask _ => DispatchPersonaStateChangedEventTask.kLuaEventName
  | UserAchievementIconFetchedTask _ => DispatchUserAchievementIconFetchedEventTask.kLuaEventName
  | UserAchievementStoredTask _ => DispatchUserAchievementStoredEventTask.kLuaEventName
  | UserStatsReceivedTask _ => DispatchUserStatsReceivedEventTask.kLuaEventName
  | UserStatsStoredTask _ => DispatchUserStatsStoredEventTask.kLuaEventName
  | UserStatsUnloadedTask _ => DispatchUserStatsUnloadedEventTask.kLuaEventName
  end.

(** The virtual [PushLuaEventTableTo]. *)
Definition PushLuaEventTableTo (steam : SteamAPI) (luaStatePointer : option lua_State)
    (d : DerivedTask) : option EventTable :=
  match d with
  | GameOverlayActivatedTask t =>
      DispatchGameOverlayActivatedEventTask.PushLuaEventTableTo luaStatePointer t
  | LeaderboardScoresDownloadedTask t =>
      DispatchLeaderboardScoresDownloadedEventTask.PushLuaEventTableTo luaStatePointer t
  | LeaderboardFindResultTask t =>
      DispatchLeaderboardFindResultEventTask.PushLuaEventTableTo luaStatePointer t
  | LeaderboardScoreUploadTask t =>
      DispatchLeaderboardScoreUploadEventTask.PushLuaEventTableTo luaStatePointer t
  | MicrotransactionAuthorizationResponseTask t =>
      DispatchMicrotransactionAuthorizationResponseEventTask.PushLuaEventTableTo luaStatePointer t
  | NumberOfCurrentPlayersTask t =>
      DispatchNumberOfCurrentPlayersEventTask.PushLuaEventTableTo luaStatePointer t
  | PersonaStateChangedTask t =>
      DispatchPersonaStateChangedEventTask.PushLuaEventTableTo luaStatePointer t
  | UserAchievementIconFetchedTask t =>
      DispatchUserAchievementIconFetchedEventTask.PushLuaEventTableTo steam luaStatePointer t
  | UserAchievementStoredTask t =>
      DispatchUserAchievementStoredEventTask.PushLuaEventTableTo luaStatePointer t
  | UserStatsReceivedTask t =>
      DispatchUserStatsReceivedEventTask.PushLuaEventTableTo luaStatePointer t
  | UserStatsStoredTask t =>
      DispatchUserStatsStoredEventTask.PushLuaEventTableTo luaStatePointer t
  | UserStatsUnloadedTask t =>
      DispatchUserStatsUnloadedEventTask.PushLuaEventTableTo luaStatePointer t
  end.

(** [BaseDispatchLeaderboardEventTask::SetLeaderboardName] and
    [BaseDispatchCallResultEventTask::SetHadIOFailure] through a base-class
    pointer ([dynamic_cast] fails on the other classes: no change). *)
Definition SetLeaderboardName (d : DerivedTask) (name : option string) : DerivedTask :=
  match d with
  | LeaderboardScoresDownloadedTask t =>
      LeaderboardScoresDownloadedTask
        (DispatchLeaderboardScoresDownloadedEventTask.SetLeaderboardName t name)
  | LeaderboardFindResultTask t =>
      LeaderboardFindResultTask (DispatchLeaderboardFindResultEventTask.SetLeaderboardName t name)
  | LeaderboardScoreUploadTask t =>
      LeaderboardScoreUploadTask (DispatchLeaderboardScoreUploadEventTask.SetLeaderboardName t name)
  | _ => d
  end.

Definition SetHadIOFailure (d : DerivedTask) (value : bool) : DerivedTask :=
  match d with
  | LeaderboardScoresDownloadedTask t =>
      LeaderboardScoresDownloadedTask
        (DispatchLeaderboardScoresDownloadedEventTask.SetHadIOFailure t value)
  | LeaderboardFindResultTask t =>
      LeaderboardFindResultTask (DispatchLeaderboardFindResultEventTask.SetHadIOFailure t value)
  | LeaderboardScoreUploadTask t =>
      LeaderboardScoreUploadTask (DispatchLeaderboardScoreUploadEventTask.SetHadIOFailure t value)
  | NumberOfCurrentPlayersTask t =>
      NumberOfCurrentPlayersTask (DispatchNumberOfCurrentPlayersEventTask.SetHadIOFailure t value)
  | _ => d
  end.

(** ** Value-type registries *)

Inductive SteamStatValueType := kUnknown | kInteger | kFloat | kAverageRate.

#[global] Instance SteamStatValueType_eq_dec : EqDecision SteamStatValueType.
Proof. solve_decision. Defined.

(** [SteamStatValueType::FromCoronaStringId]: look-up in the registry that
    the three named constants fill when they are constructed. *)
Definition sSteamStatValueTypeMap : gmap string SteamStatValueType :=
  <["averageRate"%string := kAverageRate]>
    (<["float"%string := kFloat]> (<["int"%string := kInteger]> ∅)).

Definition SteamStatValueType_FromCoronaStringId (stringId : option string) : SteamStatValueType :=
  match stringId with
  | Some s => default kUnknown (sSteamStatValueTypeMap !! s)
  | None => kUnknown
  end.

Definition SteamStatValueType_GetCoronaStringId (v : SteamStatValueType) : string :=
  match v with
  | kUnknown => "unknown"
  | kInteger => "int"
  | kFloat => "float"
  | kAverageRate => "averageRate"
  end.

Inductive SteamUserImageType := kUnknownImage | kAvatarSmall | kAvatarMedium | kAvatarLarge.

#[global] Instance SteamUserImageType_eq_dec : EqDecision SteamUserImageType.
Proof. solve_decision. Defined.

Definition sSteamUserImageTypeMap : gmap string SteamUserImageType :=
  <["largeAvatar"%string := kAvatarLarge]>
    (<["mediumAvatar"%string := kAvatarMedium]> (<["smallAvatar"%string := kAvatarSmall]> ∅)).

Definition SteamUserImageType_FromCoronaStringId (stringId : option string) : SteamUserImageType :=
  match stringId with
  | Some s => default kUnknownImage (sSteamUserImageTypeMap !! s)
  | None => kUnknownImage
  end.

(** ** RuntimeContext.cpp: data members *)

(** Modelled from the spec: [RuntimeContext::AddEventHandlerFor] and the
    call-result handler it stores ([RuntimeContext.h] and
    [SteamCallResultHandler.h] are not part of the sources at hand).  A
    registration is (call-result handle, Lua listener, leaderboard name
    copied by the queuing callback); registering returns false when the
    call-result handle is invalid. *)
Inductive CallResultKind :=
| ForNumberOfCurrentPlayers | ForLeaderboardFindResult
| ForLeaderboardScoresDownloaded | ForLeaderboardScoreUploaded.

Record EventHandlerSettings := {
  LuaFunction_ : LuaValue;
  SteamCallResultHandle : Z;
  QueuingEventTaskCallback : option string
}.

Module RuntimeContext.
Record t := {
  fLuaEventDispatcherPointer : option LuaEventDispatcher;
  fDispatchEventTaskQueue : list (option BaseDispatchEventTask);
  fLeaderboardNameHandleMap : gmap string Z;
  fLargeAvatarSubscribedUserIdSet : gset Z;
  fSteamCallResultHandlerPool : list (CallResultKind * EventHandlerSettings);
  fWasRenderRequested : bool
}.
End RuntimeContext.

(** ** The Corona host and the C platform *)

Inductive FormatArg := FmtString (s : string) | FmtInt (z : Z).

Inductive Diagnostic :=
| CoronaLuaError_ (format : string) (args : list FormatArg)
| CoronaLuaWarning_ (format : string) (args : list FormatArg).

Record CoronaHost := {
  (* [lua_tointeger] of a number, as a [lua_Integer] *)
  lua_tointeger : lua_Number -> Z;
  (* [long] of the C platform and what [std::lround] returns where the C
     standard leaves it unspecified (the rounded value does not fit) *)
  LONG_MAX : Z;
  lround_unspecified : lua_Number -> Z;
  (* [CoronaLuaIsListener] *)
  CoronaLuaIsListener : LuaValue -> string -> bool;
  (* [CoronaExternalPushTexture]: the values it leaves on the stack *)
  CoronaExternalPushTexture : Z -> list LuaValue;
  (* [lua_getfield] on what [PushTexture] left on the stack; [None] is a
     Lua error (indexing nil) *)
  texture_getfield : LuaValue -> string -> option LuaValue;
  (* calling [display.newImageRect] with the given arguments: its result *)
  call_newImageRect : list LuaValue -> LuaValue;
  (* the indeterminate value of an uninitialised [const char*] local *)
  uninitialized_string : option string;
  (* [getenv("SteamAppId")] *)
  getenv_SteamAppId : option string
}.

(** ** The world the plugin runs in, and the monad threading it *)

Record World := {
  steam : SteamAPI;
  host : CoronaHost;
  context : RuntimeContext.t;
  steam_calls : list SteamCall;
  diagnostics : list Diagnostic;
  (* event tables handed to [DispatchEventWithoutResult], oldest first *)
  delivered : list EventTable;
  (* values assigned to [display.currentStage.isVisible], oldest first *)
  stage_writes : list bool;
  (* [AddEventListener] (true) and [RemoveEventListener] (false) calls made
     on the context's dispatcher: event name and listener *)
  listener_calls : list (bool * string * LuaValue)
}.

Definition M (A : Type) : Type := World -> A * World.

Definition ret {A} (a : A) : M A := fun w => (a, w).

Definition bind {A B} (m : M A) (k : A -> M B) : M B :=
  fun w => let '(a, w') := m w in k a w'.

Notation "x <- c1 ;; c2" := (bind c1 (fun x => c2))
  (at level 100, c1 at next level, right associativity).
Notation "c1 ;; c2" := (bind c1 (fun _ => c2))
  (at level 100, right associativity).

Definition get_steam : M SteamAPI := fun w => (steam w, w).
Definition get_host : M CoronaHost := fun w => (host w, w).
Definition get_context : M RuntimeContext.t := fun w => (context w, w).

Definition put_context (c : RuntimeContext.t) : M unit :=
  fun w => (tt, {| steam := steam w; host := host w; context := c;
                   steam_calls := steam_calls w; diagnostics := diagnostics w;
                   delivered := delivered w; stage_writes := stage_writes w;
                   listener_calls := listener_calls w |}).

Definition steam_call (c : SteamCall) : M unit :=
  fun w => (tt, {| steam := steam w; host := host w; context := context w;
                   steam_calls := steam_calls w ++ [c]; diagnostics := diagnostics w;
                   delivered := delivered w; stage_writes := stage_writes w;
                   listener_calls := listener_calls w |}).

Definition log_diagnostic (d : Diagnostic) : M unit :=
  fun w => (tt, {| steam := steam w; host := host w; context := context w;
                   steam_calls := steam_calls w; diagnostics := diagnostics w ++ [d];
                   delivered := delivered w; stage_writes := stage_writes w;
                   listener_calls := listener_calls w |}).

Definition CoronaLuaError (format : string) (args : list FormatArg) : M unit :=
  log_diagnostic (CoronaLuaError_ format args).

Definition CoronaLuaWarning (format : string) (args : list FormatArg) : M unit :=
  log_diagnostic (CoronaLuaWarning_ format args).

Definition log_delivery (e : EventTable) : M unit :=
  fun w => (tt, {| steam := steam w; host := host w; context := context w;
                   steam_calls := steam_calls w; diagnostics := diagnostics w;
                   delivered := delivered w ++ [e]; stage_writes := stage_writes w;
                   listener_calls := listener_calls w |}).

Definition write_stage_isVisible (b : bool) : M unit :=
  fun w => (tt, {| steam := steam w; host := host w; context := context w;
                   steam_calls := steam_calls w; diagnostics := diagnostics w;
                   delivered := delivered w; stage_writes := stage_writes w ++ [b];
                   listener_calls := listener_calls w |}).

Definition log_listener_call (add : bool) (eventName : string) (listener : LuaValue) : M unit :=
  fun w => (tt, {| steam := steam w; host := host w; context := context w;
                   steam_calls := steam_calls w; diagnostics := diagnostics w;
                   delivered := delivered w; stage_writes := stage_writes w;
                   listener_calls := listener_calls w ++ [(add, eventName, listener)] |}).

(** Setters of single [RuntimeContext] members. *)
Definition set_queue (c : RuntimeContext.t) (q : list (option BaseDispatchEventTask)) :=
  {| RuntimeContext.fLuaEventDispatcherPointer := RuntimeContext.fLuaEventDispatcherPointer c;
     RuntimeContext.fDispatchEventTaskQueue := q;
     RuntimeContext.fLeaderboardNameHandleMap := RuntimeContext.fLeaderboardNameHandleMap c;
     RuntimeContext.fLargeAvatarSubscribedUserIdSet := RuntimeContext.fLargeAvatarSubscribedUserIdSet c;
     RuntimeContext.fSteamCallResultHandlerPool := RuntimeContext.fSteamCallResultHandlerPool c;
     RuntimeContext.fWasRenderRequested := RuntimeContext.fWasRenderRequested c |}.

Definition set_subscribed (c : RuntimeContext.t) (s : gset Z) :=
  {| RuntimeContext.fLuaEventDispatcherPointer := RuntimeContext.fLuaEventDispatcherPointer c;
     RuntimeContext.fDispatchEventTaskQueue := RuntimeContext.fDispatchEventTaskQueue c;
     RuntimeContext.fLeaderboardNameHandleMap := RuntimeContext.fLeaderboardNameHandleMap c;
     RuntimeContext.fLargeAvatarSubscribedUserIdSet := s;
     RuntimeContext.fSteamCallResultHandlerPool := RuntimeContext.fSteamCallResultHandlerPool c;
     RuntimeContext.fWasRenderRequested := RuntimeContext.fWasRenderRequested c |}.

Definition set_handler_pool (c : RuntimeContext.t)
    (p : list (CallResultKind * EventHandlerSettings)) :=
  {| RuntimeContext.fLuaEventDispatcherPointer := RuntimeContext.fLuaEventDispatcherPointer c;
     RuntimeContext.fDispatchEventTaskQueue := RuntimeContext.fDispatchEventTaskQueue c;
     RuntimeContext.fLeaderboardNameHandleMap := RuntimeContext.fLeaderboardNameHandleMap c;
     RuntimeContext.fLargeAvatarSubscribedUserIdSet := RuntimeContext.fLargeAvatarSubscribedUserIdSet c;
     RuntimeContext.fSteamCallResultHandlerPool := p;
     RuntimeContext.fWasRenderRequested := RuntimeContext.fWasRenderRequested c |}.

Definition set_render_requested (c : RuntimeContext.t) (b : bool) :=
  {| RuntimeContext.fLuaEventDispatcherPointer := RuntimeContext.fLuaEventDispatcherPointer c;
     RuntimeContext.fDispatchEventTaskQueue := RuntimeContext.fDispatchEventTaskQueue c;
     RuntimeContext.fLeaderboardNameHandleMap := RuntimeContext.fLeaderboardNameHandleMap c;
     RuntimeContext.fLargeAvatarSubscribedUserIdSet := RuntimeContext.fLargeAvatarSubscribedUserIdSet c;
     RuntimeContext.fSteamCallResultHandlerPool := RuntimeContext.fSteamCallResultHandlerPool c;
     RuntimeContext.fWasRenderRequested := b |}.

(** ** DispatchEventTask.cpp: [BaseDispatchEventTask::Execute]

    What the Lua listeners do when they are called is outside the model:
    the hand-over to [DispatchEventWithoutResult] is logged in [delivered].
    That holds for the plugin's own retry closures too, which send a
    leaderboard request again when the lookup they wait for is delivered. *)
Definition Execute (task : BaseDispatchEventTask) : M bool :=
  match fLuaEventDispatcherPointer task with
  | None => ret false
  | Some dispatcher =>
      match GetLuaState dispatcher with
      | None => ret false
      | Some luaStatePointer =>
          steam <- get_steam;;
          match PushLuaEventTableTo steam (Some luaStatePointer) (derived task) with
          | None => ret false
          | Some eventTable =>
              log_delivery eventTable;;
              ret (DispatchEventWithoutResult dispatcher eventTable)
          end
      end
  end.

(** ** RuntimeContext.cpp: methods *)

(** [RuntimeContext::GetCachedLeaderboardHandleByName]; [name] is the
    nullable [const char*]. *)
Definition GetCachedLeaderboardHandleByName (name : option string) : M Z :=
  c <- get_context;;
  match name with
  | Some s =>
      match RuntimeContext.fLeaderboardNameHandleMap c !! s with
      | Some handle => ret handle
      | None => ret 0
      end
  | None => ret 0
  end.

(** [RuntimeContext::GetUserImageInfoFor] *)
Definition GetUserImageInfoFor (userSteamId : Z) (imageType : SteamUserImageType)
    : M SteamImageInfo :=
  steam <- get_steam;;
  if negb (CSteamID_IsValid steam userSteamId) || bool_decide (imageType = kUnknownImage)
  then ret SteamImageInfo_default
  else
    match SteamFriends steam with
    | None => ret SteamImageInfo_default
    | Some steamFriendsPointer =>
        match
          match imageType with
          | kAvatarSmall => Some (GetSmallFriendAvatar steamFriendsPointer userSteamId)
          | kAvatarMedium => Some (GetMediumFriendAvatar steamFriendsPointer userSteamId)
          | kAvatarLarge => Some (GetLargeFriendAvatar steamFriendsPointer userSteamId)
          | kUnknownImage => None
          end
        with
        | None => ret SteamImageInfo_default
        | Some imageHandle =>
            (if imageHandle =? 0
             then steam_call (Call_RequestUserInformation userSteamId false)
             else ret tt);;
            (if bool_decide (imageType = kAvatarLarge)
             then c <- get_context;;
                  put_context
                    (set_subscribed c ({[userSteamId]} ∪ RuntimeContext.fLargeAvatarSubscribedUserIdSet c))
             else ret tt);;
            ret (FromImageHandle steam imageHandle)
        end
    end.

(** Modelled from the spec: [RuntimeContext::AddEventHandlerFor] (see
    [EventHandlerSettings]): false for an invalid call-result handle,
    otherwise the one-shot handler joins the pool. *)
Definition AddEventHandlerFor (kind : CallResultKind) (settings : EventHandlerSettings) : M bool :=
  if SteamCallResultHandle settings =? k_uAPICallInvalid then ret false
  else
    c <- get_context;;
    put_context (set_handler_pool c (RuntimeContext.fSteamCallResultHandlerPool c ++ [(kind, settings)]));;
    ret true.

(** The Steam events with a global handler in [RuntimeContext]: the four
    that carry [m_nGameID], and the others. *)
Inductive GameIdSteamEvent :=
| UserAchievementIconFetched (e : UserAchievementIconFetched_t.t)
| UserAchievementStored (e : UserAchievementStored_t.t)
| UserStatsReceived (e : UserStatsReceived_t.t)
| UserStatsStored (e : UserStatsStored_t.t).

Inductive GlobalSteamEvent :=
| AvatarImageLoaded (e : AvatarImageLoaded_t.t)
| GameOverlayActivated (e : GameOverlayActivated_t.t)
| MicroTxnAuthorizationResponse (e : MicroTxnAuthorizationResponse_t.t)
| PersonaStateChange (e : PersonaStateChange_t.t)
| WithGameId (e : GameIdSteamEvent)
| UserStatsUnloaded (e : UserStatsUnloaded_t.t).

(** [new TDispatchEventTask()] followed by [AcquireEventDataFrom] on the
    event data, for each instantiation of the handler template. *)
Definition acquire_task (steam : SteamAPI) (ev : GlobalSteamEvent) : DerivedTask :=
  match ev with
  | AvatarImageLoaded e =>
      PersonaStateChangedTask
        (DispatchPersonaStateChangedEventTask.AcquireEventDataFrom_AvatarImageLoaded steam
           DispatchPersonaStateChangedEventTask.new e)
  | GameOverlayActivated e =>
      GameOverlayActivatedTask
        (DispatchGameOverlayActivatedEventTask.AcquireEventDataFrom
           DispatchGameOverlayActivatedEventTask.new e)
  | MicroTxnAuthorizationResponse e =>
      MicrotransactionAuthorizationResponseTask
        (DispatchMicrotransactionAuthorizationResponseEventTask.AcquireEventDataFrom
           DispatchMicrotransactionAuthorizationResponseEventTask.new e)
  | PersonaStateChange e =>
      PersonaStateChangedTask
        (DispatchPersonaStateChangedEventTask.AcquireEventDataFrom steam
           DispatchPersonaStateChangedEventTask.new e)
  | WithGameId (UserAchievementIconFetched e) =>
      UserAchievementIconFetchedTask
        (DispatchUserAchievementIconFetchedEventTask.AcquireEventDataFrom
           DispatchUserAchievementIconFetchedEventTask.new e)
  | WithGameId (UserAchievementStored e) =>
      UserAchievementStoredTask
        (DispatchUserAchievementStoredEventTask.AcquireEventDataFrom
           DispatchUserAchievementStoredEventTask.new e)
  | WithGameId (UserStatsReceived e) =>
      UserStatsReceivedTask
        (DispatchUserStatsReceivedEventTask.AcquireEventDataFrom
           DispatchUserStatsReceivedEventTask.new e)
  | WithGameId (UserStatsStored e) =>
      UserStatsStoredTask
        (DispatchUserStatsStoredEventTask.AcquireEventDataFrom steam
           DispatchUserStatsStoredEventTask.new e)
  | UserStatsUnloaded e =>
      UserStatsUnloadedTask
        (DispatchUserStatsUnloadedEventTask.AcquireEventDataFrom
           DispatchUserStatsUnloadedEventTask.new e)
  end.

(** The special handling of [PersonaStateChange_t] inside
    [OnHandleGlobalSteamEvent]: the large avatar of a subscribed user. *)
Definition persona_special_handling (steam : SteamAPI) (c : RuntimeContext.t)
    (ev : GlobalSteamEvent) (task : DerivedTask) : DerivedTask :=
  match ev, task with
  | PersonaStateChange e, PersonaStateChangedTask concreteTask =>
      match SteamFriends steam with
      | Some steamFriendsPointer =>
          if truthy (Z.land (PersonaStateChange_t.m_nChangeFlags e) k_EPersonaChangeAvatar) then
            if bool_decide (PersonaStateChange_t.m_ulSteamID e
                              ∈ RuntimeContext.fLargeAvatarSubscribedUserIdSet c) then
              let imageHandle :=
                GetLargeFriendAvatar steamFriendsPointer (PersonaStateChange_t.m_ulSteamID e) in
              if IsValid (FromImageHandle steam imageHandle) then
                PersonaStateChangedTask
                  (DispatchPersonaStateChangedEventTask.SetHasLargeAvatarChanged concreteTask true)
              else task
            else task
          else task
      | None => task
      end
  | _, _ => task
  end.

(** [RuntimeContext::OnHandleGlobalSteamEvent<TSteamResultType, TDispatchEventTask>] *)
Definition OnHandleGlobalSteamEvent (eventDataPointer : option GlobalSteamEvent) : M unit :=
  match eventDataPointer with
  | None => ret tt
  | Some ev =>
      steam <- get_steam;;
      c <- get_context;;
      let taskPointer :=
        {| fLuaEventDispatcherPointer := RuntimeContext.fLuaEventDispatcherPointer c;
           derived := persona_special_handling steam c ev (acquire_task steam ev) |} in
      put_context (set_queue c (RuntimeContext.fDispatchEventTaskQueue c ++ [Some taskPointer]))
  end.

(** [eventDataPointer->m_nGameID] as a [CGameID]: the icon event holds a
    [CGameID] already, the other three a [uint64]. *)
Definition event_CGameID (steam : SteamAPI) (ev : GameIdSteamEvent) : Z :=
  match ev with
  | UserAchievementIconFetched e => UserAchievementIconFetched_t.m_nGameID e
  | UserAchievementStored e => CGameID_of_uint64 steam (UserAchievementStored_t.m_nGameID e)
  | UserStatsReceived e => CGameID_of_uint64 steam (UserStatsReceived_t.m_nGameID e)
  | UserStatsStored e => CGameID_of_uint64 steam (UserStatsStored_t.m_nGameID e)
  end.

(** [RuntimeContext::OnHandleGlobalSteamEventWithGameId<...>] *)
Definition OnHandleGlobalSteamEventWithGameId (eventDataPointer : option GameIdSteamEvent) : M unit :=
  match eventDataPointer with
  | None => ret tt
  | Some ev =>
      steam <- get_steam;;
      match SteamUtils steam with
      | Some steamUtilsPointer =>
          if negb (CGameID_of_AppId steam (GetAppID steamUtilsPointer) =? event_CGameID steam ev)
          then ret tt
          else OnHandleGlobalSteamEvent (Some (WithGameId ev))
      | None => OnHandleGlobalSteamEvent (Some (WithGameId ev))
      end
  end.

(** The nine [OnSteam...] callbacks registered with the SDK. *)
Definition OnSteamAvatarImageLoaded (p : option AvatarImageLoaded_t.t) : M unit :=
  OnHandleGlobalSteamEvent (AvatarImageLoaded <$> p).
Definition OnSteamGameOverlayActivated (p : option GameOverlayActivated_t.t) : M unit :=
  OnHandleGlobalSteamEvent (GameOverlayActivated <$> p).
Definition OnSteamMicrotransactionAuthorizationReceived
    (p : option MicroTxnAuthorizationResponse_t.t) : M unit :=
  OnHandleGlobalSteamEvent (MicroTxnAuthorizationResponse <$> p).
Definition OnSteamPersonaStateChanged (p : option PersonaStateChange_t.t) : M unit :=
  OnHandleGlobalSteamEvent (PersonaStateChange <$> p).
Definition OnSteamUserAchievementIconFetched (p : option UserAchievementIconFetched_t.t) : M unit :=
  OnHandleGlobalSteamEventWithGameId (UserAchievementIconFetched <$> p).
Definition OnSteamUserAchievementStored (p : option UserAchievementStored_t.t) : M unit :=
  OnHandleGlobalSteamEventWithGameId (UserAchievementStored <$> p).
Definition OnSteamUserStatsReceived (p : option UserStatsReceived_t.t) : M unit :=
  OnHandleGlobalSteamEventWithGameId (UserStatsReceived <$> p).
Definition OnSteamUserStatsStored (p : option UserStatsStored_t.t) : M unit :=
  OnHandleGlobalSteamEventWithGameId (UserStatsStored <$> p).
Definition OnSteamUserStatsUnloaded (p : option UserStatsUnloaded_t.t) : M unit :=
  OnHandleGlobalSteamEvent (UserStatsUnloaded <$> p).

(** [SteamAPI_RunCallbacks()]: the SDK calls the registered callback of each
    event it has pending, in order.  These are the nine global callbacks;
    the completion of a call result, which runs a handler of the pool and
    can fill the leaderboard cache, is not among them. *)
Inductive PendingCallback :=
| Pending_AvatarImageLoaded (p : option AvatarImageLoaded_t.t)
| Pending_GameOverlayActivated (p : option GameOverlayActivated_t.t)
| Pending_MicroTxnAuthorizationResponse (p : option MicroTxnAuthorizationResponse_t.t)
| Pending_PersonaStateChange (p : option PersonaStateChange_t.t)
| Pending_UserAchievementIconFetched (p : option UserAchievementIconFetched_t.t)
| Pending_UserAchievementStored (p : option UserAchievementStored_t.t)
| Pending_UserStatsReceived (p : option UserStatsReceived_t.t)
| Pending_UserStatsStored (p : option UserStatsStored_t.t)
| Pending_UserStatsUnloaded (p : option UserStatsUnloaded_t.t).

Definition run_callback (cb : PendingCallback) : M unit :=
  match cb with
  | Pending_AvatarImageLoaded p => OnSteamAvatarImageLoaded p
  | Pending_GameOverlayActivated p => OnSteamGameOverlayActivated p
  | Pending_MicroTxnAuthorizationResponse p => OnSteamMicrotransactionAuthorizationReceived p
  | Pending_PersonaStateChange p => OnSteamPersonaStateChanged p
  | Pending_UserAchievementIconFetched p => OnSteamUserAchievementIconFetched p
  | Pending_UserAchievementStored p => OnSteamUserAchievementStored p
  | Pending_UserStatsReceived p => OnSteamUserStatsReceived p
  | Pending_UserStatsStored p => OnSteamUserStatsStored p
  | Pending_UserStatsUnloaded p => OnSteamUserStatsUnloaded p
  end.

Fixpoint SteamAPI_RunCallbacks (pending : list PendingCallback) : M unit :=
  match pending with
  | [] => ret tt
  | cb :: rest => run_callback cb;; SteamAPI_RunCallbacks rest
  end.

(** The [while (fDispatchEventTaskQueue.size() > 0)] loop of
    [OnCoronaEnterFrame]; [fuel] bounds the iterations, the result says
    whether the loop ran to its end. *)
Fixpoint drain_queue (fuel : nat) : M bool :=
  c <- get_context;;
  match RuntimeContext.fDispatchEventTaskQueue c with
  | [] => ret true
  | dispatchEventTaskPointer :: rest =>
      match fuel with
      | O => ret false
      | S fuel' =>
          put_context (set_queue c rest);;
          match dispatchEventTaskPointer with
          | Some task => Execute task;; drain_queue fuel'
          | None => drain_queue fuel'
          end
      end
  end.

(** [lua_getfield] on an arbitrary value: indexing anything but a table
    raises a Lua error ([None]). *)
Definition lua_getfield (v : LuaValue) (k : string) : option LuaValue :=
  match v with
  | LuaTable _ fields => Some (assoc_get k fields)
  | _ => None
  end.

Definition lua_getglobal (L : lua_State) (name : string) : LuaValue :=
  assoc_get name (lua_globals L).

(** The body of [if (isSteamShowingOverlay || fWasRenderRequested)]:
    toggling [display.currentStage.isVisible] makes Corona render the next
    frame.  The result is false when a Lua error is raised. *)
Definition force_render (L : lua_State) : M bool :=
  let display := lua_getglobal L "display" in
  if negb (lua_isnil display) then
    match lua_getfield display "currentStage" with
    | None => ret false
    | Some currentStage =>
        match lua_getfield currentStage "isVisible" with
        | None => ret false
        | Some (LuaBoolean isVisible) =>
            write_stage_isVisible (negb isVisible);;
            write_stage_isVisible isVisible;;
            ret true
        | Some _ => ret true
        end
    end
  else ret true.

Inductive Outcome := Returned (n : Z) | OutOfFuel | LuaErrorRaised.

(** [RuntimeContext::OnCoronaEnterFrame] *)
Definition OnCoronaEnterFrame (pending : list PendingCallback) (fuel : nat)
    (luaStatePointer : option lua_State) : M Outcome :=
  match luaStatePointer with
  | None => ret (Returned 0)
  | Some L =>
      SteamAPI_RunCallbacks pending;;
      finished <- drain_queue fuel;;
      if negb finished then ret OutOfFuel
      else
        steam <- get_steam;;
        c <- get_context;;
        let isSteamShowingOverlay :=
          match SteamUtils steam with
          | Some steamUtilsPointer => BOverlayNeedsPresent steamUtilsPointer
          | None => false
          end in
        ok <- (if isSteamShowingOverlay || RuntimeContext.fWasRenderRequested c
               then force_render L else ret true);;
        if negb ok then ret LuaErrorRaised
        else
          c <- get_context;;
          put_context (set_render_requested c isSteamShowingOverlay);;
          ret (Returned 0)
  end.

(** ** The Lua API: helpers *)

(** The one-character string holding a double quote. *)
Definition dquote : string := String (ascii_of_nat 34) EmptyString.

(** What a C function called from Lua hands back: its return values, or a
    Lua error raised while it ran. *)
Inductive LuaCallOutcome := LuaReturn (values : list LuaValue) | LuaThrow.

(** [CopySteamAppIdTo]: the string copied, [None] when nothing was. *)
Definition CopySteamAppIdTo (w : World) : option string :=
  match SteamUtils (steam w) with
  | Some steamUtilsPointer => Some (stream_put_unsigned (GetAppID steamUtilsPointer))
  | None =>
      match getenv_SteamAppId (host w) with
      | Some stringValue => if String.eqb stringValue EmptyString then None else Some stringValue
      | None => None
      end
  end.

(** [CanShowSteamOverlay] *)
Definition CanShowSteamOverlay (steam : SteamAPI) : bool :=
  match SteamUtils steam with
  | Some steamUtilsPointer => IsOverlayEnabled steamUtilsPointer
  | None => false
  end.

(** [CreateQueueingLeaderboardEventTaskCallbackWith]: the captured name, or
    the empty callback for a null or empty name. *)
Definition CreateQueueingLeaderboardEventTaskCallbackWith (leaderboardName : option string)
    : option string :=
  match leaderboardName with
  | Some s => if String.eqb s EmptyString then None else Some s
  | None => None
  end.

(** The block repeated in the accessors that take a user ID:
    [[
      uint64 integerId = 0;
      stringStream << userStringId;  stringStream >> integerId;
      if (!stringStream.fail()) userSteamId.SetFromUint64(integerId);
    ]]
    applied to a default-constructed [CSteamID]. *)
Definition SteamIdFromString (userStringId : string) : Z :=
  match stream_get_uint64 userStringId with
  | Some integerId => integerId
  | None => CSteamID_default
  end.

(** "Fetch the optional steam ID of the user" from argument [index];
    [None] when the function must return at once (the message is logged). *)
Definition fetch_optional_userSteamId (args : list LuaValue) (index : nat)
    (notStringMessage : string) : M (option Z) :=
  steam <- get_steam;;
  match lua_arg args index with
  | Some (LuaString userStringId) =>
      let userSteamId := SteamIdFromString userStringId in
      if negb (CSteamID_IsValid steam userSteamId) then
        CoronaLuaError "Given user ID is invalid: '%s'" [FmtString userStringId];;
        ret None
      else ret (Some userSteamId)
  | None | Some LuaNil => ret (Some CSteamID_default)
  | Some _ => CoronaLuaError notStringMessage [];; ret None
  end.

Definition non_empty (s : option string) : bool :=
  match s with
  | Some s => negb (String.eqb s EmptyString)
  | None => false
  end.

(** ** The Lua API: [steamworks.*] functions *)

(** [ImageInfo steamworks.getAchievementImageInfo(achievementName)] *)
Definition OnGetAchievementImageInfo (luaStatePointer : option lua_State) : M LuaCallOutcome :=
  match luaStatePointer with
  | None => ret (LuaReturn [])
  | Some L =>
      match lua_arg (lua_stack L) 1 with
      | Some (LuaString achievementName) =>
          steam <- get_steam;;
          match SteamUserStats steam with
          | None => ret (LuaReturn [LuaNil])
          | Some steamUserStatsPointer =>
              let imageHandle := GetAchievementIcon steamUserStatsPointer achievementName in
              let imageInfo := FromImageHandle steam imageHandle in
              match PushToLua luaStatePointer imageInfo with
              | Some v => ret (LuaReturn [v])
              | None => ret (LuaReturn [LuaNil])
              end
          end
      | _ =>
          CoronaLuaError "1st argument must be set to the achievement's unique name." [];;
          ret (LuaReturn [LuaNil])
      end
  end.

Definition display_attribute_or_unknown (stats : ISteamUserStats) (name key : string) : string :=
  match GetAchievementDisplayAttribute stats name key with
  | Some stringResult => if String.eqb stringResult EmptyString then "Unknown" else stringResult
  | None => "Unknown"
  end.

(** [AchievementInfo steamworks.getAchievementInfo(achievementName, [userSteamId])] *)
Definition OnGetAchievementInfo (luaStatePointer : option lua_State) : M LuaCallOutcome :=
  match luaStatePointer with
  | None => ret (LuaReturn [])
  | Some L =>
      match lua_arg (lua_stack L) 1 with
      | Some (LuaString achievementName) =>
          fetched <- fetch_optional_userSteamId (lua_stack L) 2
                       "2nd argument (userSteamId) is not of type string.";;
          match fetched with
          | None => ret (LuaReturn [LuaNil])
          | Some userSteamId =>
              steam <- get_steam;;
              match SteamUserStats steam with
              | None => ret (LuaReturn [LuaNil])
              | Some steamUserStatsPointer =>
                  match
                    if CSteamID_IsValid steam userSteamId
                    then GetUserAchievementAndUnlockTime steamUserStatsPointer userSteamId achievementName
                    else GetAchievementAndUnlockTime steamUserStatsPointer achievementName
                  with
                  | None => ret (LuaReturn [LuaNil])
                  | Some (wasUnlocked, unlockTime) =>
                      let t := [("unlocked"%string, LuaBoolean wasUnlocked)] in
                      let t := if wasUnlocked
                               then t ++ [("unlockTime"%string, lua_integer unlockTime)] else t in
                      let t := t ++ [("localizedName"%string,
                                      LuaString (display_attribute_or_unknown
                                                   steamUserStatsPointer achievementName "name"))] in
                      let t := t ++ [("localizedDescription"%string,
                                      LuaString (display_attribute_or_unknown
                                                   steamUserStatsPointer achievementName "desc"))] in
                      let isHidden :=
                        match GetAchievementDisplayAttribute steamUserStatsPointer
                                achievementName "hidden" with
                        | Some stringResult => String.eqb stringResult "1"
                        | None => false
                        end in
                      let t := t ++ [("hidden"%string, LuaBoolean isHidden)] in
                      ret (LuaReturn [LuaTable [] t])
                  end
              end
          end
      | _ =>
          CoronaLuaError "1st argument must be set to the achievement's unique name." [];;
          ret (LuaReturn [LuaNil])
      end
  end.

(** [ImageInfo steamworks.getUserImageInfo(type, [userSteamId])] *)
Definition OnGetUserImageInfo (luaStatePointer : option lua_State) : M LuaCallOutcome :=
  match luaStatePointer with
  | None => ret (LuaReturn [])
  | Some L =>
      match lua_arg (lua_stack L) 1 with
      | Some (LuaString imageTypeName) =>
          let imageType := SteamUserImageType_FromCoronaStringId (Some imageTypeName) in
          if bool_decide (imageType = kUnknownImage) then
            CoronaLuaError ("Given unknown image type name: " +:+ dquote +:+ "%s" +:+ dquote)
              [FmtString imageTypeName];;
            ret (LuaReturn [LuaNil])
          else
            fetched <- fetch_optional_userSteamId (lua_stack L) 2
                         "Argument (userSteamId) is not of type string.";;
            match fetched with
            | None => ret (LuaReturn [LuaNil])
            | Some userSteamId =>
                if negb (lua_upvalue_context L) then ret (LuaReturn [LuaBoolean false])
                else
                  steam <- get_steam;;
                  match SteamUser steam, SteamFriends steam with
                  | Some steamUserPointer, Some steamFriendsPointer =>
                      let userSteamId :=
                        if negb (CSteamID_IsValid steam userSteamId)
                        then GetSteamID steamUserPointer else userSteamId in
                      imageInfo <- GetUserImageInfoFor userSteamId imageType;;
                      match PushToLua luaStatePointer imageInfo with
                      | Some v => ret (LuaReturn [v])
                      | None => ret (LuaReturn [LuaNil])
                      end
                  | _, _ => ret (LuaReturn [LuaNil])
                  end
            end
      | _ =>
          CoronaLuaError "1st argument must be set to image type's unique name." [];;
          ret (LuaReturn [LuaNil])
      end
  end.

Definition personaStateName (stateIntegerId : Z) : string :=
  if stateIntegerId =? 0 then "offline"
  else if stateIntegerId =? 1 then "online"
  else if stateIntegerId =? 2 then "busy"
  else if stateIntegerId =? 3 then "away"
  else if stateIntegerId =? 4 then "snooze"
  else if stateIntegerId =? 5 then "lookingToTrade"
  else if stateIntegerId =? 6 then "lookingToPlay"
  else "unknown".

Definition relationshipName (relationshipId : Z) : string :=
  if relationshipId =? 0 then "none"
  else if relationshipId =? 1 then "blocked"
  else if relationshipId =? 2 then "requestRecipient"
  else if relationshipId =? 3 then "friend"
  else if relationshipId =? 4 then "requestInitiator"
  else if relationshipId =? 5 then "ignored"
  else if relationshipId =? 6 then "ignoredFriend"
  else if relationshipId =? 7 then "suggested"
  else "unknown".

(** [UserInfo steamworks.getUserInfo([userSteamId])] *)
Definition OnGetUserInfo (luaStatePointer : option lua_State) : M LuaCallOutcome :=
  match luaStatePointer with
  | None => ret (LuaReturn [])
  | Some L =>
      fetched <- fetch_optional_userSteamId (lua_stack L) 1
                   "Argument (userSteamId) is not of type string.";;
      match fetched with
      | None => ret (LuaReturn [LuaNil])
      | Some userSteamId =>
          steam <- get_steam;;
          match SteamUser steam, SteamFriends steam with
          | Some steamUserPointer, Some steamFriendsPointer =>
              let userSteamId :=
                if CSteamID_IsValid steam userSteamId
                   && (userSteamId =? GetSteamID steamUserPointer)
                then CSteamID_default else userSteamId in
              let given := CSteamID_IsValid steam userSteamId in
              wasRequested <-
                (if given then
                   steam_call (Call_RequestUserInformation userSteamId true);;
                   ret (RequestUserInformation steamFriendsPointer userSteamId true)
                 else ret false);;
              if wasRequested then ret (LuaReturn [LuaNil])
              else
                let userName :=
                  if given then GetFriendPersonaName steamFriendsPointer userSteamId
                  else GetPersonaName steamFriendsPointer in
                let userName :=
                  if non_empty userName then default EmptyString userName else "[unknown]"%string in
                let nickname :=
                  if given then GetPlayerNickname steamFriendsPointer userSteamId else None in
                let nickname :=
                  if non_empty nickname then default EmptyString nickname else EmptyString in
                let level :=
                  if given then GetFriendSteamLevel steamFriendsPointer userSteamId
                  else GetPlayerSteamLevel steamUserPointer in
                let stateIntegerId :=
                  if given then GetFriendPersonaState steamFriendsPointer userSteamId
                  else GetPersonaState steamFriendsPointer in
                let t := [("name"%string, LuaString userName);
                          ("nickname"%string, LuaString nickname);
                          ("steamLevel"%string, lua_integer level);
                          ("status"%string, LuaString (personaStateName stateIntegerId))] in
                let t :=
                  if given then
                    t ++ [("relationship"%string,
                           LuaString (relationshipName
                                        (GetFriendRelationship steamFriendsPointer userSteamId)))]
                  else t in
                ret (LuaReturn [LuaTable [] t])
          | _, _ => ret (LuaReturn [LuaNil])
          end
      end
  end.

(** [number/nil steamworks.getUserStatValue({statName=, type=, [userSteamId=]})] *)
Definition OnGetUserStatValue (luaStatePointer : option lua_State) : M LuaCallOutcome :=
  match luaStatePointer with
  | None => ret (LuaReturn [])
  | Some L =>
      let arg1 := arg_value (lua_stack L) 1 in
      if negb (lua_istable arg1) then
        CoronaLuaError "1st argument must be a table." [];;
        ret (LuaReturn [LuaNil])
      else
        statName <-
          match table_getfield arg1 "statName" with
          | LuaString s =>
              if String.eqb s EmptyString then
                CoronaLuaError "The '%s' field cannot be set to an empty string."
                  [FmtString "statName"];;
                ret None
              else ret (Some s)
          | _ =>
              CoronaLuaError "Table must contain a '%s' field of type string."
                [FmtString "statName"];;
              ret None
          end;;
        match statName with
        | None => ret (LuaReturn [LuaNil])
        | Some statName =>
            let valueType :=
              match table_getfield arg1 "type" with
              | LuaString s => SteamStatValueType_FromCoronaStringId (Some s)
              | _ => kUnknown
              end in
            if bool_decide (kUnknown = valueType) then
              CoronaLuaError
                "Table must contain a '%s' field set to either 'int', 'float', or 'averageRate'."
                [FmtString "type"];;
              ret (LuaReturn [LuaNil])
            else
              steam <- get_steam;;
              let field := table_getfield arg1 "userSteamId" in
              let userStringId := string_of_value field in
              (match field with
               | LuaString _ | LuaNil => ret tt
               | _ => CoronaLuaError "The '%s' field is not of type string."
                        [FmtString "userSteamId"]
               end);;
              let userSteamId :=
                match userStringId with
                | Some s => SteamIdFromString s
                | None => CSteamID_default
                end in
              (match userStringId with
               | Some s =>
                   if negb (CSteamID_IsValid steam userSteamId) then
                     CoronaLuaError "Given '%s' value is invalid: '%s'"
                       [FmtString "userSteamId"; FmtString s]
                   else ret tt
               | None => ret tt
               end);;
              if bool_decide (is_Some userStringId) && negb (CSteamID_IsValid steam userSteamId)
              then ret (LuaReturn [LuaNil])
              else
                match SteamUserStats steam with
                | None => ret (LuaReturn [LuaNil])
                | Some steamUserStatsPointer =>
                    let given := CSteamID_IsValid steam userSteamId in
                    match valueType with
                    | kInteger =>
                        match
                          if given then GetUserStat_int32 steamUserStatsPointer userSteamId statName
                          else GetStat_int32 steamUserStatsPointer statName
                        with
                        | Some intValue => ret (LuaReturn [lua_integer intValue])
                        | None => ret (LuaReturn [LuaNil])
                        end
                    | kFloat | kAverageRate =>
                        match
                          if given then GetUserStat_float steamUserStatsPointer userSteamId statName
                          else GetStat_float steamUserStatsPointer statName
                        with
                        | Some floatValue => ret (LuaReturn [LuaNumber floatValue])
                        | None => ret (LuaReturn [LuaNil])
                        end
                    | kUnknown =>
                        CoronaLuaError "Unable to fetch stat value of type '%s'."
                          [FmtString (SteamStatValueType_GetCoronaStringId valueType)];;
                        ret (LuaReturn [LuaNil])
                    end
                end
        end
  end.

(** [SteamImageWrapper::PushTexture]: the values it pushes (as many as it
    returns). *)
Definition PushTexture (w : World) (image : Z) : list LuaValue :=
  if image <=? 0 then [LuaNil]
  else
    match SteamUtils (steam w) with
    | None => [LuaNil]
    | Some _ => CoronaExternalPushTexture (host w) image
    end.

(** [(int)lua_tointeger(L, index)] of a number. *)
Definition tointeger_int (h : CoronaHost) (n : lua_Number) : Z :=
  cast_int32 (lua_tointeger h n).

(** [DisplayObject steamworks.newImageRect([parent,] imageHandle, width, height)] *)
Definition OnNewImageRect (luaStatePointer : option lua_State) : M LuaCallOutcome :=
  match luaStatePointer with
  | None => ret (LuaReturn [])
  | Some L =>
      let args := lua_stack L in
      (* optional parent GroupObject *)
      let parent :=
        match lua_arg args 1 with
        | Some (LuaTable a f) =>
            if lua_isfunction (assoc_get "insert" f) then Some (true, 2%nat) else None
        | Some (LuaNumber _) => Some (false, 1%nat)
        | _ => None
        end in
      match parent with
      | None =>
          CoronaLuaError "1st argument must be an 'imageHandle' or a parent 'GroupObject'." [];;
          ret (LuaReturn [LuaNil])
      | Some (wasGivenParent, luaArgumentIndex) =>
          h <- get_host;;
          match lua_arg args luaArgumentIndex with
          | Some (LuaNumber handleNumber) =>
              let imageHandle := tointeger_int h handleNumber in
              match lua_arg args (luaArgumentIndex + 1) with
              | Some (LuaNumber contentWidth) =>
                  match lua_arg args (luaArgumentIndex + 2) with
                  | Some (LuaNumber contentHeight) =>
                      steam <- get_steam;;
                      if IsNotValid (FromImageHandle steam imageHandle) then
                        CoronaLuaWarning "Given invalid image handle: %d" [FmtInt imageHandle];;
                        ret (LuaReturn [LuaNil])
                      else
                        pushed <- (fun w => (PushTexture w imageHandle, w));;
                        match pushed with
                        | [texture] =>
                            let display := lua_getglobal L "display" in
                            let newImageRect := table_getfield display "newImageRect" in
                            created <-
                              (if lua_istable display && lua_isfunction newImageRect then
                                 match texture_getfield h texture "filename",
                                       texture_getfield h texture "baseDir" with
                                 | Some filename, Some baseDir =>
                                     let result :=
                                       call_newImageRect h
                                         ((if wasGivenParent then [arg_value args 1] else [])
                                          ++ [filename; baseDir;
                                              LuaNumber contentWidth; LuaNumber contentHeight]) in
                                     ret (Some (if lua_istable result then Some result else None))
                                 | _, _ => ret None
                                 end
                               else ret (Some None));;
                            match created with
                            | None => ret LuaThrow
                            | Some displayObject =>
                                match texture_getfield h texture "releaseSelf" with
                                | None => ret LuaThrow
                                | Some _ =>
                                    match displayObject with
                                    | Some object => ret (LuaReturn [object])
                                    | None =>
                                        CoronaLuaWarning
                                          "Failed to generate DisplayObject for image handle: %d"
                                          [FmtInt imageHandle];;
                                        ret (LuaReturn [LuaNil])
                                    end
                                end
                            end
                        | _ =>
                            CoronaLuaWarning "Failed to generate texture for image handle: %d"
                              [FmtInt imageHandle];;
                            ret (LuaReturn [LuaNil])
                        end
                  | _ =>
                      CoronaLuaError "Argument %d must be a numeric content height."
                        [FmtInt (Z.of_nat (luaArgumentIndex + 2))];;
                      ret (LuaReturn [LuaNil])
                  end
              | _ =>
                  CoronaLuaError "Argument %d must be a numeric content width."
                    [FmtInt (Z.of_nat (luaArgumentIndex + 1))];;
                  ret (LuaReturn [LuaNil])
              end
          | _ =>
              CoronaLuaError "Argument %d must be a numeric 'imageHandle'."
                [FmtInt (Z.of_nat luaArgumentIndex)];;
              ret (LuaReturn [LuaNil])
          end
      end
  end.

(** [TextureResourceExternal steamworks.newTexture(imageHandle)] *)
Definition OnNewTexture (luaStatePointer : option lua_State) : M LuaCallOutcome :=
  match luaStatePointer with
  | None => ret (LuaReturn [])
  | Some L =>
      match lua_arg (lua_stack L) 1 with
      | Some (LuaNumber handleNumber) =>
          h <- get_host;;
          steam <- get_steam;;
          let imageHandle := tointeger_int h handleNumber in
          if IsNotValid (FromImageHandle steam imageHandle) then ret (LuaReturn [LuaNil])
          else
            pushed <- (fun w => (PushTexture w imageHandle, w));;
            ret (LuaReturn pushed)
      | _ =>
          CoronaLuaError "1st argument must be a numeric 'imageHandle'." [];;
          ret (LuaReturn [LuaNil])
      end
  end.

(** [bool steamworks.requestActivePlayerCount(listener)] *)
Definition OnRequestActivePlayerCount (luaStatePointer : option lua_State) : M LuaCallOutcome :=
  match luaStatePointer with
  | None => ret (LuaReturn [])
  | Some L =>
      let listener := arg_value (lua_stack L) 1 in
      if negb (lua_isfunction listener) then
        CoronaLuaError "1st argument must be a Lua function." [];;
        ret (LuaReturn [LuaBoolean false])
      else if negb (lua_upvalue_context L) then ret (LuaReturn [LuaBoolean false])
      else
        steam <- get_steam;;
        match SteamUserStats steam with
        | None => ret (LuaReturn [LuaBoolean false])
        | Some steamUserStatsPointer =>
            steam_call Call_GetNumberOfCurrentPlayers;;
            let resultHandle := GetNumberOfCurrentPlayers steamUserStatsPointer in
            wasSuccessful <-
              AddEventHandlerFor ForNumberOfCurrentPlayers
                {| LuaFunction_ := listener; SteamCallResultHandle := resultHandle;
                   QueuingEventTaskCallback := None |};;
            ret (LuaReturn [LuaBoolean wasSuccessful])
        end
  end.

(** [::tolower] in the classic locale, and [std::transform] of it over a string. *)
Definition tolower (c : ascii) : ascii :=
  let n := nat_of_ascii c in
  if (65 <=? n)%nat && (n <=? 90)%nat then ascii_of_nat (n + 32) else c.

Fixpoint lowercase (s : string) : string :=
  match s with
  | String c r => String (tolower c) (lowercase r)
  | EmptyString => EmptyString
  end.

(** "Fetch the required leaderboard name from the Lua table", as written in
    [OnRequestLeaderboardEntries] and [OnRequestLeaderboardInfo]. *)
Definition fetch_leaderboardName (settings : LuaValue) : M (option string) :=
  match table_getfield settings "leaderboardName" with
  | LuaString s =>
      if String.eqb s EmptyString then
        CoronaLuaError "The '%s' field cannot be set to an empty string."
          [FmtString "leaderboardName"];;
        ret None
      else ret (Some s)
  | _ =>
      CoronaLuaError "Table must contain a '%s' field of type string."
        [FmtString "leaderboardName"];;
      ret None
  end.

(** The optional ["playerScope"] field; [None] when the call must return false. *)
Definition fetch_playerScope (settings : LuaValue) : M (option ELeaderboardDataRequest) :=
  match table_getfield settings "playerScope" with
  | LuaNil => ret (Some k_ELeaderboardDataRequestGlobal)
  | LuaString scopeName =>
      let lowercaseScopeName := lowercase scopeName in
      if String.eqb lowercaseScopeName "global" then ret (Some k_ELeaderboardDataRequestGlobal)
      else if String.eqb lowercaseScopeName "globalarounduser"
      then ret (Some k_ELeaderboardDataRequestGlobalAroundUser)
      else if String.eqb lowercaseScopeName "friendsonly"
      then ret (Some k_ELeaderboardDataRequestFriends)
      else
        CoronaLuaError "Given unknown playerScope name '%s'" [FmtString scopeName];;
        ret None
  | _ =>
      CoronaLuaError "The 'playerScope' field is not of type string." [];;
      ret None
  end.

(** One of the ["startIndex"] / ["endIndex"] fields: [None] on a type error,
    otherwise whether the field is there and its value. *)
Definition fetch_index (h : CoronaHost) (settings : LuaValue) (fieldName message : string)
    : M (option (bool * Z)) :=
  match table_getfield settings fieldName with
  | LuaNumber n => ret (Some (true, tointeger_int h n))
  | LuaNil => ret (Some (false, 0))
  | _ => CoronaLuaError message [];; ret None
  end.

(** The entry range; [None] when the call must return false. *)
Definition fetch_range (h : CoronaHost) (settings : LuaValue)
    (playerScope : ELeaderboardDataRequest) : M (option (Z * Z)) :=
  if bool_decide (playerScope <> k_ELeaderboardDataRequestFriends) then
    first <- fetch_index h settings "startIndex" "The 'startIndex' field must be of type number.";;
    match first with
    | None => ret None
    | Some (hasRangeStartIndex, rangeStartIndex) =>
        last <- fetch_index h settings "endIndex" "The 'endIndex' field must be of type number.";;
        match last with
        | None => ret None
        | Some (hasRangeEndIndex, rangeEndIndex) =>
            if negb (Bool.eqb hasRangeStartIndex hasRangeEndIndex) then
              (if hasRangeStartIndex
               then CoronaLuaError "The 'endIndex' field is missing." []
               else CoronaLuaError "The 'startIndex' field is missing." []);;
              ret None
            else if hasRangeStartIndex && hasRangeEndIndex then
              let rangeStartIndex :=
                if bool_decide (k_ELeaderboardDataRequestGlobal = playerScope)
                   && (rangeStartIndex <? 1)
                then 1 else rangeStartIndex in
              let rangeEndIndex :=
                if rangeEndIndex <? rangeStartIndex then rangeStartIndex else rangeEndIndex in
              ret (Some (rangeStartIndex, rangeEndIndex))
            else
              match playerScope with
              | k_ELeaderboardDataRequestGlobal => ret (Some (1, 25))
              | k_ELeaderboardDataRequestGlobalAroundUser => ret (Some (-12, 12))
              | k_ELeaderboardDataRequestFriends => ret (Some (0, 0))
              end
        end
    end
  else ret (Some (0, 0)).

(** [bool steamworks.requestLeaderboardEntries({leaderboardName=, listener=, ...})] *)
Definition OnRequestLeaderboardEntries (luaStatePointer : option lua_State) : M LuaCallOutcome :=
  match luaStatePointer with
  | None => ret (LuaReturn [])
  | Some L =>
      if negb (lua_upvalue_context L) then ret (LuaReturn [LuaBoolean false])
      else
        steam <- get_steam;;
        match SteamUserStats steam with
        | None => ret (LuaReturn [LuaBoolean false])
        | Some steamUserStatsPointer =>
            let settings := arg_value (lua_stack L) 1 in
            if negb (lua_istable settings) then
              CoronaLuaError "1st argument must be a table." [];;
              ret (LuaReturn [LuaBoolean false])
            else
              name <- fetch_leaderboardName settings;;
              match name with
              | None => ret (LuaReturn [LuaBoolean false])
              | Some leaderboardName =>
                  scope <- fetch_playerScope settings;;
                  match scope with
                  | None => ret (LuaReturn [LuaBoolean false])
                  | Some playerScope =>
                      h <- get_host;;
                      range <- fetch_range h settings playerScope;;
                      match range with
                      | None => ret (LuaReturn [LuaBoolean false])
                      | Some (rangeStartIndex, rangeEndIndex) =>
                          let listener := table_getfield settings "listener" in
                          if negb (lua_isfunction listener) then
                            CoronaLuaError
                              "Table must contain a 'listener' field of type function." [];;
                            ret (LuaReturn [LuaBoolean false])
                          else
                            leaderboardHandle <-
                              GetCachedLeaderboardHandleByName (Some leaderboardName);;
                            if 0 =? leaderboardHandle then
                              steam_call (Call_FindLeaderboard leaderboardName);;
                              wasSuccessful <-
                                AddEventHandlerFor ForLeaderboardFindResult
                                  {| LuaFunction_ :=
                                       LuaCClosure RetryRequestLeaderboardEntries settings;
                                     SteamCallResultHandle :=
                                       FindLeaderboard steamUserStatsPointer leaderboardName;
                                     QueuingEventTaskCallback :=
                                       CreateQueueingLeaderboardEventTaskCallbackWith
                                         (Some leaderboardName) |};;
                              ret (LuaReturn [LuaBoolean wasSuccessful])
                            else
                              steam_call (Call_DownloadLeaderboardEntries leaderboardHandle
                                            playerScope rangeStartIndex rangeEndIndex);;
                              wasSuccessful <-
                                AddEventHandlerFor ForLeaderboardScoresDownloaded
                                  {| LuaFunction_ := listener;
                                     SteamCallResultHandle :=
                                       DownloadLeaderboardEntries steamUserStatsPointer
                                         leaderboardHandle playerScope
                                         rangeStartIndex rangeEndIndex;
                                     QueuingEventTaskCallback :=
                                       CreateQueueingLeaderboardEventTaskCallbackWith
                                         (Some leaderboardName) |};;
                              ret (LuaReturn [LuaBoolean wasSuccessful])
                      end
                  end
              end
        end
  end.

(** [bool steamworks.requestLeaderboardInfo({leaderboardName=, listener=})] *)
Definition OnRequestLeaderboardInfo (luaStatePointer : option lua_State) : M LuaCallOutcome :=
  match luaStatePointer with
  | None => ret (LuaReturn [])
  | Some L =>
      if negb (lua_upvalue_context L) then ret (LuaReturn [LuaBoolean false])
      else
        steam <- get_steam;;
        match SteamUserStats steam with
        | None => ret (LuaReturn [LuaBoolean false])
        | Some steamUserStatsPointer =>
            let settings := arg_value (lua_stack L) 1 in
            if negb (lua_istable settings) then
              CoronaLuaError "1st argument must be a table." [];;
              ret (LuaReturn [LuaBoolean false])
            else
              name <- fetch_leaderboardName settings;;
              match name with
              | None => ret (LuaReturn [LuaBoolean false])
              | Some leaderboardName =>
                  let listener := table_getfield settings "listener" in
                  if negb (lua_isfunction listener) then
                    CoronaLuaError "Table must contain a 'listener' field of type function." [];;
                    ret (LuaReturn [LuaBoolean false])
                  else
                    steam_call (Call_FindLeaderboard leaderboardName);;
                    wasSuccessful <-
                      AddEventHandlerFor ForLeaderboardFindResult
                        {| LuaFunction_ := listener;
                           SteamCallResultHandle :=
                             FindLeaderboard steamUserStatsPointer leaderboardName;
                           QueuingEventTaskCallback :=
                             CreateQueueingLeaderboardEventTaskCallbackWith (Some leaderboardName) |};;
                    ret (LuaReturn [LuaBoolean wasSuccessful])
              end
        end
  end.

(** [bool steamworks.requestSetHighScore({leaderboardName=, value=, listener=})].
    Its [leaderboardName] local is declared without an initial value: when
    the field is missing or empty it keeps the indeterminate value. *)
Definition OnRequestSetHighScore (luaStatePointer : option lua_State) : M LuaCallOutcome :=
  match luaStatePointer with
  | None => ret (LuaReturn [])
  | Some L =>
      if negb (lua_upvalue_context L) then ret (LuaReturn [LuaBoolean false])
      else
        steam <- get_steam;;
        match SteamUserStats steam with
        | None => ret (LuaReturn [LuaBoolean false])
        | Some steamUserStatsPointer =>
            let settings := arg_value (lua_stack L) 1 in
            if negb (lua_istable settings) then
              CoronaLuaError "1st argument must be a table." [];;
              ret (LuaReturn [LuaBoolean false])
            else
              h <- get_host;;
              name <-
                match table_getfield settings "leaderboardName" with
                | LuaString s =>
                    if negb (String.eqb s EmptyString) then ret (Some s)
                    else
                      CoronaLuaError "The '%s' field cannot be set to an empty string."
                        [FmtString "leaderboardName"];;
                      ret (uninitialized_string h)
                | _ =>
                    CoronaLuaError "Table must contain a '%s' field of type string."
                      [FmtString "leaderboardName"];;
                    ret (uninitialized_string h)
                end;;
              match name with
              | None => ret (LuaReturn [LuaBoolean false])
              | Some leaderboardName =>
                  match table_getfield settings "value" with
                  | LuaNumber n =>
                      let scoreValue := tointeger_int h n in
                      let listener := table_getfield settings "listener" in
                      if negb (lua_isfunction listener) then
                        CoronaLuaError "Table must contain a 'listener' field of type function." [];;
                        ret (LuaReturn [LuaBoolean false])
                      else
                        leaderboardHandle <- GetCachedLeaderboardHandleByName (Some leaderboardName);;
                        if 0 =? leaderboardHandle then
                          steam_call (Call_FindLeaderboard leaderboardName);;
                          wasSuccessful <-
                            AddEventHandlerFor ForLeaderboardFindResult
                              {| LuaFunction_ := LuaCClosure RetryRequestSetHighScore settings;
                                 SteamCallResultHandle :=
                                   FindLeaderboard steamUserStatsPointer leaderboardName;
                                 QueuingEventTaskCallback :=
                                   CreateQueueingLeaderboardEventTaskCallbackWith
                                     (Some leaderboardName) |};;
                          ret (LuaReturn [LuaBoolean wasSuccessful])
                        else
                          steam_call (Call_UploadLeaderboardScore leaderboardHandle scoreValue);;
                          wasSuccessful <-
                            AddEventHandlerFor ForLeaderboardScoreUploaded
                              {| LuaFunction_ := listener;
                                 SteamCallResultHandle :=
                                   UploadLeaderboardScore steamUserStatsPointer
                                     leaderboardHandle scoreValue;
                                 QueuingEventTaskCallback :=
                                   CreateQueueingLeaderboardEventTaskCallbackWith
                                     (Some leaderboardName) |};;
                          ret (LuaReturn [LuaBoolean wasSuccessful])
                  | _ =>
                      CoronaLuaError "Table must contain a '%s' field of type number."
                        [FmtString "value"];;
                      ret (LuaReturn [LuaBoolean false])
                  end
              end
        end
  end.

(** [bool steamworks.requestUserProgress([userSteamId])] *)
Definition OnRequestUserProgress (luaStatePointer : option lua_State) : M LuaCallOutcome :=
  match luaStatePointer with
  | None => ret (LuaReturn [])
  | Some L =>
      fetched <- fetch_optional_userSteamId (lua_stack L) 1
                   "Argument (userSteamId) is not of type string.";;
      match fetched with
      | None => ret (LuaReturn [LuaNil])
      | Some userSteamId =>
          steam <- get_steam;;
          match SteamUserStats steam with
          | None => ret (LuaReturn [LuaBoolean false])
          | Some steamUserStatsPointer =>
              if CSteamID_IsValid steam userSteamId then
                steam_call (Call_RequestUserStats userSteamId);;
                let resultHandle := RequestUserStats steamUserStatsPointer userSteamId in
                ret (LuaReturn [LuaBoolean (negb (resultHandle =? k_uAPICallInvalid))])
              else
                steam_call Call_RequestCurrentStats;;
                ret (LuaReturn [LuaBoolean (RequestCurrentStats steamUserStatsPointer)])
          end
      end
  end.

(** [bool steamworks.resetUserProgress()] *)
Definition OnResetUserProgress (luaStatePointer : option lua_State) : M LuaCallOutcome :=
  match luaStatePointer with
  | None => ret (LuaReturn [])
  | Some L =>
      steam <- get_steam;;
      match SteamUserStats steam with
      | Some steamUserStatsPointer =>
          steam_call (Call_ResetAllStats true);;
          ret (LuaReturn [LuaBoolean (ResetAllStats steamUserStatsPointer true)])
      | None => ret (LuaReturn [LuaBoolean false])
      end
  end.

(** [bool steamworks.resetUserStats()] *)
Definition OnResetUserStats (luaStatePointer : option lua_State) : M LuaCallOutcome :=
  match luaStatePointer with
  | None => ret (LuaReturn [])
  | Some L =>
      steam <- get_steam;;
      match SteamUserStats steam with
      | Some steamUserStatsPointer =>
          steam_call (Call_ResetAllStats false);;
          ret (LuaReturn [LuaBoolean (ResetAllStats steamUserStatsPointer false)])
      | None => ret (LuaReturn [LuaBoolean false])
      end
  end.

(** A progress argument of [setAchievementProgress]: negative values become
    zero, then [(uint32)]; [None] when the call must return false. *)
Definition fetch_progress (h : CoronaHost) (args : list LuaValue) (index : nat)
    (missingMessage notNumberMessage : string) : M (option Z) :=
  match lua_arg args index with
  | Some (LuaNumber n) =>
      let intValue := lua_tointeger h n in
      let intValue := if intValue <? 0 then 0 else intValue in
      ret (Some (cast_uint32 intValue))
  | None => CoronaLuaError missingMessage [];; ret None
  | Some _ => CoronaLuaError notNumberMessage [];; ret None
  end.

(** [bool steamworks.setAchievementProgress(achievementName, value, maxValue)] *)
Definition OnSetAchievementProgress (luaStatePointer : option lua_State) : M LuaCallOutcome :=
  match luaStatePointer with
  | None => ret (LuaReturn [])
  | Some L =>
      match lua_arg (lua_stack L) 1 with
      | Some (LuaString achievementName) =>
          h <- get_host;;
          current <- fetch_progress h (lua_stack L) 2
                       "2nd argument is missing. Expected current progress value of type number."
                       "2nd argument is not of type number.";;
          match current with
          | None => ret (LuaReturn [LuaBoolean false])
          | Some currentProgressValue =>
              maxp <- fetch_progress h (lua_stack L) 3
                        "3rd argument is missing. Expected max progress value of type number."
                        "3rd argument is not of type number.";;
              match maxp with
              | None => ret (LuaReturn [LuaBoolean false])
              | Some maxProgressValue =>
                  steam <- get_steam;;
                  match SteamUserStats steam with
                  | None => ret (LuaReturn [LuaBoolean false])
                  | Some steamUserStatsPointer =>
                      wasSuccessful <-
                        (if currentProgressValue <? maxProgressValue then
                           steam_call (Call_IndicateAchievementProgress achievementName
                                         currentProgressValue maxProgressValue);;
                           ret (IndicateAchievementProgress steamUserStatsPointer achievementName
                                  currentProgressValue maxProgressValue)
                         else
                           steam_call (Call_SetAchievement achievementName);;
                           ret (SetAchievement steamUserStatsPointer achievementName));;
                      (if wasSuccessful then steam_call Call_StoreStats else ret tt);;
                      ret (LuaReturn [LuaBoolean wasSuccessful])
                  end
              end
          end
      | _ =>
          CoronaLuaError "1st argument must be set to the achievement's unique name." [];;
          ret (LuaReturn [LuaBoolean false])
      end
  end.

(** [bool steamworks.setAchievementUnlocked(achievementName)] *)
Definition OnSetAchievementUnlocked (luaStatePointer : option lua_State) : M LuaCallOutcome :=
  match luaStatePointer with
  | None => ret (LuaReturn [])
  | Some L =>
      steam <- get_steam;;
      match SteamUserStats steam with
      | None => ret (LuaReturn [LuaBoolean false])
      | Some steamUserStatsPointer =>
          match lua_arg (lua_stack L) 1 with
          | Some (LuaString achievementName) =>
              steam_call (Call_SetAchievement achievementName);;
              let wasSuccessful := SetAchievement steamUserStatsPointer achievementName in
              (if wasSuccessful then steam_call Call_StoreStats else ret tt);;
              ret (LuaReturn [LuaBoolean wasSuccessful])
          | _ =>
              CoronaLuaError "1st argument must be set to the achievement's unique name." [];;
              ret (LuaReturn [LuaBoolean false])
          end
      end
  end.

(** [bool steamworks.showGameOverlay([overlayName])] *)
Definition OnShowGameOverlay (luaStatePointer : option lua_State) : M LuaCallOutcome :=
  match luaStatePointer with
  | None => ret (LuaReturn [])
  | Some L =>
      steam <- get_steam;;
      match SteamFriends steam with
      | None => ret (LuaReturn [LuaBoolean false])
      | Some steamFriendsPointer =>
          if negb (CanShowSteamOverlay steam) then ret (LuaReturn [LuaBoolean false])
          else
            match lua_arg (lua_stack L) 1 with
            | Some (LuaString overlayName) =>
                steam_call (Call_ActivateGameOverlay (Some overlayName));;
                ret (LuaReturn [LuaBoolean true])
            | None | Some LuaNil =>
                steam_call (Call_ActivateGameOverlay None);;
                ret (LuaReturn [LuaBoolean true])
            | Some _ =>
                CoronaLuaError "1st argument is not of type string." [];;
                ret (LuaReturn [LuaBoolean false])
            end
      end
  end.

(** [bool steamworks.showStoreOverlay([appId])] *)
Definition OnShowStoreOverlay (luaStatePointer : option lua_State) : M LuaCallOutcome :=
  match luaStatePointer with
  | None => ret (LuaReturn [])
  | Some L =>
      steam <- get_steam;;
      match SteamFriends steam with
      | None => ret (LuaReturn [LuaBoolean false])
      | Some steamFriendsPointer =>
          if negb (CanShowSteamOverlay steam) then ret (LuaReturn [LuaBoolean false])
          else
            match
              match lua_arg (lua_stack L) 1 with
              | Some (LuaString stringArgument) => Some stringArgument
              | None | Some LuaNil => Some EmptyString
              | Some _ => None
              end
            with
            | None =>
                CoronaLuaError "Given AppId argument is not of type string." [];;
                ret (LuaReturn [LuaBoolean false])
            | Some stringId =>
                copied <- (fun w => (CopySteamAppIdTo w, w));;
                let stringId :=
                  if String.eqb stringId EmptyString then default EmptyString copied else stringId in
                if String.eqb stringId EmptyString then ret (LuaReturn [LuaBoolean false])
                else
                  match stream_get_uint32 stringId with
                  | None =>
                      CoronaLuaError "Given string is an invalid app ID: '%s'" [FmtString stringId];;
                      ret (LuaReturn [LuaBoolean false])
                  | Some integerId =>
                      steam_call (Call_ActivateGameOverlayToStore integerId);;
                      ret (LuaReturn [LuaBoolean true])
                  end
            end
      end
  end.

(** [bool steamworks.showUserOverlay(userSteamId, [overlayName])] *)
Definition OnShowUserOverlay (luaStatePointer : option lua_State) : M LuaCallOutcome :=
  match luaStatePointer with
  | None => ret (LuaReturn [])
  | Some L =>
      steam <- get_steam;;
      match SteamFriends steam with
      | None => ret (LuaReturn [LuaBoolean false])
      | Some steamFriendsPointer =>
          if negb (CanShowSteamOverlay steam) then ret (LuaReturn [LuaBoolean false])
          else
            match lua_arg (lua_stack L) 1 with
            | Some (LuaString userStringId) =>
                if String.eqb userStringId EmptyString then
                  CoronaLuaError "User ID cannot be set to an empty string." [];;
                  ret (LuaReturn [LuaBoolean false])
                else
                  let userSteamId := SteamIdFromString userStringId in
                  if negb (CSteamID_IsValid steam userSteamId) then
                    CoronaLuaError "Given user ID is invalid: '%s'" [FmtString userStringId];;
                    ret (LuaReturn [LuaBoolean false])
                  else
                    match lua_arg (lua_stack L) 2 with
                    | Some (LuaString overlayName) =>
                        steam_call (Call_ActivateGameOverlayToUser (Some overlayName) userSteamId);;
                        ret (LuaReturn [LuaBoolean true])
                    | None | Some LuaNil =>
                        steam_call (Call_ActivateGameOverlayToUser (Some "steamid"%string) userSteamId);;
                        ret (LuaReturn [LuaBoolean true])
                    | Some _ =>
                        CoronaLuaError "2nd argument (overlayName) is not of type string." [];;
                        ret (LuaReturn [LuaBoolean false])
                    end
            | None =>
                CoronaLuaError "1st argument must be set to the user's steam ID." [];;
                ret (LuaReturn [LuaBoolean false])
            | Some _ =>
                CoronaLuaError "1st argument (userSteamId) is not of type string." [];;
                ret (LuaReturn [LuaBoolean false])
            end
      end
  end.

(** [bool steamworks.showWebOverlay([url])] *)
Definition OnShowWebOverlay (luaStatePointer : option lua_State) : M LuaCallOutcome :=
  match luaStatePointer with
  | None => ret (LuaReturn [])
  | Some L =>
      steam <- get_steam;;
      match SteamFriends steam with
      | None => ret (LuaReturn [LuaBoolean false])
      | Some steamFriendsPointer =>
          if negb (CanShowSteamOverlay steam) then ret (LuaReturn [LuaBoolean false])
          else
            match lua_arg (lua_stack L) 1 with
            | Some (LuaString url) =>
                steam_call (Call_ActivateGameOverlayToWebPage (Some url));;
                ret (LuaReturn [LuaBoolean true])
            | None | Some LuaNil =>
                steam_call (Call_ActivateGameOverlayToWebPage None);;
                ret (LuaReturn [LuaBoolean true])
            | Some _ =>
                CoronaLuaError "Given URL argument is not of type string." [];;
                ret (LuaReturn [LuaBoolean false])
            end
      end
  end.

(** [bool steamworks.setNotificationPosition(positionName)] *)
Definition OnSetNotificationPosition (luaStatePointer : option lua_State) : M LuaCallOutcome :=
  match luaStatePointer with
  | None => ret (LuaReturn [])
  | Some L =>
      steam <- get_steam;;
      match SteamUtils steam with
      | None => ret (LuaReturn [LuaBoolean false])
      | Some steamUtilsPointer =>
          match lua_arg (lua_stack L) 1 with
          | Some (LuaString positionName) =>
              match
                if String.eqb positionName "topLeft" then Some k_EPositionTopLeft
                else if String.eqb positionName "topRight" then Some k_EPositionTopRight
                else if String.eqb positionName "bottomLeft" then Some k_EPositionBottomLeft
                else if String.eqb positionName "bottomRight" then Some k_EPositionBottomRight
                else None
              with
              | Some positionId =>
                  steam_call (Call_SetOverlayNotificationPosition positionId);;
                  ret (LuaReturn [LuaBoolean true])
              | None =>
                  CoronaLuaError "Given unknown position name '%s'" [FmtString positionName];;
                  ret (LuaReturn [LuaBoolean false])
              end
          | _ =>
              CoronaLuaError "Given argument is not of type string." [];;
              ret (LuaReturn [LuaBoolean false])
          end
      end
  end.

(** [std::lround]: nearest integer, halfway cases away from zero, as a
    [long]; where the rounded value does not fit a [long] (or there is none)
    the result is the platform's. *)
Definition round_half_away (q : Q) : Z :=
  if Qle_bool 0 q then Qfloor (q + (1 # 2)) else - Qfloor (- q + (1 # 2)).

Definition LONG_MIN (h : CoronaHost) : Z := - LONG_MAX h - 1.

Definition std_lround (h : CoronaHost) (d : lua_Number) : Z :=
  match d with
  | Finite q =>
      let r := round_half_away q in
      if (LONG_MIN h <=? r) && (r <=? LONG_MAX h) then r else lround_unspecified h d
  | _ => lround_unspecified h d
  end.

(** The C comparison [d <= 0] on a double (false for a NaN). *)
Definition number_le_zero (d : lua_Number) : bool :=
  match d with
  | Finite q => Qle_bool q 0
  | MinusInfinity => true
  | PlusInfinity | NotANumber => false
  end.

(** The clamp of [OnSetUserStatValues] on the [long] value. *)
Definition clamp_int32 (longValue : Z) : Z :=
  if longValue >? INT32_MAX then INT32_MAX
  else if longValue <? INT32_MIN then INT32_MIN
  else longValue.

(** The body of the [for] loop of [OnSetUserStatValues] for the array
    element [element] at index [statIndex]: [wasSuccessful], false after a
    [continue]. *)
Definition set_stat_element (steamUserStatsPointer : ISteamUserStats) (statIndex : Z)
    (element : LuaValue) : M bool :=
  if negb (lua_istable element) then
    CoronaLuaError "Array element [%d] is not a table." [FmtInt statIndex];;
    ret false
  else if negb (non_empty (string_of_value (table_getfield element "statName"))) then
    CoronaLuaError "Array element [%d] must contain a '%s' field set to a non-empty string."
      [FmtInt statIndex; FmtString "statName"];;
    ret false
  else
    let statName := default EmptyString (string_of_value (table_getfield element "statName")) in
    let valueType :=
      match table_getfield element "type" with
      | LuaString s => SteamStatValueType_FromCoronaStringId (Some s)
      | _ => kUnknown
      end in
    if bool_decide (kUnknown = valueType) then
      CoronaLuaError
        "Array element [%d] must contain a '%s' field set to either 'int', 'float', or 'averageRate'."
        [FmtInt statIndex; FmtString "type"];;
      ret false
    else
      match table_getfield element "value" with
      | LuaNumber floatValue =>
          h <- get_host;;
          match valueType with
          | kFloat =>
              steam_call (Call_SetStat_float statName (float_cast floatValue));;
              ret (SetStat_float steamUserStatsPointer statName (float_cast floatValue))
          | kInteger =>
              let longValue := clamp_int32 (std_lround h floatValue) in
              steam_call (Call_SetStat_int32 statName (cast_int32 longValue));;
              ret (SetStat_int32 steamUserStatsPointer statName (cast_int32 longValue))
          | kAverageRate =>
              match table_getfield element "sessionTimeLength" with
              | LuaNumber sessionTimeLength =>
                  if number_le_zero sessionTimeLength then
                    CoronaLuaError
                      "Array element [%d] field '%s' must be set to a value greater than zero."
                      [FmtInt statIndex; FmtString "sessionTimeLength"];;
                    ret false
                  else
                    steam_call (Call_UpdateAvgRateStat statName (float_cast floatValue)
                                  sessionTimeLength);;
                    ret (UpdateAvgRateStat steamUserStatsPointer statName
                           (float_cast floatValue) sessionTimeLength)
              | _ =>
                  CoronaLuaError "Array element [%d] must contain a '%s' field set to a number."
                    [FmtInt statIndex; FmtString "sessionTimeLength"];;
                  ret false
              end
          | kUnknown => ret false
          end
      | _ =>
          CoronaLuaError "Array element [%d] must contain a '%s' field set to a number."
            [FmtInt statIndex; FmtString "value"];;
          ret false
      end.

(** The [for] loop itself, from [statIndex] on, over the elements that
    [lua_rawgeti] yields; [hasSetStat] is the flag so far. *)
Fixpoint set_stat_elements (steamUserStatsPointer : ISteamUserStats) (statIndex : Z)
    (elements : list LuaValue) (hasSetStat : bool) : M bool :=
  match elements with
  | [] => ret hasSetStat
  | element :: rest =>
      wasSuccessful <- set_stat_element steamUserStatsPointer statIndex element;;
      set_stat_elements steamUserStatsPointer (statIndex + 1) rest
        (if wasSuccessful then true else hasSetStat)
  end.

(** [bool steamworks.setUserStatValues({{statName=, type=, value=}, ...})] *)
Definition OnSetUserStatValues (luaStatePointer : option lua_State) : M LuaCallOutcome :=
  match luaStatePointer with
  | None => ret (LuaReturn [])
  | Some L =>
      let arg1 := arg_value (lua_stack L) 1 in
      if negb (lua_istable arg1) || (table_objlen arg1 <? 1) then
        CoronaLuaError "1st argument must be an array of tables." [];;
        ret (LuaReturn [LuaBoolean false])
      else
        steam <- get_steam;;
        match SteamUserStats steam with
        | None => ret (LuaReturn [LuaBoolean false])
        | Some steamUserStatsPointer =>
            hasSetStat <- set_stat_elements steamUserStatsPointer 1 (table_array arg1) false;;
            (if hasSetStat then steam_call Call_StoreStats else ret tt);;
            ret (LuaReturn [LuaBoolean hasSetStat])
        end
  end.

(** [bool steamworks.isDlcInstalled([appId])] *)
Definition OnIsDlcInstalled (luaStatePointer : option lua_State) : M LuaCallOutcome :=
  match luaStatePointer with
  | None => ret (LuaReturn [])
  | Some L =>
      steam <- get_steam;;
      match SteamApps steam with
      | None => ret (LuaReturn [LuaBoolean false])
      | Some steamApps =>
          let stringId :=
            match lua_arg (lua_stack L) 1 with
            | Some (LuaString stringArgument) => stringArgument
            | _ => EmptyString
            end in
          if String.eqb stringId EmptyString then
            CoronaLuaError "Given AppId argument should be a string." [];;
            ret (LuaReturn [LuaBoolean false])
          else
            match stream_get_uint32 stringId with
            | None =>
                CoronaLuaError "Given string is an invalid app ID: '%s'" [FmtString stringId];;
                ret (LuaReturn [LuaBoolean false])
            | Some integerId => ret (LuaReturn [LuaBoolean (BIsDlcInstalled steamApps integerId)])
            end
      end
  end.

(** [arrayOfStrings steamworks.getAchievementNames()] *)
Definition OnGetAchievementNames (luaStatePointer : option lua_State) : M LuaCallOutcome :=
  match luaStatePointer with
  | None => ret (LuaReturn [])
  | Some L =>
      steam <- get_steam;;
      match SteamUserStats steam with
      | None => ret (LuaReturn [LuaTable [] []])
      | Some steamUserStatsPointer =>
          let achievementCount := GetNumAchievements steamUserStatsPointer in
          ret (LuaReturn
                 [LuaTable
                    (map (fun achievementIndex =>
                            LuaString (default EmptyString
                                         (GetAchievementName steamUserStatsPointer achievementIndex)))
                         (seqZ 0 achievementCount))
                    []])
      end
  end.

(** [steamworks.addEventListener(eventName, listener)] and
    [steamworks.removeEventListener(eventName, listener)] *)
Definition add_or_remove_listener (add : bool) (luaStatePointer : option lua_State)
    : M LuaCallOutcome :=
  match luaStatePointer with
  | None => ret (LuaReturn [])
  | Some L =>
      let eventName := string_of_value (arg_value (lua_stack L) 1) in
      if negb (non_empty eventName) then
        CoronaLuaError "1st argument must be set to an event name." [];;
        ret (LuaReturn [])
      else
        h <- get_host;;
        let eventName := default EmptyString eventName in
        if negb (CoronaLuaIsListener h (arg_value (lua_stack L) 2) eventName) then
          CoronaLuaError "2nd argument must be set to a listener." [];;
          ret (LuaReturn [])
        else if negb (lua_upvalue_context L) then ret (LuaReturn [])
        else
          c <- get_context;;
          match RuntimeContext.fLuaEventDispatcherPointer c with
          | Some luaEventDispatcherPointer =>
              log_listener_call add eventName (arg_value (lua_stack L) 2);;
              ret (LuaReturn [])
          | None => ret (LuaReturn [])
          end
  end.

Definition OnAddEventListener : option lua_State -> M LuaCallOutcome :=
  add_or_remove_listener true.

Definition OnRemoveEventListener : option lua_State -> M LuaCallOutcome :=
  add_or_remove_listener false.

(** [OnAccessingField]: the [__index] metamethod serving the plugin's
    read-only properties; the field name is argument 2. *)
Definition OnAccessingField (luaStatePointer : option lua_State) : M LuaCallOutcome :=
  match luaStatePointer with
  | None => ret (LuaReturn [])
  | Some L =>
      match lua_arg (lua_stack L) 2 with
      | Some (LuaString fieldName) =>
          steam <- get_steam;;
          if String.eqb fieldName "appId" then
            copied <- (fun w => (CopySteamAppIdTo w, w));;
            if non_empty copied then ret (LuaReturn [LuaString (default EmptyString copied)])
            else ret (LuaReturn [LuaNil])
          else if String.eqb fieldName "appOwnerSteamId" then
            let integerId :=
              match SteamApps steam with
              | Some steamAppsPointer => GetAppOwner steamAppsPointer
              | None => 0
              end in
            if truthy integerId then ret (LuaReturn [uint64_string integerId])
            else ret (LuaReturn [LuaNil])
          else if String.eqb fieldName "userSteamId" then
            let integerId :=
              match SteamUser steam with
              | Some steamUserPointer => GetSteamID steamUserPointer
              | None => 0
              end in
            if truthy integerId then ret (LuaReturn [uint64_string integerId])
            else ret (LuaReturn [LuaNil])
          else if String.eqb fieldName "isLoggedOn" then
            ret (LuaReturn
                   [LuaBoolean
                      match SteamUser steam with
                      | Some steamUserPointer => CSteamID_IsValid steam (GetSteamID steamUserPointer)
                      | None => false
                      end])
          else if String.eqb fieldName "canShowOverlay" then
            ret (LuaReturn [LuaBoolean (CanShowSteamOverlay steam)])
          else
            CoronaLuaError "Accessing unknown field: '%s'" [FmtString fieldName];;
            ret (LuaReturn [])
      | _ => ret (LuaReturn [])
      end
  end.

(** [OnAssigningField] *)
Definition OnAssigningField (luaStatePointer : option lua_State) : M LuaCallOutcome :=
  ret (LuaReturn []).

(** The [luaFunctions] table of [luaopen_plugin_steamworks]. *)
Definition luaFunctions : list (string * (option lua_State -> M LuaCallOutcome)) :=
  [ ("getAchievementImageInfo"%string, OnGetAchievementImageInfo);
    ("getAchievementInfo"%string, OnGetAchievementInfo);
    ("getAchievementNames"%string, OnGetAchievementNames);
    ("getUserImageInfo"%string, OnGetUserImageInfo);
    ("getUserInfo"%string, OnGetUserInfo);
    ("getUserStatValue"%string, OnGetUserStatValue);
    ("newImageRect"%string, OnNewImageRect);
    ("newTexture"%string, OnNewTexture);
    ("requestActivePlayerCount"%string, OnRequestActivePlayerCount);
    ("requestLeaderboardEntries"%string, OnRequestLeaderboardEntries);
    ("requestLeaderboardInfo"%string, OnRequestLeaderboardInfo);
    ("requestSetHighScore"%string, OnRequestSetHighScore);
    ("requestUserProgress"%string, OnRequestUserProgress);
    ("resetUserProgress"%string, OnResetUserProgress);
    ("resetUserStats"%string, OnResetUserStats);
    ("setAchievementProgress"%string, OnSetAchievementProgress);
    ("setAchievementUnlocked"%string, OnSetAchievementUnlocked);
    ("setNotificationPosition"%string, OnSetNotificationPosition);
    ("setUserStatValues"%string, OnSetUserStatValues);
    ("showGameOverlay"%string, OnShowGameOverlay);
    ("showStoreOverlay"%string, OnShowStoreOverlay);
    ("showUserOverlay"%string, OnShowUserOverlay);
    ("showWebOverlay"%string, OnShowWebOverlay);
    ("isDlcInstalled"%string, OnIsDlcInstalled);
    ("addEventListener"%string, OnAddEventListener);
    ("removeEventListener"%string, OnRemoveEventListener) ].

(** * Vocabulary of the properties, and example worlds *)

Ltac unfold_monad :=
  unfold CoronaLuaError, CoronaLuaWarning in *;
  unfold bind, ret, get_steam, get_host, get_context, put_context, steam_call,
    log_diagnostic, log_delivery, write_stage_isVisible, log_listener_call in *.

Arguments SteamStatValueType_FromCoronaStringId : simpl never.
Arguments SteamUserImageType_FromCoronaStringId : simpl never.

(** The value of field [k] in the event table a push produced. *)
Definition event_field (pushed : option EventTable) (k : string) : option LuaValue :=
  match pushed with
  | Some e => Some (assoc_get k e)
  | None => None
  end.

(** The three call-result tasks of C7 with their two failure flags replaced. *)
Definition find_result_with_flags (t : DispatchLeaderboardFindResultEventTask.t)
    (isError hadIOFailure : bool) : DerivedTask :=
  LeaderboardFindResultTask
    {| DispatchLeaderboardFindResultEventTask.fHadIOFailure := hadIOFailure;
       DispatchLeaderboardFindResultEventTask.fLeaderboardName :=
         DispatchLeaderboardFindResultEventTask.fLeaderboardName t;
       DispatchLeaderboardFindResultEventTask.fIsError := isError;
       DispatchLeaderboardFindResultEventTask.fLeaderboardHandle :=
         DispatchLeaderboardFindResultEventTask.fLeaderboardHandle t;
       DispatchLeaderboardFindResultEventTask.fEntryCount :=
         DispatchLeaderboardFindResultEventTask.fEntryCount t;
       DispatchLeaderboardFindResultEventTask.fDisplayType :=
         DispatchLeaderboardFindResultEventTask.fDisplayType t;
       DispatchLeaderboardFindResultEventTask.fSortMethod :=
         DispatchLeaderboardFindResultEventTask.fSortMethod t |}.

Definition score_upload_with_flags (t : DispatchLeaderboardScoreUploadEventTask.t)
    (isError hadIOFailure : bool) : DerivedTask :=
  LeaderboardScoreUploadTask
    {| DispatchLeaderboardScoreUploadEventTask.fHadIOFailure := hadIOFailure;
       DispatchLeaderboardScoreUploadEventTask.fLeaderboardName :=
         DispatchLeaderboardScoreUploadEventTask.fLeaderboardName t;
       DispatchLeaderboardScoreUploadEventTask.fIsError := isError;
       DispatchLeaderboardScoreUploadEventTask.fLeaderboardHandle :=
         DispatchLeaderboardScoreUploadEventTask.fLeaderboardHandle t;
       DispatchLeaderboardScoreUploadEventTask.fWasScoreChanged :=
         DispatchLeaderboardScoreUploadEventTask.fWasScoreChanged t;
       DispatchLeaderboardScoreUploadEventTask.fCurrentGlobalRank :=
         DispatchLeaderboardScoreUploadEventTask.fCurrentGlobalRank t;
       DispatchLeaderboardScoreUploadEventTask.fPreviousGlobalRank :=
         DispatchLeaderboardScoreUploadEventTask.fPreviousGlobalRank t |}.

Definition player_count_with_flags (t : DispatchNumberOfCurrentPlayersEventTask.t)
    (isError hadIOFailure : bool) : DerivedTask :=
  NumberOfCurrentPlayersTask
    {| DispatchNumberOfCurrentPlayersEventTask.fHadIOFailure := hadIOFailure;
       DispatchNumberOfCurrentPlayersEventTask.fIsError := isError;
       DispatchNumberOfCurrentPlayersEventTask.fPlayerCount :=
         DispatchNumberOfCurrentPlayersEventTask.fPlayerCount t |}.

(** The SDK is not running: every accessor returns a null pointer. *)
Definition sdk_not_running (s : SteamAPI) : Prop :=
  SteamUserStats s = None /\ SteamFriends s = None /\ SteamUser s = None
  /\ SteamUtils s = None /\ SteamApps s = None.

(** ** Example worlds

    A small running SDK for application 480 with one leaderboard, the same
    SDK when the client is not running, and a host whose stage is visible. *)

Definition example_stats : ISteamUserStats := {|
  GetAchievementIcon := fun _ => 7;
  GetUserAchievementAndUnlockTime := fun _ _ => Some (true, 1500000000);
  GetAchievementAndUnlockTime := fun _ => Some (false, 0);
  GetAchievementDisplayAttribute := fun _ _ => None;
  GetUserStat_int32 := fun _ _ => Some 3;
  GetUserStat_float := fun _ _ => None;
  GetStat_int32 := fun _ => Some 3;
  GetStat_float := fun _ => None;
  GetNumberOfCurrentPlayers := 11;
  FindLeaderboard := fun _ => 12;
  DownloadLeaderboardEntries := fun _ _ _ _ => 13;
  UploadLeaderboardScore := fun _ _ => 14;
  RequestUserStats := fun _ => 15;
  RequestCurrentStats := true;
  ResetAllStats := fun _ => true;
  IndicateAchievementProgress := fun _ _ _ => true;
  SetAchievement := fun _ => true;
  SetStat_int32 := fun name _ => String.eqb name "feet";
  SetStat_float := fun _ _ => false;
  UpdateAvgRateStat := fun _ _ _ => false;
  GetNumAchievements := 2;
  GetAchievementName := fun i => if i =? 0 then Some "WIN_ONE"%string else None;
  GetLeaderboardName := fun _ => Some "Feet Traveled"%string;
  GetLeaderboardEntryCount := fun _ => 2;
  GetLeaderboardSortMethod := fun _ => k_ELeaderboardSortMethodDescending;
  GetLeaderboardDisplayType := fun _ => k_ELeaderboardDisplayTypeNumeric;
  GetDownloadedLeaderboardEntry := fun _ _ => None
|}.

Definition example_friends : ISteamFriends := {|
  GetSmallFriendAvatar := fun _ => 1;
  GetMediumFriendAvatar := fun _ => 2;
  GetLargeFriendAvatar := fun _ => -1;
  RequestUserInformation := fun _ _ => false;
  GetFriendPersonaName := fun _ => Some "friend"%string;
  GetPersonaName := Some "me"%string;
  GetPlayerNickname := fun _ => None;
  GetFriendSteamLevel := fun _ => 5;
  GetFriendPersonaState := fun _ => 1;
  GetPersonaState := 1;
  GetFriendRelationship := fun _ => 3
|}.

Definition example_user : ISteamUser := {|
  GetSteamID := 76561197960287930;
  GetPlayerSteamLevel := 9
|}.

(** Overlay idle; image 7 is a cached 64x64 icon, no other image is cached. *)
Definition example_utils : ISteamUtils := {|
  GetAppID := 480;
  IsOverlayEnabled := true;
  GetImageSize := fun image => if image =? 7 then Some (64, 64) else None;
  BOverlayNeedsPresent := false
|}.

(** The same, while the overlay needs presenting. *)
Definition example_utils_overlay : ISteamUtils := {|
  GetAppID := 480;
  IsOverlayEnabled := true;
  GetImageSize := fun image => if image =? 7 then Some (64, 64) else None;
  BOverlayNeedsPresent := true
|}.

Definition example_apps : ISteamApps := {|
  BIsDlcInstalled := fun _ => false;
  GetAppOwner := 76561197960287930
|}.

Definition example_steam : SteamAPI := {|
  SteamUserStats := Some example_stats;
  SteamFriends := Some example_friends;
  SteamUser := Some example_user;
  SteamUtils := Some example_utils;
  SteamApps := Some example_apps;
  CSteamID_IsValid := fun id => negb (id =? 0);
  CGameID_of_AppId := fun app => app;
  CGameID_of_uint64 := fun id => id
|}.

Definition example_steam_overlay : SteamAPI := {|
  SteamUserStats := Some example_stats;
  SteamFriends := Some example_friends;
  SteamUser := Some example_user;
  SteamUtils := Some example_utils_overlay;
  SteamApps := Some example_apps;
  CSteamID_IsValid := fun id => negb (id =? 0);
  CGameID_of_AppId := fun app => app;
  CGameID_of_uint64 := fun id => id
|}.

Definition example_steam_offline : SteamAPI := {|
  SteamUserStats := None;
  SteamFriends := None;
  SteamUser := None;
  SteamUtils := None;
  SteamApps := None;
  CSteamID_IsValid := fun id => negb (id =? 0);
  CGameID_of_AppId := fun app => app;
  CGameID_of_uint64 := fun id => id
|}.

(** A 64-bit platform whose [lua_tointeger] truncates toward zero and
    whose [std::lround] returns [LONG_MIN] where the rounded value does not
    fit a [long] (x86-64). *)
Definition example_host : CoronaHost := {|
  lua_tointeger := fun n =>
    match n with
    | Finite q => if Qle_bool 0 q then Qfloor q else Qceiling q
    | _ => 0
    end;
  LONG_MAX := 9223372036854775807;
  lround_unspecified := fun _ => -9223372036854775808;
  CoronaLuaIsListener := fun v _ => lua_isfunction v;
  CoronaExternalPushTexture := fun image => [LuaUserdata image];
  texture_getfield := fun v k =>
    match v with
    | LuaUserdata _ => Some (if String.eqb k "releaseSelf" then LuaFunction 1 else LuaString k)
    | _ => None
    end;
  call_newImageRect := fun _ => LuaTable [] [];
  uninitialized_string := None;
  getenv_SteamAppId := Some "480"%string
|}.

(** A Lua state of the Corona runtime: the stage is visible. *)
Definition example_L : lua_State := {|
  lua_stack := [];
  lua_upvalue_context := true;
  lua_globals :=
    [("display"%string,
      LuaTable [] [("currentStage"%string,
                    LuaTable [] [("isVisible"%string, LuaBoolean true)])])]
|}.

(** A Lua state without the [display] library. *)
Definition example_L_no_display : lua_State := {|
  lua_stack := [];
  lua_upvalue_context := true;
  lua_globals := []
|}.

Definition example_dispatcher : LuaEventDispatcher := {|
  GetLuaState := Some example_L;
  DispatchEventWithoutResult := fun _ => true
|}.

Definition example_context : RuntimeContext.t := {|
  RuntimeContext.fLuaEventDispatcherPointer := Some example_dispatcher;
  RuntimeContext.fDispatchEventTaskQueue := [];
  RuntimeContext.fLeaderboardNameHandleMap := {["Feet Traveled"%string := 42]};
  RuntimeContext.fLargeAvatarSubscribedUserIdSet := ∅;
  RuntimeContext.fSteamCallResultHandlerPool := [];
  RuntimeContext.fWasRenderRequested := false
|}.

Definition example_world_with (s : SteamAPI) : World := {|
  steam := s;
  host := example_host;
  context := example_context;
  steam_calls := [];
  diagnostics := [];
  delivered := [];
  stage_writes := [];
  listener_calls := []
|}.

Definition example_world : World := example_world_with example_steam.
Definition example_world_offline : World := example_world_with example_steam_offline.

(** ** The drain, in the words of the specification *)

(** The event table a queued task pointer delivers, if any: none for a null
    task pointer, a task without dispatcher, a dispatcher without Lua state
    and a task whose push fails. *)
Definition task_event (steam : SteamAPI) (taskPointer : option BaseDispatchEventTask)
    : option EventTable :=
  match taskPointer with
  | Some task =>
      match fLuaEventDispatcherPointer task with
      | Some dispatcher =>
          match GetLuaState dispatcher with
          | Some luaStatePointer =>
              PushLuaEventTableTo steam (Some luaStatePointer) (derived task)
          | None => None
          end
      | None => None
      end
  | None => None
  end.

Arguments task_event : simpl never.

(** The world after the whole queue was delivered in queue order. *)
Definition drained (w : World) : World := {|
  steam := steam w;
  host := host w;
  context := set_queue (context w) [];
  steam_calls := steam_calls w;
  diagnostics := diagnostics w;
  delivered :=
    delivered w
    ++ omap (task_event (steam w)) (RuntimeContext.fDispatchEventTaskQueue (context w));
  stage_writes := stage_writes w;
  listener_calls := listener_calls w
|}.

(** The world once the SDK's answers are those of [s] (between two frames
    the SDK's state moves on its own). *)
Definition with_steam (w : World) (s : SteamAPI) : World := {|
  steam := s;
  host := host w;
  context := context w;
  steam_calls := steam_calls w;
  diagnostics := diagnostics w;
  delivered := delivered w;
  stage_writes := stage_writes w;
  listener_calls := listener_calls w
|}.

(** A queued task whose push fails in [example_world]: the icon of image 8,
    which the SDK no longer has in its cache. *)
Definition example_evicted_icon_task : DerivedTask :=
  UserAchievementIconFetchedTask
    {| DispatchUserAchievementIconFetchedEventTask.fAchievementName := "WIN_ONE";
       DispatchUserAchievementIconFetchedEventTask.fIsUnlocked := true;
       DispatchUserAchievementIconFetchedEventTask.fImageHandle := 8 |}.

Definition example_overlay_task : BaseDispatchEventTask := {|
  fLuaEventDispatcherPointer := Some example_dispatcher;
  derived := GameOverlayActivatedTask
               {| DispatchGameOverlayActivatedEventTask.fWasActivated := true |}
|}.

Definition example_unloaded_task : BaseDispatchEventTask := {|
  fLuaEventDispatcherPointer := Some example_dispatcher;
  derived := UserStatsUnloadedTask
               {| DispatchUserStatsUnloadedEventTask.fUserIntegerId := 76561197960287930 |}
|}.

(** A world whose queue holds, in arrival order: an overlay task, a task
    whose push fails, a null task pointer, a task without dispatcher, and a
    stats-unloaded task. *)
Definition example_world_queued : World := {|
  steam := example_steam;
  host := example_host;
  context :=
    set_queue example_context
      [Some example_overlay_task;
       Some {| fLuaEventDispatcherPointer := Some example_dispatcher;
               derived := example_evicted_icon_task |};
       None;
       Some {| fLuaEventDispatcherPointer := None; derived := example_evicted_icon_task |};
       Some example_unloaded_task];
  steam_calls := [];
  diagnostics := [];
  delivered := [];
  stage_writes := [];
  listener_calls := []
|}.

(** The world after [new] task pointers joined the back of the queue. *)
Definition enqueued (w : World) (new : list (option BaseDispatchEventTask)) : World := {|
  steam := steam w;
  host := host w;
  context :=
    set_queue (context w) (RuntimeContext.fDispatchEventTaskQueue (context w) ++ new);
  steam_calls := steam_calls w;
  diagnostics := diagnostics w;
  delivered := delivered w;
  stage_writes := stage_writes w;
  listener_calls := listener_calls w
|}.

(** The event, if any, that a pending callback hands to the global handler. *)
Definition callback_event (cb : PendingCallback) : option GlobalSteamEvent :=
  match cb with
  | Pending_AvatarImageLoaded p => AvatarImageLoaded <$> p
  | Pending_GameOverlayActivated p => GameOverlayActivated <$> p
  | Pending_MicroTxnAuthorizationResponse p => MicroTxnAuthorizationResponse <$> p
  | Pending_PersonaStateChange p => PersonaStateChange <$> p
  | Pending_UserAchievementIconFetched p => (fun e => WithGameId (UserAchievementIconFetched e)) <$> p
  | Pending_UserAchievementStored p => (fun e => WithGameId (UserAchievementStored e)) <$> p
  | Pending_UserStatsReceived p => (fun e => WithGameId (UserStatsReceived e)) <$> p
  | Pending_UserStatsStored p => (fun e => WithGameId (UserStatsStored e)) <$> p
  | Pending_UserStatsUnloaded p => UserStatsUnloaded <$> p
  end.

(** An event is for this application unless it carries the game ID of
    another one (which can only be told when the utilities interface is
    available). *)
Definition for_this_application (steam : SteamAPI) (ev : GlobalSteamEvent) : bool :=
  match ev, SteamUtils steam with
  | WithGameId e, Some steamUtilsPointer =>
      CGameID_of_AppId steam (GetAppID steamUtilsPointer) =? event_CGameID steam e
  | _, _ => true
  end.

(** The task that snapshots event [ev] in world [w]. *)
Definition task_of_event (w : World) (ev : GlobalSteamEvent) : BaseDispatchEventTask := {|
  fLuaEventDispatcherPointer := RuntimeContext.fLuaEventDispatcherPointer (context w);
  derived := persona_special_handling (steam w) (context w) ev (acquire_task (steam w) ev)
|}.

(** The task pointers that arrive on the queue when the SDK's pump runs the
    callbacks of [pending], in arrival order. *)
Definition arrivals (w : World) (pending : list PendingCallback)
    : list (option BaseDispatchEventTask) :=
  flat_map (fun cb => match callback_event cb with
                      | Some ev => if for_this_application (steam w) ev
                                   then [Some (task_of_event w ev)] else []
                      | None => []
                      end) pending.

(** [display.currentStage.isVisible], when the host has it as a boolean. *)
Definition stage_visibility (L : lua_State) : option bool :=
  match lua_getglobal L "display" with
  | LuaTable _ displayFields =>
      match assoc_get "currentStage" displayFields with
      | LuaTable _ stageFields =>
          match assoc_get "isVisible" stageFields with
          | LuaBoolean isVisible => Some isVisible
          | _ => None
          end
      | _ => None
      end
  | _ => None
  end.

(** [BOverlayNeedsPresent] as the poll reads it: false without utilities. *)
Definition overlay_needs_present (s : SteamAPI) : bool :=
  match SteamUtils s with
  | Some steamUtilsPointer => BOverlayNeedsPresent steamUtilsPointer
  | None => false
  end.

(** One frame of the host: the SDK's state at that frame, the callbacks it
    has pending, the Lua state handed to the plugin and the loop bound. *)
Record Frame := {
  frame_steam : SteamAPI;
  frame_pending : list PendingCallback;
  frame_state : lua_State;
  frame_fuel : nat
}.

Definition run_frame (f : Frame) (w : World) : Outcome * World :=
  OnCoronaEnterFrame (frame_pending f) (frame_fuel f) (Some (frame_state f))
    (with_steam w (frame_steam f)).

(** Whether running [f] from [w] signalled the host to redraw: the stage's
    visibility was written. *)
Definition redraw_forced (f : Frame) (w : World) : Prop :=
  stage_writes (snd (run_frame f w)) <> stage_writes w.

Definition example_frame (s : SteamAPI) (L : lua_State) : Frame := {|
  frame_steam := s;
  frame_pending :=
    [Pending_GameOverlayActivated (Some {| GameOverlayActivated_t.m_bActive := 1 |})];
  frame_state := L;
  frame_fuel := 8
|}.

(** ** [setUserStatValues], in the words of the specification *)





(** The world after more SDK calls and diagnostics were logged. *)
Definition logged (w : World) (calls : list SteamCall) (messages : list Diagnostic) : World := {|
  steam := steam w;
  host := host w;
  context := context w;
  steam_calls := steam_calls w ++ calls;
  diagnostics := diagnostics w ++ messages;
  delivered := delivered w;
  stage_writes := stage_writes w;
  listener_calls := listener_calls w
|}.






(** ** Entry points while the SDK is not running *)

(** The call reports failure: it returns the boolean false, or nil. *)
Definition false_or_nil (out : LuaCallOutcome) : Prop :=
  out = LuaReturn [LuaBoolean false] \/ out = LuaReturn [LuaNil].

(** The computation [m], run while the SDK is not running, leaves the
    runtime context (queue, handler pool, caches) untouched, sends nothing
    to the SDK, delivers no event, and its result satisfies [expected]. *)
Definition offline_safe {A} (expected : A -> Prop) (m : M A) : Prop :=
  forall w : World,
    sdk_not_running (steam w) ->
    let '(a, w') := m w in
    steam w' = steam w
    /\ context w' = context w
    /\ steam_calls w' = steam_calls w
    /\ delivered w' = delivered w
    /\ expected a.

(** The same of an entry point called with a Lua state. *)
Definition offline_behaviour (expected : LuaCallOutcome -> Prop)
    (f : option lua_State -> M LuaCallOutcome) : Prop :=
  forall L : lua_State, offline_safe expected (f (Some L)).

(** What each entry of [luaFunctions] returns while the SDK is not running. *)
Definition offline_expectation (name : string) (out : LuaCallOutcome) : Prop :=
  if String.eqb name "getAchievementNames" then out = LuaReturn [LuaTable [] []]
  else if String.eqb name "addEventListener" || String.eqb name "removeEventListener"
  then out = LuaReturn []
  else false_or_nil out.

(** * Vocabulary of the further properties *)

(** [SteamUserImageType::GetCoronaStringId]: the string ID each image type
    was constructed with. *)
Definition SteamUserImageType_GetCoronaStringId (imageType : SteamUserImageType) : string :=
  match imageType with
  | kUnknownImage => "unknown"
  | kAvatarSmall => "smallAvatar"
  | kAvatarMedium => "mediumAvatar"
  | kAvatarLarge => "largeAvatar"
  end.

(** The three leaderboard task classes. *)
Definition is_leaderboard_task (d : DerivedTask) : bool :=
  match d with
  | LeaderboardScoresDownloadedTask _ | LeaderboardFindResultTask _
  | LeaderboardScoreUploadTask _ => true
  | _ => false
  end.

(** Friends whose large avatar (image 7) is cached by the SDK. *)
Definition example_friends_large_avatar : ISteamFriends := {|
  GetSmallFriendAvatar := GetSmallFriendAvatar example_friends;
  GetMediumFriendAvatar := GetMediumFriendAvatar example_friends;
  GetLargeFriendAvatar := fun _ => 7;
  RequestUserInformation := RequestUserInformation example_friends;
  GetFriendPersonaName := GetFriendPersonaName example_friends;
  GetPersonaName := GetPersonaName example_friends;
  GetPlayerNickname := GetPlayerNickname example_friends;
  GetFriendSteamLevel := GetFriendSteamLevel example_friends;
  GetFriendPersonaState := GetFriendPersonaState example_friends;
  GetPersonaState := GetPersonaState example_friends;
  GetFriendRelationship := GetFriendRelationship example_friends
|}.

Definition example_steam_large_avatar : SteamAPI := {|
  SteamUserStats := SteamUserStats example_steam;
  SteamFriends := Some example_friends_large_avatar;
  SteamUser := SteamUser example_steam;
  SteamUtils := SteamUtils example_steam;
  SteamApps := SteamApps example_steam;
  CSteamID_IsValid := CSteamID_IsValid example_steam;
  CGameID_of_AppId := CGameID_of_AppId example_steam;
  CGameID_of_uint64 := CGameID_of_uint64 example_steam
|}.

(** What a call of the Lua API may change in the world: it may add to the
    logs of SDK requests, of diagnostics and of listener calls (a call of
    [addEventListener] and one of [removeEventListener] are both entries of
    that log), to the pool of call-result handlers and to the set of
    large-avatar subscriptions.  The task queue, the leaderboard cache, the
    dispatcher pointer, the render flag, the log of events handed over for
    delivery and the log of writes to the stage's visibility stay as they
    were. *)
Definition api_frame (w w' : World) : Prop :=
  steam w' = steam w
  /\ host w' = host w
  /\ RuntimeContext.fLuaEventDispatcherPointer (context w')
     = RuntimeContext.fLuaEventDispatcherPointer (context w)
  /\ RuntimeContext.fDispatchEventTaskQueue (context w')
     = RuntimeContext.fDispatchEventTaskQueue (context w)
  /\ RuntimeContext.fLeaderboardNameHandleMap (context w')
     = RuntimeContext.fLeaderboardNameHandleMap (context w)
  /\ RuntimeContext.fWasRenderRequested (context w')
     = RuntimeContext.fWasRenderRequested (context w)
  /\ RuntimeContext.fLargeAvatarSubscribedUserIdSet (context w)
     ⊆ RuntimeContext.fLargeAvatarSubscribedUserIdSet (context w')
  /\ RuntimeContext.fSteamCallResultHandlerPool (context w)
     `prefix_of` RuntimeContext.fSteamCallResultHandlerPool (context w')
  /\ steam_calls w `prefix_of` steam_calls w'
  /\ diagnostics w `prefix_of` diagnostics w'
  /\ delivered w' = delivered w
  /\ stage_writes w' = stage_writes w
  /\ listener_calls w `prefix_of` listener_calls w'.

Definition keeps_api_frame {A} (m : M A) : Prop :=
  forall w : World, api_frame w (snd (m w)).

(** The read-only properties of the plugin's table. *)
Definition property_fields : list string :=
  ["appId"; "appOwnerSteamId"; "userSteamId"; "isLoggedOn"; "canShowOverlay"]%string.

(** The ID behind a property that holds one: the application's owner, or
    the logged-in user. *)
Definition property_id (s : SteamAPI) (fieldName : string) : option Z :=
  if String.eqb fieldName "appOwnerSteamId" then GetAppOwner <$> SteamApps s
  else if String.eqb fieldName "userSteamId" then GetSteamID <$> SteamUser s
  else None.

(** Nothing but diagnostics was added to the world. *)
Definition quiet (w0 w : World) : Prop :=
  steam w = steam w0 /\ host w = host w0 /\ context w = context w0
  /\ steam_calls w = steam_calls w0 /\ delivered w = delivered w0
  /\ stage_writes w = stage_writes w0 /\ listener_calls w = listener_calls w0
  /\ diagnostics w0 `prefix_of` diagnostics w.

(** Started in a world that is quiet with respect to [w0], the computation
    ends with a result and a world that satisfy [Q]. *)
Definition quietly {A} (w0 : World) (m : M A) (Q : A -> World -> Prop) : Prop :=
  forall w : World, quiet w0 w -> let '(a, w') := m w in Q a w'.

(** The entry range asked of the SDK is in order, starts at 1 or later for
    the global scope, and is (0, 0) for the friends scope. *)
Definition range_in_order (playerScope : ELeaderboardDataRequest) (range : Z * Z) : Prop :=
  fst range <= snd range
  /\ INT32_MIN <= fst range /\ snd range <= INT32_MAX
  /\ (playerScope = k_ELeaderboardDataRequestGlobal -> 1 <= fst range)
  /\ (playerScope = k_ELeaderboardDataRequestFriends -> range = (0, 0)).

(** The four requests that open the Steam overlay. *)
Definition is_overlay_call (c : SteamCall) : bool :=
  match c with
  | Call_ActivateGameOverlay _ | Call_ActivateGameOverlayToStore _
  | Call_ActivateGameOverlayToUser _ _ | Call_ActivateGameOverlayToWebPage _ => true
  | _ => false
  end.

(** The outcome of one of the [show...Overlay] functions: true after one
    overlay request to an SDK whose overlay is enabled, false after none. *)
Definition overlay_outcome (w : World) (out : LuaCallOutcome) (w' : World) : Prop :=
  (out = LuaReturn [LuaBoolean true]
   /\ CanShowSteamOverlay (steam w) = true
   /\ exists c, is_overlay_call c = true /\ steam_calls w' = steam_calls w ++ [c])
  \/ (out = LuaReturn [LuaBoolean false] /\ quiet w w').

(** A Lua state whose running call has the given arguments. *)
Definition example_call (arguments : list LuaValue) : lua_State := {|
  lua_stack := arguments;
  lua_upvalue_context := true;
  lua_globals := lua_globals example_L
|}.

(** * Properties *)

(** ** SteamImageInfo *)

(** C5: [IsValid] holds exactly when the handle is neither 0 nor -1 and both
    pixel sizes are strictly positive; [IsNotValid] is its negation. *)
Theorem C5_IsValid_characterisation (i : SteamImageInfo) :
  (IsValid i = true <->
     fImageHandle i <> 0 /\ fImageHandle i <> -1 /\ 0 < fPixelWidth i /\ 0 < fPixelHeight i)
  /\ IsNotValid i = negb (IsValid i).
Proof.
  split; [|reflexivity].
  unfold IsValid.
  destruct (Z.eqb_spec (fImageHandle i) 0), (Z.eqb_spec (fImageHandle i) (-1)),
    (Z.gtb_spec (fPixelWidth i) 0), (Z.gtb_spec (fPixelHeight i) 0);
    simpl; split; intros; try discriminate; try lia; auto.
Qed.

(** ** Leaderboard handle cache *)

(** C4: [GetCachedLeaderboardHandleByName] returns the cached handle of the
    name, zero when the name has none or is null, and leaves the whole world
    (cache, queue, SDK call log) as it was. *)
Theorem C4_GetCachedLeaderboardHandleByName_pure (name : option string) (w : World) :
  GetCachedLeaderboardHandleByName name w =
    (match name with
     | Some s => default 0 (RuntimeContext.fLeaderboardNameHandleMap (context w) !! s)
     | None => 0
     end, w).
Proof.
  unfold GetCachedLeaderboardHandleByName. unfold_monad.
  destruct name as [s|]; [|reflexivity].
  destruct (RuntimeContext.fLeaderboardNameHandleMap (context w) !! s); reflexivity.
Qed.

(** ** Call-result tasks: the single error flag *)

(** C7: in the event tables of the leaderboard-find, score-upload and
    player-count tasks, ["isError"] is the disjunction of the task's
    business failure flag and its I/O failure flag; a business failure, an
    I/O failure and both together give the same table.  The business failure
    flag is the one acquired from the payload: the negation of the payload's
    found or success field (and set when a leaderboard payload is acquired
    without the statistics interface). *)
Theorem C7_isError_is_disjunction_of_failures (steam : SteamAPI) (L : lua_State)
    (f : DispatchLeaderboardFindResultEventTask.t)
    (u : DispatchLeaderboardScoreUploadEventTask.t)
    (n : DispatchNumberOfCurrentPlayersEventTask.t) :
  event_field (PushLuaEventTableTo steam (Some L) (LeaderboardFindResultTask f)) "isError"
    = Some (LuaBoolean (DispatchLeaderboardFindResultEventTask.fIsError f
                        || DispatchLeaderboardFindResultEventTask.fHadIOFailure f))
  /\ event_field (PushLuaEventTableTo steam (Some L) (LeaderboardScoreUploadTask u)) "isError"
    = Some (LuaBoolean (DispatchLeaderboardScoreUploadEventTask.fIsError u
                        || DispatchLeaderboardScoreUploadEventTask.fHadIOFailure u))
  /\ event_field (PushLuaEventTableTo steam (Some L) (NumberOfCurrentPlayersTask n)) "isError"
    = Some (LuaBoolean (DispatchNumberOfCurrentPlayersEventTask.fIsError n
                        || DispatchNumberOfCurrentPlayersEventTask.fHadIOFailure n))
  /\ PushLuaEventTableTo steam (Some L) (find_result_with_flags f true false)
     = PushLuaEventTableTo steam (Some L) (find_result_with_flags f false true)
  /\ PushLuaEventTableTo steam (Some L) (find_result_with_flags f true false)
     = PushLuaEventTableTo steam (Some L) (find_result_with_flags f true true)
  /\ PushLuaEventTableTo steam (Some L) (score_upload_with_flags u true false)
     = PushLuaEventTableTo steam (Some L) (score_upload_with_flags u false true)
  /\ PushLuaEventTableTo steam (Some L) (score_upload_with_flags u true false)
     = PushLuaEventTableTo steam (Some L) (score_upload_with_flags u true true)
  /\ PushLuaEventTableTo steam (Some L) (player_count_with_flags n true false)
     = PushLuaEventTableTo steam (Some L) (player_count_with_flags n false true)
  /\ PushLuaEventTableTo steam (Some L) (player_count_with_flags n true false)
     = PushLuaEventTableTo steam (Some L) (player_count_with_flags n true true)
  /\ (forall p,
        DispatchLeaderboardFindResultEventTask.fIsError
          (DispatchLeaderboardFindResultEventTask.AcquireEventDataFrom steam f p)
        = match SteamUserStats steam with
          | Some _ => negb (truthy (LeaderboardFindResult_t.m_bLeaderboardFound p))
          | None => true
          end)
  /\ (forall p,
        DispatchLeaderboardScoreUploadEventTask.fIsError
          (DispatchLeaderboardScoreUploadEventTask.AcquireEventDataFrom steam u p)
        = match SteamUserStats steam with
          | Some _ => negb (truthy (LeaderboardScoreUploaded_t.m_bSuccess p))
          | None => true
          end)
  /\ (forall p,
        DispatchNumberOfCurrentPlayersEventTask.fIsError
          (DispatchNumberOfCurrentPlayersEventTask.AcquireEventDataFrom n p)
        = negb (truthy (NumberOfCurrentPlayers_t.m_bSuccess p))).
Proof.
  repeat split.
  - destruct f as [io name err h c d s]; destruct err, io; reflexivity.
  - destruct u as [io name err h ch cur prev]; simpl.
    destruct err, io, ch; simpl; repeat case_match; reflexivity.
  - destruct n as [io err c]; destruct err, io; reflexivity.
  - intros p. unfold DispatchLeaderboardFindResultEventTask.AcquireEventDataFrom.
    destruct (SteamUserStats steam); [|reflexivity].
    destruct (truthy _); reflexivity.
  - intros p. unfold DispatchLeaderboardScoreUploadEventTask.AcquireEventDataFrom.
    destruct (SteamUserStats steam); [|reflexivity].
    destruct (truthy _); reflexivity.
Qed.

(** ** Events of other applications *)

(** C10: when the utilities interface is available and the event's game ID
    differs from the running application's, each of the four handlers of
    game-ID events returns without creating or queuing a task: the world is
    as before. *)
Theorem C10_foreign_game_event_is_dropped (w : World) (steamUtilsPointer : ISteamUtils)
    (ev : GameIdSteamEvent) :
  SteamUtils (steam w) = Some steamUtilsPointer ->
  CGameID_of_AppId (steam w) (GetAppID steamUtilsPointer) <> event_CGameID (steam w) ev ->
  OnHandleGlobalSteamEventWithGameId (Some ev) w = (tt, w)
  /\ match ev with
     | UserAchievementIconFetched e => OnSteamUserAchievementIconFetched (Some e) w = (tt, w)
     | UserAchievementStored e => OnSteamUserAchievementStored (Some e) w = (tt, w)
     | UserStatsReceived e => OnSteamUserStatsReceived (Some e) w = (tt, w)
     | UserStatsStored e => OnSteamUserStatsStored (Some e) w = (tt, w)
     end.
Proof.
  intros Hutils Hid.
  assert (H : OnHandleGlobalSteamEventWithGameId (Some ev) w = (tt, w)).
  { unfold OnHandleGlobalSteamEventWithGameId. unfold_monad. rewrite Hutils.
    destruct (Z.eqb_spec (CGameID_of_AppId (steam w) (GetAppID steamUtilsPointer))
                (event_CGameID (steam w) ev)); [contradiction|reflexivity]. }
  split; [exact H|].
  destruct ev; exact H.
Qed.

Lemma C10_foreign_game_event_is_dropped_witness :
  OnHandleGlobalSteamEventWithGameId
    (Some (UserStatsStored {| UserStatsStored_t.m_nGameID := 570; UserStatsStored_t.m_eResult := 1 |}))
    example_world = (tt, example_world).
Proof.
  apply (C10_foreign_game_event_is_dropped example_world example_utils
           (UserStatsStored {| UserStatsStored_t.m_nGameID := 570;
                               UserStatsStored_t.m_eResult := 1 |})).
  - reflexivity.
  - simpl. lia.
Defined.

(** ** Serialising a task long after it was acquired *)

(** C8 as stated fails: the push of an achievement-icon task returns false,
    and no event table is produced, once the SDK no longer holds the image. *)
Lemma C8_counterexample_evicted_icon :
  PushLuaEventTableTo example_steam (Some example_L) example_evicted_icon_task = None.
Proof. reflexivity. Qed.

(** C8, amended: with a non-null Lua state the push fails for one kind of
    task only, the achievement-icon task whose image information is no
    longer valid in the SDK; every other task yields its event table, and
    that table does not depend on the SDK's state at the time of the push. *)
Theorem C8_push_fails_only_for_evicted_icon (steam : SteamAPI) (L : lua_State)
    (d : DerivedTask) :
  (PushLuaEventTableTo steam (Some L) d = None <->
     exists t, d = UserAchievementIconFetchedTask t
               /\ IsNotValid (FromImageHandle steam
                                (DispatchUserAchievementIconFetchedEventTask.fImageHandle t)) = true)
  /\ (forall steam', match d with
                     | UserAchievementIconFetchedTask _ => True
                     | _ => PushLuaEventTableTo steam' (Some L) d
                            = PushLuaEventTableTo steam (Some L) d
                     end).
Proof.
  split.
  - split.
    + destruct d; simpl; try discriminate.
      * unfold DispatchLeaderboardFindResultEventTask.PushLuaEventTableTo.
        case_match; discriminate.
      * unfold DispatchLeaderboardScoreUploadEventTask.PushLuaEventTableTo.
        repeat case_match; discriminate.
      * unfold DispatchNumberOfCurrentPlayersEventTask.PushLuaEventTableTo.
        case_match; discriminate.
      * unfold DispatchUserAchievementIconFetchedEventTask.PushLuaEventTableTo.
        intros H. exists d. split; [reflexivity|].
        destruct (IsNotValid _); [reflexivity|discriminate].
      * unfold DispatchUserAchievementStoredEventTask.PushLuaEventTableTo.
        case_match; discriminate.
    + intros (t & -> & H). simpl.
      unfold DispatchUserAchievementIconFetchedEventTask.PushLuaEventTableTo.
      rewrite H. reflexivity.
  - intros steam'. destruct d; auto.
Qed.

(** ** The per-frame poll: draining the queue *)

Lemma Execute_delivers (task : BaseDispatchEventTask) (w : World) :
  snd (Execute task w) =
    {| steam := steam w; host := host w; context := context w;
       steam_calls := steam_calls w; diagnostics := diagnostics w;
       delivered := delivered w ++ option_list (task_event (steam w) (Some task));
       stage_writes := stage_writes w; listener_calls := listener_calls w |}.
Proof.
  unfold Execute, task_event. unfold_monad.
  destruct w; simpl.
  destruct (fLuaEventDispatcherPointer task) as [dispatcher|]; simpl;
    [|rewrite app_nil_r; reflexivity].
  destruct (GetLuaState dispatcher) as [L|]; simpl; [|rewrite app_nil_r; reflexivity].
  destruct (PushLuaEventTableTo _ _ _); simpl; [reflexivity|rewrite app_nil_r; reflexivity].
Qed.

Lemma omap_snoc_head {A B} (f : A -> option B) (x : A) (l : list A) (pre : list B) :
  (pre ++ option_list (f x)) ++ omap f l = pre ++ omap f (x :: l).
Proof. simpl. destruct (f x); simpl; rewrite <- ?app_assoc; reflexivity. Qed.

Lemma drain_queue_drains (fuel : nat) (w : World) :
  (length (RuntimeContext.fDispatchEventTaskQueue (context w)) <= fuel)%nat ->
  drain_queue fuel w = (true, drained w).
Proof.
  remember (RuntimeContext.fDispatchEventTaskQueue (context w)) as q eqn:Hq.
  revert fuel w Hq.
  induction q as [|p q IH]; intros fuel w Hq Hfuel.
  - destruct fuel; simpl; unfold_monad; rewrite <- Hq;
      unfold drained; rewrite <- Hq; simpl; rewrite app_nil_r;
      destruct w as [s h [d0 q0 m0 u0 p0 r0] sc dg dl sw lc]; simpl in *; subst; reflexivity.
  - destruct fuel as [|fuel]; [simpl in Hfuel; lia|].
    simpl. unfold_monad. rewrite <- Hq.
    destruct p as [task|].
    + pose proof (Execute_delivers task
                    {| steam := steam w; host := host w; context := set_queue (context w) q;
                       steam_calls := steam_calls w; diagnostics := diagnostics w;
                       delivered := delivered w; stage_writes := stage_writes w;
                       listener_calls := listener_calls w |}) as HE.
      destruct (Execute task _) as [b w1]. simpl in HE. subst w1.
      rewrite IH; [|reflexivity|simpl in *; lia].
      f_equal. unfold drained. simpl. rewrite <- Hq.
      rewrite omap_snoc_head. reflexivity.
    + rewrite IH; [|reflexivity|simpl in *; lia].
      f_equal. unfold drained. simpl. rewrite <- Hq. reflexivity.
Qed.

Lemma enqueued_nil (w : World) : enqueued w [] = w.
Proof.
  destruct w as [s h [d0 q0 m0 u0 p0 r0] sc dg dl sw lc].
  unfold enqueued, set_queue; simpl. rewrite app_nil_r. reflexivity.
Qed.

Lemma enqueued_enqueued (w : World) (l1 l2 : list (option BaseDispatchEventTask)) :
  enqueued (enqueued w l1) l2 = enqueued w (l1 ++ l2).
Proof. unfold enqueued, set_queue; simpl. rewrite app_assoc. reflexivity. Qed.

(** A handled event joins the back of the queue; nothing else changes. *)
Lemma OnHandleGlobalSteamEvent_enqueues (p : option GlobalSteamEvent) (w : World) :
  OnHandleGlobalSteamEvent p w
  = (tt, enqueued w (match p with Some ev => [Some (task_of_event w ev)] | None => [] end)).
Proof.
  destruct p as [ev|]; simpl; unfold_monad.
  - reflexivity.
  - rewrite enqueued_nil. reflexivity.
Qed.

Lemma OnHandleGlobalSteamEventWithGameId_enqueues (p : option GameIdSteamEvent) (w : World) :
  OnHandleGlobalSteamEventWithGameId p w
  = (tt, enqueued w (match p with
                     | Some ev => if for_this_application (steam w) (WithGameId ev)
                                  then [Some (task_of_event w (WithGameId ev))] else []
                     | None => []
                     end)).
Proof.
  destruct p as [ev|]; unfold OnHandleGlobalSteamEventWithGameId, for_this_application.
  - unfold bind at 1. unfold get_steam.
    destruct (SteamUtils (steam w)) as [u|].
    + destruct (_ =? _); cbn [negb].
      * apply (OnHandleGlobalSteamEvent_enqueues (Some (WithGameId ev))).
      * unfold ret. rewrite enqueued_nil. reflexivity.
    + apply (OnHandleGlobalSteamEvent_enqueues (Some (WithGameId ev))).
  - unfold ret. rewrite enqueued_nil. reflexivity.
Qed.

Lemma run_callback_enqueues (cb : PendingCallback) (w : World) :
  run_callback cb w = (tt, enqueued w (arrivals w [cb])).
Proof.
  unfold arrivals. cbn [flat_map]. rewrite app_nil_r.
  destruct cb as [p|p|p|p|p|p|p|p|p]; cbn [run_callback callback_event];
    unfold OnSteamAvatarImageLoaded, OnSteamGameOverlayActivated,
      OnSteamMicrotransactionAuthorizationReceived, OnSteamPersonaStateChanged,
      OnSteamUserAchievementIconFetched, OnSteamUserAchievementStored,
      OnSteamUserStatsReceived, OnSteamUserStatsStored, OnSteamUserStatsUnloaded;
    first [rewrite OnHandleGlobalSteamEvent_enqueues
          |rewrite OnHandleGlobalSteamEventWithGameId_enqueues];
    destruct p; reflexivity.
Qed.

Lemma arrivals_enqueued (w : World) (new : list (option BaseDispatchEventTask))
    (pending : list PendingCallback) :
  arrivals (enqueued w new) pending = arrivals w pending.
Proof. reflexivity. Qed.

Lemma arrivals_length (w : World) (pending : list PendingCallback) :
  (length (arrivals w pending) <= length pending)%nat.
Proof.
  unfold arrivals. induction pending as [|cb rest IH]; simpl; [lia|].
  rewrite length_app.
  destruct (callback_event cb) as [ev|]; [destruct (for_this_application _ _)|]; simpl; lia.
Qed.

(** The pump appends the arriving tasks to the back of the queue, in the
    order of the callbacks. *)
Lemma SteamAPI_RunCallbacks_enqueues (pending : list PendingCallback) (w : World) :
  SteamAPI_RunCallbacks pending w = (tt, enqueued w (arrivals w pending)).
Proof.
  revert w. induction pending as [|cb rest IH]; intros w.
  - simpl. unfold_monad. rewrite enqueued_nil. reflexivity.
  - cbn [SteamAPI_RunCallbacks]. unfold bind.
    rewrite run_callback_enqueues, IH, arrivals_enqueued, enqueued_enqueued.
    unfold arrivals. cbn [flat_map]. rewrite app_nil_r. reflexivity.
Qed.

(** The forced redraw writes the stage's visibility and nothing else. *)
Lemma force_render_writes_stage_only (L : lua_State) (w : World) :
  exists ok writes,
    force_render L w =
      (ok, {| steam := steam w; host := host w; context := context w;
              steam_calls := steam_calls w; diagnostics := diagnostics w;
              delivered := delivered w; stage_writes := stage_writes w ++ writes;
              listener_calls := listener_calls w |})
    /\ (forall isVisible, stage_visibility L = Some isVisible ->
          ok = true /\ writes = [negb isVisible; isVisible])
    /\ (lua_getglobal L "display" = LuaNil -> ok = true /\ writes = []).
Proof.
  unfold force_render, stage_visibility. unfold_monad.
  destruct w as [s h c sc dg dl sw lc]; simpl.
  destruct (lua_getglobal L "display") as [| | | |a f| | |] eqn:Hd; simpl;
    try (exists false, []; rewrite app_nil_r; repeat split; intros; discriminate).
  - exists true, []. rewrite app_nil_r. repeat split; intros; discriminate.
  - destruct (assoc_get "currentStage" f) as [| | | |a' g| | |] eqn:Hs; simpl;
      try (exists false, []; rewrite app_nil_r; repeat split; intros; discriminate).
    destruct (assoc_get "isVisible" g) as [|b| | | | | |] eqn:Hv; simpl;
      try (exists true, []; rewrite app_nil_r; repeat split; intros; discriminate).
    exists true, [negb b; b]. rewrite <- app_assoc. simpl.
    repeat split; intros; try discriminate; congruence.
Qed.

(** C1: on a poll tick with a Lua state, the SDK's pump first appends the
    arriving tasks to the back of the queue; the drain loop then ends (given
    enough loop iterations) with an empty queue; the event tables handed to
    Lua are those of the tasks queued before the tick followed by those that
    arrived during it, in that order (first in, first out); and a task
    pointer that delivers nothing (null, no dispatcher, no Lua state, failed
    push) is skipped while the tasks before and after it are still
    delivered. *)
Theorem C1_poll_drains_queue_in_fifo_order (pending : list PendingCallback) (fuel : nat)
    (L : lua_State) (w : World) :
  let queue := RuntimeContext.fDispatchEventTaskQueue (context w) ++ arrivals w pending in
  (length queue <= fuel)%nat ->
  let '(out, w') := OnCoronaEnterFrame pending fuel (Some L) w in
  out <> OutOfFuel
  /\ RuntimeContext.fDispatchEventTaskQueue (context w') = []
  /\ delivered w' = delivered w ++ omap (task_event (steam w)) queue
  /\ (forall before failing after,
        queue = before ++ failing :: after ->
        task_event (steam w) failing = None ->
        delivered w' =
          delivered w ++ omap (task_event (steam w)) before
                      ++ omap (task_event (steam w)) after).
Proof.
  intros queue Hfuel.
  assert (Hmain :
    let '(out, w') := OnCoronaEnterFrame pending fuel (Some L) w in
    out <> OutOfFuel
    /\ RuntimeContext.fDispatchEventTaskQueue (context w') = []
    /\ delivered w' = delivered w ++ omap (task_event (steam w)) queue).
  { unfold OnCoronaEnterFrame. unfold bind at 1.
    rewrite SteamAPI_RunCallbacks_enqueues.
    unfold bind at 1. rewrite drain_queue_drains by exact Hfuel.
    cbn [negb]. unfold_monad. cbn [steam context drained enqueued set_queue
      RuntimeContext.fWasRenderRequested].
    destruct (_ || _).
    - destruct (force_render_writes_stage_only L (drained (enqueued w (arrivals w pending))))
        as (ok & writes & -> & _).
      destruct ok; cbn; repeat split; discriminate.
    - cbn. repeat split; discriminate. }
  destruct (OnCoronaEnterFrame pending fuel (Some L) w) as [out w'].
  destruct Hmain as (H1 & H2 & H3). repeat split; try assumption.
  intros before failing after Hq Hfail.
  rewrite H3, Hq, omap_app. simpl. rewrite Hfail. reflexivity.
Qed.

Lemma C1_poll_drains_queue_in_fifo_order_witness :
  let pending := [Pending_GameOverlayActivated (Some {| GameOverlayActivated_t.m_bActive := 0 |})] in
  let w' := snd (OnCoronaEnterFrame pending 8 (Some example_L) example_world_queued) in
  (length (RuntimeContext.fDispatchEventTaskQueue (context example_world_queued)
           ++ arrivals example_world_queued pending) <= 8)%nat
  /\ RuntimeContext.fDispatchEventTaskQueue (context w') = []
  /\ delivered w' =
       [ [("name"%string, LuaString "overlayStatus"); ("phase"%string, LuaString "shown")];
         [("name"%string, LuaString "userProgressUnload");
          ("userSteamId"%string, LuaString "76561197960287930")];
         [("name"%string, LuaString "overlayStatus"); ("phase"%string, LuaString "hidden")] ].
Proof.
  intros pending w'.
  assert (Hfuel : (length (RuntimeContext.fDispatchEventTaskQueue (context example_world_queued)
                           ++ arrivals example_world_queued pending) <= 8)%nat).
  { vm_compute. lia. }
  split; [exact Hfuel|].
  pose proof (C1_poll_drains_queue_in_fifo_order pending 8 example_L example_world_queued Hfuel)
    as H.
  subst w'. destruct (OnCoronaEnterFrame pending 8 (Some example_L) example_world_queued)
    as [out w'] eqn:E.
  destruct H as (_ & Hq & Hd & _). simpl. split; [exact Hq|].
  rewrite Hd. reflexivity.
Defined.

(** ** The per-frame poll: forcing a redraw for the overlay *)

(** One frame on a host whose stage has a boolean visibility. *)
Lemma OnCoronaEnterFrame_on_visible_stage (pending : list PendingCallback) (fuel : nat)
    (L : lua_State) (w : World) (isVisible : bool) :
  stage_visibility L = Some isVisible ->
  (length (RuntimeContext.fDispatchEventTaskQueue (context w)) + length pending <= fuel)%nat ->
  exists w',
    OnCoronaEnterFrame pending fuel (Some L) w = (Returned 0, w')
    /\ stage_writes w' =
         stage_writes w
         ++ (if overlay_needs_present (steam w) || RuntimeContext.fWasRenderRequested (context w)
             then [negb isVisible; isVisible] else [])
    /\ RuntimeContext.fWasRenderRequested (context w') = overlay_needs_present (steam w)
    /\ RuntimeContext.fDispatchEventTaskQueue (context w') = [].
Proof.
  intros Hstage Hfuel.
  unfold OnCoronaEnterFrame. unfold bind at 1.
  rewrite SteamAPI_RunCallbacks_enqueues.
  pose proof (arrivals_length w pending) as Hnew.
  set (new := arrivals w pending) in *.
  unfold bind at 1. rewrite drain_queue_drains
    by (cbn [enqueued context set_queue RuntimeContext.fDispatchEventTaskQueue];
        rewrite length_app; lia).
  cbn [negb]. unfold_monad.
  cbn [steam context drained enqueued set_queue RuntimeContext.fWasRenderRequested].
  fold (overlay_needs_present (steam w)).
  destruct (overlay_needs_present (steam w) || RuntimeContext.fWasRenderRequested (context w)).
  - destruct (force_render_writes_stage_only L (drained (enqueued w new)))
      as (ok & writes & -> & Hvis & _).
    destruct (Hvis _ Hstage) as [-> ->].
    cbn. eexists. split; [reflexivity|]. cbn. repeat split.
  - cbn. eexists. split; [reflexivity|]. cbn. rewrite app_nil_r. repeat split.
Qed.

Lemma app_two_neq {A} (l : list A) (a b : A) : l ++ [a; b] <> l.
Proof.
  intros H. apply (f_equal length) in H. rewrite length_app in H. simpl in H. lia.
Qed.

Lemma redraw_forced_iff (f : Frame) (w : World) (isVisible : bool) :
  stage_visibility (frame_state f) = Some isVisible ->
  (length (RuntimeContext.fDispatchEventTaskQueue (context w)) + length (frame_pending f)
     <= frame_fuel f)%nat ->
  (redraw_forced f w <->
     overlay_needs_present (frame_steam f) = true
     \/ RuntimeContext.fWasRenderRequested (context w) = true)
  /\ fst (run_frame f w) = Returned 0
  /\ RuntimeContext.fWasRenderRequested (context (snd (run_frame f w)))
     = overlay_needs_present (frame_steam f)
  /\ RuntimeContext.fDispatchEventTaskQueue (context (snd (run_frame f w))) = [].
Proof.
  intros Hstage Hfuel. unfold redraw_forced, run_frame.
  destruct (OnCoronaEnterFrame_on_visible_stage (frame_pending f) (frame_fuel f)
              (frame_state f) (with_steam w (frame_steam f)) isVisible Hstage Hfuel)
    as (w' & -> & Hw & Hflag & Hq).
  cbn [fst snd]. cbn [with_steam steam context stage_writes] in *.
  repeat split; try assumption.
  - intros Hforced. rewrite Hw in Hforced.
    destruct (overlay_needs_present (frame_steam f)); [left; reflexivity|].
    destruct (RuntimeContext.fWasRenderRequested (context w)); [right; reflexivity|].
    simpl in Hforced. rewrite app_nil_r in Hforced. contradiction.
  - intros Hor. rewrite Hw.
    assert (overlay_needs_present (frame_steam f)
            || RuntimeContext.fWasRenderRequested (context w) = true) as ->.
    { destruct Hor as [-> | ->]; [reflexivity|apply orb_true_r]. }
    apply app_two_neq.
Qed.

(** The drain loop writes nothing to the stage. *)
Lemma drain_queue_keeps_stage_writes (fuel : nat) (w : World) :
  stage_writes (snd (drain_queue fuel w)) = stage_writes w.
Proof.
  revert w. induction fuel as [|fuel IH]; intros w; cbn [drain_queue]; unfold_monad.
  - destruct (RuntimeContext.fDispatchEventTaskQueue (context w)); reflexivity.
  - destruct (RuntimeContext.fDispatchEventTaskQueue (context w)) as [|p q]; [reflexivity|].
    destruct p as [task|].
    + match goal with |- context [Execute task ?w1] =>
        pose proof (Execute_delivers task w1) as HE; destruct (Execute task w1) as [b w2]
      end.
      cbn [snd] in HE. rewrite IH. subst w2. reflexivity.
    + rewrite IH. reflexivity.
Qed.

(** On a host whose global [display] is nil a frame writes nothing to the
    stage, whatever the overlay and the queue. *)
Lemma OnCoronaEnterFrame_without_display (pending : list PendingCallback) (fuel : nat)
    (L : lua_State) (w : World) :
  lua_getglobal L "display" = LuaNil ->
  stage_writes (snd (OnCoronaEnterFrame pending fuel (Some L) w)) = stage_writes w.
Proof.
  intros Hnil. unfold OnCoronaEnterFrame. unfold bind at 1.
  rewrite SteamAPI_RunCallbacks_enqueues.
  set (w1 := enqueued w (arrivals w pending)).
  change (stage_writes w) with (stage_writes w1).
  unfold bind at 1.
  pose proof (drain_queue_keeps_stage_writes fuel w1) as Hdrain.
  destruct (drain_queue fuel w1) as [finished w2]. cbn [snd] in Hdrain.
  rewrite <- Hdrain. destruct finished; cbn [negb]; [|reflexivity].
  unfold_monad.
  match goal with |- context [if ?c then force_render L else _] => destruct c end.
  - destruct (force_render_writes_stage_only L w2) as (ok & writes & -> & _ & Hwrites).
    destruct (Hwrites Hnil) as [-> ->]. cbn. apply app_nil_r.
  - reflexivity.
Qed.

(** C3 as stated fails: on a host without the [display] library the poll
    signals no redraw although the SDK reports that the overlay needs
    presenting. *)
Lemma C3_counterexample_host_without_display :
  overlay_needs_present (frame_steam (example_frame example_steam_overlay example_L_no_display))
    = true
  /\ ~ redraw_forced (example_frame example_steam_overlay example_L_no_display) example_world.
Proof.
  split; [reflexivity|].
  unfold redraw_forced. intros H. apply H. reflexivity.
Qed.

(** C3, amended: on a host whose [display.currentStage.isVisible] is a
    boolean, and with a non-null Lua state, a frame forces a redraw exactly
    when the SDK reports that the overlay needs presenting at that frame or
    reported so at the frame just before; so after the overlay stops needing
    presentation the redraw is forced for one more frame and no further.
    On a host whose global [display] is nil no frame forces a redraw. *)
Theorem C3_redraw_forced_this_or_previous_frame (f1 f2 f3 : Frame) (w : World)
    (v1 v2 v3 : bool) :
  stage_visibility (frame_state f1) = Some v1 ->
  stage_visibility (frame_state f2) = Some v2 ->
  stage_visibility (frame_state f3) = Some v3 ->
  (length (RuntimeContext.fDispatchEventTaskQueue (context w)) + length (frame_pending f1)
     <= frame_fuel f1)%nat ->
  (length (frame_pending f2) <= frame_fuel f2)%nat ->
  (length (frame_pending f3) <= frame_fuel f3)%nat ->
  let w1 := snd (run_frame f1 w) in
  let w2 := snd (run_frame f2 w1) in
  (redraw_forced f1 w <->
     overlay_needs_present (frame_steam f1) = true
     \/ RuntimeContext.fWasRenderRequested (context w) = true)
  /\ (redraw_forced f2 w1 <->
        overlay_needs_present (frame_steam f2) = true
        \/ overlay_needs_present (frame_steam f1) = true)
  /\ (redraw_forced f3 w2 <->
        overlay_needs_present (frame_steam f3) = true
        \/ overlay_needs_present (frame_steam f2) = true)
  /\ (overlay_needs_present (frame_steam f1) = true ->
      overlay_needs_present (frame_steam f2) = false ->
      overlay_needs_present (frame_steam f3) = false ->
      redraw_forced f2 w1 /\ ~ redraw_forced f3 w2)
  /\ (forall (f : Frame) (w0 : World),
        lua_getglobal (frame_state f) "display" = LuaNil -> ~ redraw_forced f w0).
Proof.
  intros H1 H2 H3 F1 F2 F3 w1 w2.
  destruct (redraw_forced_iff f1 w v1 H1 F1) as (R1 & _ & Flag1 & Q1).
  fold w1 in Flag1, Q1.
  assert (F2' : (length (RuntimeContext.fDispatchEventTaskQueue (context w1))
                 + length (frame_pending f2) <= frame_fuel f2)%nat)
    by (rewrite Q1; simpl; lia).
  destruct (redraw_forced_iff f2 w1 v2 H2 F2') as (R2 & _ & Flag2 & Q2).
  fold w2 in Flag2, Q2.
  assert (F3' : (length (RuntimeContext.fDispatchEventTaskQueue (context w2))
                 + length (frame_pending f3) <= frame_fuel f3)%nat)
    by (rewrite Q2; simpl; lia).
  destruct (redraw_forced_iff f3 w2 v3 H3 F3') as (R3 & _ & _ & _).
  rewrite Flag1 in R2. rewrite Flag2 in R3.
  split; [exact R1|]. split; [exact R2|]. split; [exact R3|].
  split.
  - intros O1 O2 O3. split.
    + apply R2. right. exact O1.
    + intros Hf. apply R3 in Hf. destruct Hf; congruence.
  - intros f w0 Hnil Hf. apply Hf. unfold run_frame.
    apply (OnCoronaEnterFrame_without_display (frame_pending f) (frame_fuel f)
             (frame_state f) (with_steam w0 (frame_steam f)) Hnil).
Qed.

Lemma C3_redraw_forced_this_or_previous_frame_witness :
  let shown := example_frame example_steam_overlay example_L in
  let idle := example_frame example_steam example_L in
  let w1 := snd (run_frame shown example_world) in
  let w2 := snd (run_frame idle w1) in
  stage_visibility example_L = Some true
  /\ (length (RuntimeContext.fDispatchEventTaskQueue (context example_world))
      + length (frame_pending shown) <= frame_fuel shown)%nat
  /\ (length (frame_pending idle) <= frame_fuel idle)%nat
  /\ redraw_forced shown example_world
  /\ redraw_forced idle w1
  /\ ~ redraw_forced idle w2.
Proof.
  intros shown idle w1 w2.
  assert (Hs : stage_visibility example_L = Some true) by reflexivity.
  assert (Fa : (length (RuntimeContext.fDispatchEventTaskQueue (context example_world))
                + length (frame_pending shown) <= frame_fuel shown)%nat)
    by (vm_compute; lia).
  assert (Fb : (length (frame_pending idle) <= frame_fuel idle)%nat) by (vm_compute; lia).
  destruct (C3_redraw_forced_this_or_previous_frame shown idle idle example_world
              true true true Hs Hs Hs Fa Fb Fb) as (R1 & _ & _ & Hextra & _).
  split; [exact Hs|]. split; [exact Fa|]. split; [exact Fb|].
  split; [apply R1; left; reflexivity|].
  split; apply Hextra; reflexivity.
Defined.

(** ** 64-bit identifiers as decimal text *)

Lemma digit_char_spec (d : Z) :
  0 <= d < 10 -> is_digit (digit_char d) = true /\ digit_value (digit_char d) = d.
Proof.
  intros H.
  assert (d = 0 \/ d = 1 \/ d = 2 \/ d = 3 \/ d = 4 \/ d = 5 \/ d = 6 \/ d = 7 \/ d = 8 \/ d = 9)
    as Hd by lia.
  repeat (destruct Hd as [-> | Hd]; [split; reflexivity|]). subst. split; reflexivity.
Qed.

Lemma is_digit_not_space_nor_sign (c : ascii) :
  is_digit c = true ->
  is_space c = false /\ Ascii.eqb c "+"%char = false /\ Ascii.eqb c "-"%char = false.
Proof.
  destruct c as [[] [] [] [] [] [] [] []]; vm_compute; intros H;
    first [discriminate H | repeat split].
Qed.

Lemma scan_digits_put_decimal (fuel : nat) (n : Z) (rest : string) :
  0 <= n < 10 ^ (Z.of_nat fuel + 1) ->
  scan_digits (put_decimal fuel n rest) 0 = scan_digits rest n.
Proof.
  revert n rest. induction fuel as [|fuel IH]; intros n rest Hn.
  - change (10 ^ (Z.of_nat 0 + 1)) with 10 in Hn. cbn [put_decimal scan_digits].
    destruct (digit_char_spec (n mod 10)) as [Hd Hv]; [apply Z.mod_pos_bound; lia|].
    rewrite Hd, Hv. rewrite Z.mod_small by lia. reflexivity.
  - cbn [put_decimal].
    destruct (digit_char_spec (n mod 10)) as [Hd Hv]; [apply Z.mod_pos_bound; lia|].
    destruct (Z.eqb_spec (n / 10) 0) as [Hz|Hz].
    + cbn [scan_digits]. rewrite Hd, Hv.
      assert (n < 10) by (apply Z.div_small_iff in Hz; lia).
      rewrite Z.mod_small by lia. reflexivity.
    + rewrite IH.
      * cbn [scan_digits]. rewrite Hd, Hv.
        replace (n / 10 * 10 + n mod 10) with n
          by (rewrite (Z.div_mod n 10) at 1; lia).
        reflexivity.
      * split; [apply Z.div_pos; lia|].
        apply Z.div_lt_upper_bound; [lia|].
        replace (Z.of_nat (S fuel) + 1) with (Z.succ (Z.of_nat fuel + 1)) in Hn by lia.
        rewrite Z.pow_succ_r in Hn by lia. lia.
Qed.

Lemma put_decimal_head (fuel : nat) (n : Z) (rest : string) :
  0 <= n ->
  exists c r, put_decimal fuel n rest = String c r /\ is_digit c = true.
Proof.
  revert n rest. induction fuel as [|fuel IH]; intros n rest Hn.
  - cbn [put_decimal]. eexists _, _. split; [reflexivity|].
    apply digit_char_spec. apply Z.mod_pos_bound. lia.
  - cbn [put_decimal]. destruct (n / 10 =? 0).
    + eexists _, _. split; [reflexivity|].
      apply digit_char_spec. apply Z.mod_pos_bound. lia.
    + apply IH. apply Z.div_pos; lia.
Qed.

(** Writing an unsigned value and reading it back gives the value. *)
Lemma stream_round_trip (max n : Z) :
  0 <= n <= max -> max < 10 ^ 20 ->
  stream_get_unsigned max (stream_put_unsigned n) = Some n.
Proof.
  intros Hn Hmax. unfold stream_get_unsigned, stream_put_unsigned.
  destruct (put_decimal_head 19 n EmptyString) as (c & r & Hput & Hc); [lia|].
  destruct (is_digit_not_space_nor_sign c Hc) as (Hsp & Hplus & Hminus).
  pose proof (scan_digits_put_decimal 19 n EmptyString) as Hscan.
  rewrite Hput in *. cbn [skip_spaces]. rewrite Hsp, Hplus, Hminus, Hc.
  rewrite Hscan by (change (10 ^ (Z.of_nat 19 + 1)) with (10 ^ 20); lia).
  cbn [scan_digits].
  destruct (Z.gtb_spec n max); [lia|reflexivity].
Qed.

(** C6: a valid 64-bit user ID written as decimal text, as the event tables
    carry it, is read back to the same value by the accessors' conversion,
    which accepts it; the event tables hold user IDs as strings, and an
    accessor given a native number instead of a string rejects it. *)
Theorem C6_user_id_decimal_round_trip (id : Z) (w : World) (L : lua_State)
    (firstArgument : LuaValue) (message : string) (number : lua_Number)
    (persona : DispatchPersonaStateChangedEventTask.t)
    (received : DispatchUserStatsReceivedEventTask.t)
    (stored : DispatchUserStatsStoredEventTask.t)
    (unloaded : DispatchUserStatsUnloadedEventTask.t)
    (entry : LeaderboardEntry_t) :
  0 <= id <= UINT64_MAX ->
  CSteamID_IsValid (steam w) id = true ->
  stream_get_uint64 (stream_put_unsigned id) = Some id
  /\ SteamIdFromString (stream_put_unsigned id) = id
  /\ fetch_optional_userSteamId [firstArgument; LuaString (stream_put_unsigned id)] 2 message w
     = (Some id, w)
  /\ fst (fetch_optional_userSteamId [firstArgument; LuaNumber number] 2 message w) = None
  /\ event_field (PushLuaEventTableTo (steam w) (Some L) (PersonaStateChangedTask persona))
       "userSteamId"
     = Some (LuaString (stream_put_unsigned
                          (DispatchPersonaStateChangedEventTask.fUserIntegerId persona)))
  /\ event_field (PushLuaEventTableTo (steam w) (Some L) (UserStatsReceivedTask received))
       "userSteamId"
     = Some (LuaString (stream_put_unsigned
                          (DispatchUserStatsReceivedEventTask.fUserIntegerId received)))
  /\ event_field (PushLuaEventTableTo (steam w) (Some L) (UserStatsStoredTask stored))
       "userSteamId"
     = Some (LuaString (stream_put_unsigned
                          (DispatchUserStatsStoredEventTask.fUserIntegerId stored)))
  /\ event_field (PushLuaEventTableTo (steam w) (Some L) (UserStatsUnloadedTask unloaded))
       "userSteamId"
     = Some (LuaString (stream_put_unsigned
                          (DispatchUserStatsUnloadedEventTask.fUserIntegerId unloaded)))
  /\ table_getfield (DispatchLeaderboardScoresDownloadedEventTask.entry_table entry) "userSteamId"
     = LuaString (stream_put_unsigned (m_steamIDUser entry)).
Proof.
  intros Hid Hvalid.
  assert (Hrt : stream_get_uint64 (stream_put_unsigned id) = Some id).
  { apply stream_round_trip; [exact Hid|reflexivity]. }
  assert (Hparse : SteamIdFromString (stream_put_unsigned id) = id).
  { unfold SteamIdFromString. rewrite Hrt. reflexivity. }
  split; [exact Hrt|]. split; [exact Hparse|].
  split.
  { unfold fetch_optional_userSteamId. unfold_monad. simpl.
    rewrite Hparse, Hvalid. reflexivity. }
  repeat split.
Qed.

Lemma C6_user_id_decimal_round_trip_witness :
  0 <= 76561197960287930 <= UINT64_MAX
  /\ CSteamID_IsValid (steam example_world) 76561197960287930 = true
  /\ stream_get_uint64 "76561197960287930" = Some 76561197960287930
  /\ fetch_optional_userSteamId [LuaString "largeAvatar"; LuaString "76561197960287930"] 2
       "Argument (userSteamId) is not of type string." example_world
     = (Some 76561197960287930, example_world).
Proof.
  assert (H1 : 0 <= 76561197960287930 <= UINT64_MAX) by (unfold UINT64_MAX; lia).
  assert (H2 : CSteamID_IsValid (steam example_world) 76561197960287930 = true) by reflexivity.
  destruct (C6_user_id_decimal_round_trip 76561197960287930 example_world example_L
              (LuaString "largeAvatar") "Argument (userSteamId) is not of type string."
              (Finite 0)
              DispatchPersonaStateChangedEventTask.new
              DispatchUserStatsReceivedEventTask.new
              DispatchUserStatsStoredEventTask.new
              DispatchUserStatsUnloadedEventTask.new
              {| m_steamIDUser := 1; m_nGlobalRank := 1; m_nScore := 1 |} H1 H2)
    as (Hrt & _ & Hfetch & _).
  split; [exact H1|]. split; [exact H2|]. split; [exact Hrt|exact Hfetch].
Defined.

(** ** [setUserStatValues] *)






Lemma existsb_option_list {A} (f : A -> bool) (o : option A) :
  existsb f (option_list o) = match o with Some a => f a | None => false end.
Proof. destruct o; simpl; [apply orb_false_r|reflexivity]. Qed.








(** ** Entry points while the SDK is not running *)

Section OfflineRules.
Context {A B : Type}.

Lemma offline_ret (P : A -> Prop) (a : A) : P a -> offline_safe P (ret a).
Proof. intros Ha w _. simpl. auto. Qed.

Lemma offline_bind (Q : A -> Prop) (P : B -> Prop) (m : M A) (k : A -> M B) :
  offline_safe Q m -> (forall a, Q a -> offline_safe P (k a)) -> offline_safe P (bind m k).
Proof.
  intros Hm Hk w Hw. unfold bind. specialize (Hm w Hw).
  destruct (m w) as [a w1]. destruct Hm as (E1 & E2 & E3 & E4 & Ha).
  assert (Hw1 : sdk_not_running (steam w1)) by (rewrite E1; exact Hw).
  specialize (Hk a Ha w1 Hw1). destruct (k a w1) as [b w2].
  destruct Hk as (F1 & F2 & F3 & F4 & Hb).
  repeat split; first [congruence | exact Hb].
Qed.

Lemma offline_weaken (Q P : A -> Prop) (m : M A) :
  offline_safe Q m -> (forall a, Q a -> P a) -> offline_safe P m.
Proof.
  intros Hm HQP w Hw. specialize (Hm w Hw). destruct (m w) as [a w1].
  destruct Hm as (E1 & E2 & E3 & E4 & Ha). auto 10.
Qed.
End OfflineRules.

Lemma offline_get_steam : offline_safe sdk_not_running get_steam.
Proof. intros w Hw. simpl. auto 10. Qed.

Lemma offline_get_host : offline_safe (fun _ => True) get_host.
Proof. intros w Hw. simpl. auto 10. Qed.

Lemma offline_get_context : offline_safe (fun _ => True) get_context.
Proof. intros w Hw. simpl. auto 10. Qed.

Lemma offline_read {A} (f : World -> A) : offline_safe (fun _ => True) (fun w => (f w, w)).
Proof. intros w Hw. simpl. auto 10. Qed.

Lemma offline_CoronaLuaError format args : offline_safe (fun _ => True) (CoronaLuaError format args).
Proof. intros w Hw. simpl. auto 10. Qed.

Lemma offline_CoronaLuaWarning format args :
  offline_safe (fun _ => True) (CoronaLuaWarning format args).
Proof. intros w Hw. simpl. auto 10. Qed.

Lemma offline_log_listener_call add name listener :
  offline_safe (fun _ => True) (log_listener_call add name listener).
Proof. intros w Hw. simpl. auto 10. Qed.

Lemma offline_GetCachedLeaderboardHandleByName name :
  offline_safe (fun _ => True) (GetCachedLeaderboardHandleByName name).
Proof.
  intros w Hw. unfold GetCachedLeaderboardHandleByName. unfold_monad.
  destruct name as [s|]; [destruct (_ !! s)|]; simpl; auto 10.
Qed.

(** One step of an offline proof: follow the binds of the program text,
    split on what it tests, and use that every SDK accessor is null. *)
Ltac offline_null :=
  match goal with
  | H : sdk_not_running _ |- _ =>
      let Hstats := fresh "Hstats" in
      let Hfriends := fresh "Hfriends" in
      let Huser := fresh "Huser" in
      let Hutils := fresh "Hutils" in
      let Happs := fresh "Happs" in
      destruct H as (Hstats & Hfriends & Huser & Hutils & Happs);
      unfold CanShowSteamOverlay, FromImageHandle;
      rewrite ?Hstats, ?Hfriends, ?Huser, ?Hutils, ?Happs;
      cbn beta iota;
      try change (IsNotValid SteamImageInfo_default) with true;
      cbn beta iota;
      clear Hstats Hfriends Huser Hutils Happs
  end.

Ltac offline_step :=
  lazymatch goal with
  | |- offline_safe _ (bind get_steam _) =>
      eapply offline_bind; [apply offline_get_steam|]; intros ? ?; offline_null
  | |- offline_safe _ (bind get_host _) =>
      eapply offline_bind; [apply offline_get_host|]; intros ? _
  | |- offline_safe _ (bind get_context _) =>
      eapply offline_bind; [apply offline_get_context|]; intros ? _
  | |- offline_safe _ (bind (CoronaLuaError _ _) _) =>
      eapply offline_bind; [apply offline_CoronaLuaError|]; intros ? _
  | |- offline_safe _ (bind (CoronaLuaWarning _ _) _) =>
      eapply offline_bind; [apply offline_CoronaLuaWarning|]; intros ? _
  | |- offline_safe _ (bind (log_listener_call _ _ _) _) =>
      eapply offline_bind; [apply offline_log_listener_call|]; intros ? _
  | |- offline_safe _ (bind (GetCachedLeaderboardHandleByName _) _) =>
      eapply offline_bind; [apply offline_GetCachedLeaderboardHandleByName|]; intros ? _
  | |- offline_safe _ (bind (fun w => (_, w)) _) =>
      eapply offline_bind; [apply offline_read|]; intros ? _
  | |- offline_safe _ (bind _ _) =>
      eapply offline_bind with (Q := fun _ => True); [|intros ? _]
  | |- offline_safe _ (ret _) =>
      apply offline_ret; unfold false_or_nil; auto
  | |- offline_safe _ (CoronaLuaError _ _) => apply offline_CoronaLuaError
  | |- offline_safe _ (if ?c then _ else _) => destruct c
  | |- offline_safe _ (match ?x with _ => _ end) => destruct x
  end.

Ltac offline_entry f :=
  intros ?; unfold f, add_or_remove_listener;
  unfold fetch_optional_userSteamId, fetch_leaderboardName, fetch_playerScope, fetch_range,
    fetch_index, fetch_progress;
  cbn beta iota; repeat offline_step.

Lemma OnGetAchievementImageInfo_offline : offline_behaviour false_or_nil OnGetAchievementImageInfo.
Proof. offline_entry OnGetAchievementImageInfo. Qed.

Lemma OnGetAchievementInfo_offline : offline_behaviour false_or_nil OnGetAchievementInfo.
Proof. offline_entry OnGetAchievementInfo. Qed.

Lemma OnGetUserImageInfo_offline : offline_behaviour false_or_nil OnGetUserImageInfo.
Proof. offline_entry OnGetUserImageInfo. Qed.

Lemma OnGetUserInfo_offline : offline_behaviour false_or_nil OnGetUserInfo.
Proof. offline_entry OnGetUserInfo. Qed.

Lemma OnGetUserStatValue_offline : offline_behaviour false_or_nil OnGetUserStatValue.
Proof. offline_entry OnGetUserStatValue. Qed.

Lemma OnNewImageRect_offline : offline_behaviour false_or_nil OnNewImageRect.
Proof. offline_entry OnNewImageRect. Qed.

Lemma OnNewTexture_offline : offline_behaviour false_or_nil OnNewTexture.
Proof. offline_entry OnNewTexture. Qed.

Lemma OnRequestActivePlayerCount_offline : offline_behaviour false_or_nil OnRequestActivePlayerCount.
Proof. offline_entry OnRequestActivePlayerCount. Qed.

Lemma OnRequestLeaderboardEntries_offline : offline_behaviour false_or_nil OnRequestLeaderboardEntries.
Proof. offline_entry OnRequestLeaderboardEntries. Qed.

Lemma OnRequestLeaderboardInfo_offline : offline_behaviour false_or_nil OnRequestLeaderboardInfo.
Proof. offline_entry OnRequestLeaderboardInfo. Qed.

Lemma OnRequestSetHighScore_offline : offline_behaviour false_or_nil OnRequestSetHighScore.
Proof. offline_entry OnRequestSetHighScore. Qed.

Lemma OnRequestUserProgress_offline : offline_behaviour false_or_nil OnRequestUserProgress.
Proof. offline_entry OnRequestUserProgress. Qed.

Lemma OnResetUserProgress_offline : offline_behaviour false_or_nil OnResetUserProgress.
Proof. offline_entry OnResetUserProgress. Qed.

Lemma OnResetUserStats_offline : offline_behaviour false_or_nil OnResetUserStats.
Proof. offline_entry OnResetUserStats. Qed.

Lemma OnSetAchievementProgress_offline : offline_behaviour false_or_nil OnSetAchievementProgress.
Proof. offline_entry OnSetAchievementProgress. Qed.

Lemma OnSetAchievementUnlocked_offline : offline_behaviour false_or_nil OnSetAchievementUnlocked.
Proof. offline_entry OnSetAchievementUnlocked. Qed.

Lemma OnSetNotificationPosition_offline : offline_behaviour false_or_nil OnSetNotificationPosition.
Proof. offline_entry OnSetNotificationPosition. Qed.

Lemma OnSetUserStatValues_offline : offline_behaviour false_or_nil OnSetUserStatValues.
Proof. offline_entry OnSetUserStatValues. Qed.

Lemma OnShowGameOverlay_offline : offline_behaviour false_or_nil OnShowGameOverlay.
Proof. offline_entry OnShowGameOverlay. Qed.

Lemma OnShowStoreOverlay_offline : offline_behaviour false_or_nil OnShowStoreOverlay.
Proof. offline_entry OnShowStoreOverlay. Qed.

Lemma OnShowUserOverlay_offline : offline_behaviour false_or_nil OnShowUserOverlay.
Proof. offline_entry OnShowUserOverlay. Qed.

Lemma OnShowWebOverlay_offline : offline_behaviour false_or_nil OnShowWebOverlay.
Proof. offline_entry OnShowWebOverlay. Qed.

Lemma OnIsDlcInstalled_offline : offline_behaviour false_or_nil OnIsDlcInstalled.
Proof. offline_entry OnIsDlcInstalled. Qed.

Lemma OnGetAchievementNames_offline :
  offline_behaviour (fun out => out = LuaReturn [LuaTable [] []]) OnGetAchievementNames.
Proof. offline_entry OnGetAchievementNames. Qed.

Lemma OnAddEventListener_offline :
  offline_behaviour (fun out => out = LuaReturn []) OnAddEventListener.
Proof. offline_entry OnAddEventListener. Qed.

Lemma OnRemoveEventListener_offline :
  offline_behaviour (fun out => out = LuaReturn []) OnRemoveEventListener.
Proof. offline_entry OnRemoveEventListener. Qed.

(** C2 as stated fails: while the SDK is not running,
    [steamworks.getAchievementNames()] returns an empty array, which is
    neither false nor nil. *)
Lemma C2_counterexample_getAchievementNames :
  sdk_not_running (steam example_world_offline)
  /\ In ("getAchievementNames"%string, OnGetAchievementNames) luaFunctions
  /\ fst (OnGetAchievementNames (Some example_L) example_world_offline)
      = LuaReturn [LuaTable [] []]
  /\ ~ false_or_nil (fst (OnGetAchievementNames (Some example_L) example_world_offline)).
Proof.
  split; [repeat split|].
  split; [simpl; tauto|].
  split; [reflexivity|].
  intros [H|H]; discriminate H.
Qed.

Lemma offline_expectation_returns (name : string) (out : LuaCallOutcome) :
  offline_expectation name out -> out <> LuaThrow.
Proof.
  unfold offline_expectation, false_or_nil. intros Hout Hthrow. subst out.
  destruct (String.eqb name "getAchievementNames"); [discriminate Hout|].
  destruct (_ || _); [discriminate Hout|].
  destruct Hout as [Hout|Hout]; discriminate Hout.
Qed.

(** C2, amended: while the SDK is not running (every accessor returns a
    null pointer), each function of the plugin's function table, called
    with a Lua state, returns without raising an error, leaves the runtime
    context as it was (no task queued, no handler registered), sends nothing
    to the SDK and delivers no event; it returns false or nil, except
    [getAchievementNames], which returns an empty array, and
    [addEventListener] / [removeEventListener], which return no value. *)
Theorem C2_offline_entry_points_fail_quietly (name : string)
    (f : option lua_State -> M LuaCallOutcome) (L : lua_State) (w : World) :
  In (name, f) luaFunctions ->
  sdk_not_running (steam w) ->
  let '(out, w') := f (Some L) w in
  context w' = context w
  /\ steam_calls w' = steam_calls w
  /\ delivered w' = delivered w
  /\ out <> LuaThrow
  /\ offline_expectation name out.
Proof.
  intros Hin Hoff.
  assert (Hb : offline_behaviour (offline_expectation name) f).
  { unfold luaFunctions in Hin. simpl in Hin.
    repeat (destruct Hin as [Hin|Hin];
            [injection Hin as <- <-;
             first [ exact OnGetAchievementImageInfo_offline
                   | exact OnGetAchievementInfo_offline
                   | exact OnGetAchievementNames_offline
                   | exact OnGetUserImageInfo_offline
                   | exact OnGetUserInfo_offline
                   | exact OnGetUserStatValue_offline
                   | exact OnNewImageRect_offline
                   | exact OnNewTexture_offline
                   | exact OnRequestActivePlayerCount_offline
                   | exact OnRequestLeaderboardEntries_offline
                   | exact OnRequestLeaderboardInfo_offline
                   | exact OnRequestSetHighScore_offline
                   | exact OnRequestUserProgress_offline
                   | exact OnResetUserProgress_offline
                   | exact OnResetUserStats_offline
                   | exact OnSetAchievementProgress_offline
                   | exact OnSetAchievementUnlocked_offline
                   | exact OnSetNotificationPosition_offline
                   | exact OnSetUserStatValues_offline
                   | exact OnShowGameOverlay_offline
                   | exact OnShowStoreOverlay_offline
                   | exact OnShowUserOverlay_offline
                   | exact OnShowWebOverlay_offline
                   | exact OnIsDlcInstalled_offline
                   | exact OnAddEventListener_offline
                   | exact OnRemoveEventListener_offline ]
            |]).
    contradiction. }
  specialize (Hb L w Hoff).
  destruct (f (Some L) w) as [out w'].
  destruct Hb as (_ & Hc & Hs & Hd & He).
  repeat split; try assumption.
  eapply offline_expectation_returns; eassumption.
Qed.

Lemma C2_offline_entry_points_fail_quietly_witness :
  let L := {| lua_stack :=
                [LuaTable [] [("leaderboardName"%string, LuaString "Feet Traveled");
                              ("listener"%string, LuaFunction 1)]];
              lua_upvalue_context := true;
              lua_globals := lua_globals example_L |} in
  In ("requestLeaderboardEntries"%string, OnRequestLeaderboardEntries) luaFunctions
  /\ sdk_not_running (steam example_world_offline)
  /\ OnRequestLeaderboardEntries (Some L) example_world_offline
      = (LuaReturn [LuaBoolean false], example_world_offline).
Proof.
  intros L.
  assert (Hin : In ("requestLeaderboardEntries"%string, OnRequestLeaderboardEntries) luaFunctions)
    by (simpl; tauto).
  assert (Hoff : sdk_not_running (steam example_world_offline)) by (repeat split).
  pose proof (C2_offline_entry_points_fail_quietly _ _ L example_world_offline Hin Hoff) as H.
  split; [exact Hin|]. split; [exact Hoff|].
  destruct (OnRequestLeaderboardEntries (Some L) example_world_offline) as [out w'] eqn:E.
  destruct H as (_ & _ & _ & _ & _).
  rewrite <- E. reflexivity.
Defined.

(** * Further properties of the code *)

(** X1: an image looked up by its handle is valid exactly when the
    utilities interface is there, the SDK reports a size for the handle,
    the handle is neither 0 nor -1 and both sizes are positive; the info
    then holds the handle and the reported sizes. *)
Theorem X1_FromImageHandle_valid_iff (steam : SteamAPI) (imageHandle : Z) :
  IsValid (FromImageHandle steam imageHandle) = true <->
  exists steamUtilsPointer pixelWidth pixelHeight,
    SteamUtils steam = Some steamUtilsPointer
    /\ GetImageSize steamUtilsPointer imageHandle = Some (pixelWidth, pixelHeight)
    /\ imageHandle <> 0 /\ imageHandle <> -1 /\ 0 < pixelWidth /\ 0 < pixelHeight
    /\ FromImageHandle steam imageHandle
       = {| fImageHandle := imageHandle; fPixelWidth := pixelWidth; fPixelHeight := pixelHeight |}.
Proof.
  unfold FromImageHandle, IsValid. split.
  - destruct (SteamUtils steam) as [u|]; [|discriminate].
    destruct (GetImageSize u imageHandle) as [[pw ph]|] eqn:Hsize; [|discriminate].
    cbn [fImageHandle fPixelWidth fPixelHeight]. intros H.
    exists u, pw, ph.
    destruct (Z.eqb_spec imageHandle 0); [discriminate|].
    destruct (Z.eqb_spec imageHandle (-1)); [discriminate|].
    destruct (Z.gtb_spec pw 0); [|discriminate].
    destruct (Z.gtb_spec ph 0); [|discriminate].
    repeat split; auto; lia.
  - intros (u & pw & ph & -> & Hsize & H0 & H1 & Hw & Hh & _).
    rewrite Hsize. cbn [fImageHandle fPixelWidth fPixelHeight].
    destruct (Z.eqb_spec imageHandle 0); [contradiction|].
    destruct (Z.eqb_spec imageHandle (-1)); [contradiction|].
    destruct (Z.gtb_spec pw 0); [|lia].
    destruct (Z.gtb_spec ph 0); [|lia]. reflexivity.
Qed.

Lemma stat_lookup (s : string) (t : SteamStatValueType) :
  sSteamStatValueTypeMap !! s = Some t -> SteamStatValueType_GetCoronaStringId t = s /\ t <> kUnknown.
Proof.
  unfold sSteamStatValueTypeMap. intros H.
  repeat (apply lookup_insert_Some in H; destruct H as [[<- <-]|[_ H]]; [split; [reflexivity|discriminate]|]).
  rewrite lookup_empty in H. discriminate.
Qed.

Lemma image_lookup (s : string) (t : SteamUserImageType) :
  sSteamUserImageTypeMap !! s = Some t ->
  SteamUserImageType_GetCoronaStringId t = s /\ t <> kUnknownImage.
Proof.
  unfold sSteamUserImageTypeMap. intros H.
  repeat (apply lookup_insert_Some in H; destruct H as [[<- <-]|[_ H]]; [split; [reflexivity|discriminate]|]).
  rewrite lookup_empty in H. discriminate.
Qed.

(** X2: the string IDs of the stat value types and of the user image
    types round-trip: the ID of a type maps back to that type, a string
    that maps to a known type is that type's ID, and a null string maps to
    the unknown type. *)
Theorem X2_string_id_round_trip (valueType : SteamStatValueType) (imageType : SteamUserImageType)
    (stringId : string) :
  SteamStatValueType_FromCoronaStringId (Some (SteamStatValueType_GetCoronaStringId valueType))
    = valueType
  /\ SteamUserImageType_FromCoronaStringId (Some (SteamUserImageType_GetCoronaStringId imageType))
    = imageType
  /\ (SteamStatValueType_FromCoronaStringId (Some stringId) = kUnknown
      \/ SteamStatValueType_GetCoronaStringId (SteamStatValueType_FromCoronaStringId (Some stringId))
         = stringId)
  /\ (SteamUserImageType_FromCoronaStringId (Some stringId) = kUnknownImage
      \/ SteamUserImageType_GetCoronaStringId (SteamUserImageType_FromCoronaStringId (Some stringId))
         = stringId)
  /\ SteamStatValueType_FromCoronaStringId None = kUnknown
  /\ SteamUserImageType_FromCoronaStringId None = kUnknownImage.
Proof.
  split; [destruct valueType; reflexivity|].
  split; [destruct imageType; reflexivity|].
  split.
  { unfold SteamStatValueType_FromCoronaStringId.
    destruct (sSteamStatValueTypeMap !! stringId) as [t|] eqn:E; [|left; reflexivity].
    right. apply stat_lookup in E. apply E. }
  split.
  { unfold SteamUserImageType_FromCoronaStringId.
    destruct (sSteamUserImageTypeMap !! stringId) as [t|] eqn:E; [|left; reflexivity].
    right. apply image_lookup in E. apply E. }
  split; reflexivity.
Qed.

(** X3: no task pushes an event table without a Lua state; with one,
    every table pushed starts with the task's event name under [name], and
    no later field overwrites it.  Only the achievement-icon task can
    decline to push a table. *)
Theorem X3_event_table_is_named (steam : SteamAPI) (L : lua_State) (d : DerivedTask) :
  PushLuaEventTableTo steam None d = None
  /\ match PushLuaEventTableTo steam (Some L) d with
     | Some e =>
         exists rest, e = ("name"%string, LuaString (GetLuaEventName d)) :: rest
                      /\ assoc_get "name" rest = LuaNil
     | None => exists t, d = UserAchievementIconFetchedTask t
     end.
Proof.
  split; [destruct d; reflexivity|].
  destruct d as [t|t|t|t|t|t|t|t|t|t|t|t]; cbn [PushLuaEventTableTo GetLuaEventName].
  - eexists. split; reflexivity.
  - eexists. split; reflexivity.
  - unfold DispatchLeaderboardFindResultEventTask.PushLuaEventTableTo.
    destruct (negb _); eexists; split; reflexivity.
  - unfold DispatchLeaderboardScoreUploadEventTask.PushLuaEventTableTo.
    destruct (DispatchLeaderboardScoreUploadEventTask.fWasScoreChanged t);
      [destruct (_ >? 0), (_ >? 0)|]; eexists; split; reflexivity.
  - eexists. split; reflexivity.
  - unfold DispatchNumberOfCurrentPlayersEventTask.PushLuaEventTableTo.
    destruct (negb _); eexists; split; reflexivity.
  - eexists. split; reflexivity.
  - unfold DispatchUserAchievementIconFetchedEventTask.PushLuaEventTableTo.
    destruct (IsNotValid _); [exists t; reflexivity|].
    eexists. split; reflexivity.
  - unfold DispatchUserAchievementStoredEventTask.PushLuaEventTableTo.
    destruct (_ >? 0); eexists; split; reflexivity.
  - eexists. split; reflexivity.
  - eexists. split; reflexivity.
  - eexists. split; reflexivity.
Qed.

Lemma omap_length_le {A B} (f : A -> option B) (l : list A) :
  (length (omap f l) <= length l)%nat.
Proof.
  induction l as [|x l IH]; simpl; [lia|].
  destruct (f x); simpl; fold (@omap list _ A B f l); lia.
Qed.

Lemma omap_all_Some {A B} (f : A -> option B) (l : list A) :
  Forall (fun x => is_Some (f x)) l -> Forall2 (fun x y => f x = Some y) l (omap f l).
Proof.
  induction 1 as [|x l [y Hy] _ IH]; simpl; [constructor|].
  rewrite Hy. fold (@omap list _ A B f l). constructor; assumption.
Qed.

(** X4: the entries a scores-downloaded task holds are entries the
    SDK returned for indexes below the reported count, at most that many,
    and in index order when every lookup succeeds; without the stats
    interface there are none and the name stays empty.  The event's
    [entries] array holds one table per held entry, and [isError] is the
    I/O failure flag. *)
Theorem X4_downloaded_entries (steam : SteamAPI) (L : lua_State)
    (self : DispatchLeaderboardScoresDownloadedEventTask.t)
    (p : LeaderboardScoresDownloaded_t.t) :
  let t := DispatchLeaderboardScoresDownloadedEventTask.AcquireEventDataFrom steam self p in
  let entries := DispatchLeaderboardScoresDownloadedEventTask.fEntryCollection t in
  let count := LeaderboardScoresDownloaded_t.m_cEntryCount p in
  let cache := LeaderboardScoresDownloaded_t.m_hSteamLeaderboardEntries p in
  (length entries <= Z.to_nat count)%nat
  /\ match SteamUserStats steam with
     | Some stats =>
         (forall entry, entry ∈ entries ->
            exists index, 0 <= index < count
                          /\ GetDownloadedLeaderboardEntry stats cache index = Some entry)
         /\ ((forall index, 0 <= index < count ->
                is_Some (GetDownloadedLeaderboardEntry stats cache index)) ->
             Forall2 (fun index entry =>
                        GetDownloadedLeaderboardEntry stats cache index = Some entry)
                     (seqZ 0 count) entries)
     | None =>
         entries = []
         /\ DispatchLeaderboardScoresDownloadedEventTask.fLeaderboardName t = EmptyString
     end
  /\ event_field (DispatchLeaderboardScoresDownloadedEventTask.PushLuaEventTableTo (Some L) t)
       "entries"
     = Some (LuaTable (map DispatchLeaderboardScoresDownloadedEventTask.entry_table entries) [])
  /\ event_field (DispatchLeaderboardScoresDownloadedEventTask.PushLuaEventTableTo (Some L) t)
       "isError"
     = Some (LuaBoolean (DispatchLeaderboardScoresDownloadedEventTask.fHadIOFailure self)).
Proof.
  intros t entries count cache. subst t entries.
  unfold DispatchLeaderboardScoresDownloadedEventTask.AcquireEventDataFrom.
  fold count. fold cache.
  destruct (SteamUserStats steam) as [stats|];
    cbn [DispatchLeaderboardScoresDownloadedEventTask.fEntryCollection
         DispatchLeaderboardScoresDownloadedEventTask.fLeaderboardName
         DispatchLeaderboardScoresDownloadedEventTask.fHadIOFailure].
  - assert (Hnil : count <= 0 -> omap (GetDownloadedLeaderboardEntry stats cache) (seqZ 0 count) = [])
      by (intros; rewrite seqZ_nil by lia; reflexivity).
    assert (E : (if count >? 0
                 then omap (GetDownloadedLeaderboardEntry stats cache) (seqZ 0 count) else [])
                = omap (GetDownloadedLeaderboardEntry stats cache) (seqZ 0 count)).
    { destruct (Z.gtb_spec count 0); [reflexivity|]. rewrite Hnil by lia. reflexivity. }
    rewrite E. split; [|split; [split|split; reflexivity]].
    + etransitivity; [apply omap_length_le|]. rewrite length_seqZ. lia.
    + intros entry Hin. apply list_elem_of_omap in Hin. destruct Hin as (index & Hi & Hget).
      apply elem_of_seqZ in Hi. exists index. split; [lia|exact Hget].
    + intros Hall. apply omap_all_Some. apply Forall_seqZ. intros index Hi. apply Hall. lia.
  - split; [simpl; lia|]. split; [split; reflexivity|]. split; reflexivity.
Qed.

(** X5: a leaderboard lookup that failed (reported so by Steam, or by
    an I/O failure) gives an event with the name, the error flag and the
    leaderboard name only, and a successful one an entry count that is
    never negative; a lookup Steam reports as failed leaves the name
    empty.  A score upload Steam reports as failed gives an event with an
    unchanged score and no rank fields, and a rank read from any upload
    event is nil or a positive number of a changed score. *)
Theorem X5_failed_leaderboard_results (steam : SteamAPI) (L : lua_State)
    (find : DispatchLeaderboardFindResultEventTask.t) (found : LeaderboardFindResult_t.t)
    (upload : DispatchLeaderboardScoreUploadEventTask.t) (uploaded : LeaderboardScoreUploaded_t.t)
    (hadIOFailure : bool) :
  let f := DispatchLeaderboardFindResultEventTask.SetHadIOFailure
             (DispatchLeaderboardFindResultEventTask.AcquireEventDataFrom steam find found)
             hadIOFailure in
  let u := DispatchLeaderboardScoreUploadEventTask.SetHadIOFailure
             (DispatchLeaderboardScoreUploadEventTask.AcquireEventDataFrom steam upload uploaded)
             hadIOFailure in
  (* a failed find: no handle, entry count, sort method or display type *)
  (if DispatchLeaderboardFindResultEventTask.fIsError f || hadIOFailure then
     DispatchLeaderboardFindResultEventTask.PushLuaEventTableTo (Some L) f
     = Some [("name"%string, LuaString "leaderboardInfo");
             ("isError"%string, LuaBoolean true);
             ("leaderboardName"%string,
              LuaString (DispatchLeaderboardFindResultEventTask.fLeaderboardName f))]
   else
     event_field (DispatchLeaderboardFindResultEventTask.PushLuaEventTableTo (Some L) f)
       "entryCount"
     = Some (lua_integer (Z.max 0 (DispatchLeaderboardFindResultEventTask.fEntryCount f))))
  (* a find that Steam reports as failed leaves the name empty *)
  /\ (if DispatchLeaderboardFindResultEventTask.fIsError f
      then DispatchLeaderboardFindResultEventTask.fLeaderboardName f = EmptyString
      else True)
  (* an upload that Steam reports as failed: score unchanged, no rank *)
  /\ (if DispatchLeaderboardScoreUploadEventTask.fIsError u then
        DispatchLeaderboardScoreUploadEventTask.PushLuaEventTableTo (Some L) u
        = Some [("name"%string, LuaString "setHighScore");
                ("isError"%string, LuaBoolean true);
                ("leaderboardHandle"%string,
                 uint64_string (DispatchLeaderboardScoreUploadEventTask.fLeaderboardHandle u));
                ("leaderboardName"%string, LuaString EmptyString);
                ("scoreChanged"%string, LuaBoolean false)]
      else True)
  (* a rank in the table is a positive number of a changed score *)
  /\ (forall key, key = "currentGlobalRank"%string \/ key = "previousGlobalRank"%string ->
        match event_field (DispatchLeaderboardScoreUploadEventTask.PushLuaEventTableTo (Some L) u)
                key with
        | Some LuaNil => True
        | Some v => exists rank, v = lua_integer rank /\ 0 < rank
                                 /\ DispatchLeaderboardScoreUploadEventTask.fWasScoreChanged u = true
        | None => False
        end).
Proof.
  intros f u. subst f u.
  unfold DispatchLeaderboardFindResultEventTask.AcquireEventDataFrom,
    DispatchLeaderboardScoreUploadEventTask.AcquireEventDataFrom.
  destruct (SteamUserStats steam) as [stats|].
  - split.
    { destruct (truthy (LeaderboardFindResult_t.m_bLeaderboardFound found)); cbn.
      - destruct hadIOFailure; cbn; [reflexivity|].
        destruct (Z.gtb_spec (GetLeaderboardEntryCount stats
                                (LeaderboardFindResult_t.m_hSteamLeaderboard found)) 0);
          cbn; repeat f_equal; lia.
      - reflexivity. }
    split.
    { destruct (truthy (LeaderboardFindResult_t.m_bLeaderboardFound found)); reflexivity. }
    split.
    { destruct (truthy (LeaderboardScoreUploaded_t.m_bSuccess uploaded)); cbn; [exact I|].
      destruct hadIOFailure; reflexivity. }
    intros key Hkey.
    destruct (truthy (LeaderboardScoreUploaded_t.m_bSuccess uploaded)); cbn.
    + destruct (truthy (LeaderboardScoreUploaded_t.m_bScoreChanged uploaded)); cbn.
      * destruct (Z.gtb_spec (LeaderboardScoreUploaded_t.m_nGlobalRankNew uploaded) 0),
                 (Z.gtb_spec (LeaderboardScoreUploaded_t.m_nGlobalRankPrevious uploaded) 0);
          destruct Hkey as [-> | ->]; cbn; try exact I;
          eexists; (split; [reflexivity|split; [lia|reflexivity]]).
      * destruct Hkey as [-> | ->]; exact I.
    + destruct Hkey as [-> | ->]; exact I.
  - cbn. split; [reflexivity|]. split; [reflexivity|].
    split; [destruct hadIOFailure; reflexivity|].
    intros key [-> | ->]; exact I.
Qed.

(** X6: the queueing callback made for a leaderboard request exists
    only for a non-empty name and carries that name; applied to one of the
    three leaderboard tasks it sets the event's [leaderboardName] and
    leaves [isError] alone, and applied to any other task it changes
    nothing. *)
Theorem X6_queued_leaderboard_name (steam : SteamAPI) (L : lua_State) (d : DerivedTask)
    (leaderboardName : string) :
  CreateQueueingLeaderboardEventTaskCallbackWith None = None
  /\ CreateQueueingLeaderboardEventTaskCallbackWith (Some EmptyString) = None
  /\ (leaderboardName = EmptyString
      \/ CreateQueueingLeaderboardEventTaskCallbackWith (Some leaderboardName)
         = Some leaderboardName)
  /\ (if is_leaderboard_task d then
        event_field (PushLuaEventTableTo steam (Some L)
                       (SetLeaderboardName d (Some leaderboardName))) "leaderboardName"
        = Some (LuaString leaderboardName)
        /\ event_field (PushLuaEventTableTo steam (Some L) (SetLeaderboardName d None))
             "leaderboardName"
           = Some (LuaString EmptyString)
        /\ event_field (PushLuaEventTableTo steam (Some L)
                          (SetLeaderboardName d (Some leaderboardName))) "isError"
           = event_field (PushLuaEventTableTo steam (Some L) d) "isError"
      else SetLeaderboardName d (Some leaderboardName) = d).
Proof.
  split; [reflexivity|]. split; [reflexivity|]. split.
  { unfold CreateQueueingLeaderboardEventTaskCallbackWith.
    destruct (String.eqb_spec leaderboardName EmptyString); [left; assumption|right; reflexivity]. }
  destruct d as [t|t|t|t|t|t|t|t|t|t|t|t]; cbn [is_leaderboard_task]; try reflexivity.
  - repeat split.
  - cbn [SetLeaderboardName PushLuaEventTableTo].
    unfold DispatchLeaderboardFindResultEventTask.PushLuaEventTableTo,
      DispatchLeaderboardFindResultEventTask.SetLeaderboardName.
    cbn [DispatchLeaderboardFindResultEventTask.fIsError
         DispatchLeaderboardFindResultEventTask.fHadIOFailure
         DispatchLeaderboardFindResultEventTask.fLeaderboardName].
    destruct (negb _); repeat split.
  - cbn [SetLeaderboardName PushLuaEventTableTo].
    unfold DispatchLeaderboardScoreUploadEventTask.PushLuaEventTableTo,
      DispatchLeaderboardScoreUploadEventTask.SetLeaderboardName.
    cbn [DispatchLeaderboardScoreUploadEventTask.fIsError
         DispatchLeaderboardScoreUploadEventTask.fHadIOFailure
         DispatchLeaderboardScoreUploadEventTask.fLeaderboardName
         DispatchLeaderboardScoreUploadEventTask.fWasScoreChanged
         DispatchLeaderboardScoreUploadEventTask.fCurrentGlobalRank
         DispatchLeaderboardScoreUploadEventTask.fPreviousGlobalRank].
    destruct (DispatchLeaderboardScoreUploadEventTask.fWasScoreChanged t);
      [destruct (_ >? 0), (_ >? 0)|]; repeat split.
Qed.

(** X7: an avatar-image-loaded callback becomes a user-info event of
    the image's owner: a valid image at least 184 pixels wide reports the
    large avatar as changed, a narrower valid image the small and medium
    ones, an invalid image none; every other change flag is false. *)
Theorem X7_avatar_loaded_event (steam : SteamAPI) (L : lua_State)
    (self : DispatchPersonaStateChangedEventTask.t) (loaded : AvatarImageLoaded_t.t) :
  let t := DispatchPersonaStateChangedEventTask.AcquireEventDataFrom_AvatarImageLoaded
             steam self loaded in
  let imageInfo := FromImageHandle steam (AvatarImageLoaded_t.m_iImage loaded) in
  let field := event_field (DispatchPersonaStateChangedEventTask.PushLuaEventTableTo (Some L) t) in
  field "userSteamId" = Some (uint64_string (AvatarImageLoaded_t.m_steamID loaded))
  /\ field "largeAvatarChanged"
     = Some (LuaBoolean (IsValid imageInfo && (184 <=? fPixelWidth imageInfo)))
  /\ field "smallAvatarChanged"
     = Some (LuaBoolean (IsValid imageInfo && (fPixelWidth imageInfo <? 184)))
  /\ field "mediumAvatarChanged" = field "smallAvatarChanged"
  /\ field "nameChanged" = Some (LuaBoolean false)
  /\ field "statusChanged" = Some (LuaBoolean false)
  /\ field "relationshipChanged" = Some (LuaBoolean false)
  /\ field "facebookInfoChanged" = Some (LuaBoolean false)
  /\ field "nicknameChanged" = Some (LuaBoolean false)
  /\ field "steamLevelChanged" = Some (LuaBoolean false).
Proof.
  intros t imageInfo field. subst t field.
  unfold DispatchPersonaStateChangedEventTask.AcquireEventDataFrom_AvatarImageLoaded.
  fold imageInfo.
  destruct (IsValid imageInfo); [|repeat split].
  destruct (Z.geb_spec (fPixelWidth imageInfo) 184) as [Hge|Hlt].
  - assert ((184 <=? fPixelWidth imageInfo) = true) as -> by (apply Z.leb_le; lia).
    assert ((fPixelWidth imageInfo <? 184) = false) as -> by (apply Z.ltb_ge; lia).
    repeat split.
  - assert ((184 <=? fPixelWidth imageInfo) = false) as -> by (apply Z.leb_gt; lia).
    assert ((fPixelWidth imageInfo <? 184) = true) as -> by (apply Z.ltb_lt; lia).
    repeat split.
Qed.

(** X8: a persona-state-change callback queues one task for the
    context's dispatcher.  Its event names the user, reports the small
    avatar as changed exactly when the avatar flag is set, and the large
    one only when, besides, the small avatar is missing or the user is
    subscribed to large avatars and the large image is valid. *)
Theorem X8_persona_change_large_avatar (w : World) (L : lua_State)
    (changed : PersonaStateChange_t.t) :
  let user := PersonaStateChange_t.m_ulSteamID changed in
  let avatarChanged :=
    DispatchPersonaStateChangedEventTask.has_flag
      (PersonaStateChange_t.m_nChangeFlags changed) k_EPersonaChangeAvatar in
  exists task,
    OnSteamPersonaStateChanged (Some changed) w = (tt, enqueued w [Some task])
    /\ fLuaEventDispatcherPointer task
       = RuntimeContext.fLuaEventDispatcherPointer (context w)
    /\ event_field (PushLuaEventTableTo (steam w) (Some L) (derived task)) "userSteamId"
       = Some (uint64_string user)
    /\ event_field (PushLuaEventTableTo (steam w) (Some L) (derived task)) "smallAvatarChanged"
       = Some (LuaBoolean avatarChanged)
    /\ event_field (PushLuaEventTableTo (steam w) (Some L) (derived task)) "largeAvatarChanged"
       = Some (LuaBoolean
                 (avatarChanged
                  && match SteamFriends (steam w) with
                     | Some steamFriendsPointer =>
                         (GetSmallFriendAvatar steamFriendsPointer user =? 0)
                         || (bool_decide
                               (user ∈ RuntimeContext.fLargeAvatarSubscribedUserIdSet (context w))
                             && IsValid (FromImageHandle (steam w)
                                           (GetLargeFriendAvatar steamFriendsPointer user)))
                     | None => false
                     end)).
Proof.
  intros user avatarChanged.
  eexists. split.
  { unfold OnSteamPersonaStateChanged. cbn [fmap option_fmap option_map].
    unfold OnHandleGlobalSteamEvent. unfold_monad. reflexivity. }
  split; [reflexivity|].
  cbn [derived acquire_task persona_special_handling].
  unfold DispatchPersonaStateChangedEventTask.AcquireEventDataFrom.
  subst avatarChanged. unfold DispatchPersonaStateChangedEventTask.has_flag.
  fold user.
  assert (Hfields : forall t,
    DispatchPersonaStateChangedEventTask.fUserIntegerId t = user ->
    DispatchPersonaStateChangedEventTask.fFlags t = PersonaStateChange_t.m_nChangeFlags changed ->
    event_field (PushLuaEventTableTo (steam w) (Some L) (PersonaStateChangedTask t)) "userSteamId"
      = Some (uint64_string user)
    /\ event_field (PushLuaEventTableTo (steam w) (Some L) (PersonaStateChangedTask t))
         "smallAvatarChanged"
       = Some (LuaBoolean (truthy (Z.land (PersonaStateChange_t.m_nChangeFlags changed)
                                          k_EPersonaChangeAvatar)))
    /\ event_field (PushLuaEventTableTo (steam w) (Some L) (PersonaStateChangedTask t))
         "largeAvatarChanged"
       = Some (LuaBoolean (DispatchPersonaStateChangedEventTask.fHasLargeAvatarChanged t))).
  { intros [u f l] Hu Hf. cbn in Hu, Hf. subst u f. repeat split. }
  assert (Hor : forall b, b || true = true) by (intros []; reflexivity).
  destruct (SteamFriends (steam w)) as [friends|];
    destruct (truthy (Z.land (PersonaStateChange_t.m_nChangeFlags changed) k_EPersonaChangeAvatar));
    try destruct (bool_decide _); try destruct (IsValid _);
    match goal with
    | |- context [PersonaStateChangedTask ?t] =>
        destruct (Hfields t eq_refl eq_refl) as (H1 & H2 & H3)
    end;
    rewrite H1, H2, H3; cbn; rewrite ?orb_false_r, ?Hor; repeat split.
Qed.

(** X9: asking for a user's large avatar subscribes that user, asking
    for the small or medium one does not; after the subscription an avatar
    change of that user whose large image is valid is queued as an event
    that reports the large avatar as changed. *)
Theorem X9_large_avatar_subscription (w : World) (L : lua_State) (user : Z)
    (friends : ISteamFriends) (changed : PersonaStateChange_t.t) :
  CSteamID_IsValid (steam w) user = true ->
  SteamFriends (steam w) = Some friends ->
  PersonaStateChange_t.m_ulSteamID changed = user ->
  DispatchPersonaStateChangedEventTask.has_flag
    (PersonaStateChange_t.m_nChangeFlags changed) k_EPersonaChangeAvatar = true ->
  IsValid (FromImageHandle (steam w) (GetLargeFriendAvatar friends user)) = true ->
  let subscribed w := RuntimeContext.fLargeAvatarSubscribedUserIdSet (context w) in
  let w1 := snd (GetUserImageInfoFor user kAvatarLarge w) in
  let w2 := snd (OnSteamPersonaStateChanged (Some changed) w1) in
  (* asking for the large avatar subscribes the user, the smaller ones do not *)
  subscribed w1 = {[user]} ∪ subscribed w
  /\ subscribed (snd (GetUserImageInfoFor user kAvatarSmall w)) = subscribed w
  /\ subscribed (snd (GetUserImageInfoFor user kAvatarMedium w)) = subscribed w
  (* the next avatar change of that user is reported for the large avatar too *)
  /\ exists task,
       RuntimeContext.fDispatchEventTaskQueue (context w2)
       = RuntimeContext.fDispatchEventTaskQueue (context w) ++ [Some task]
       /\ event_field (PushLuaEventTableTo (steam w) (Some L) (derived task)) "largeAvatarChanged"
          = Some (LuaBoolean true).
Proof.
  intros Hvalid Hfriends Huser Hflag Hlarge subscribed w1 w2.
  assert (Hget : forall imageType, imageType <> kUnknownImage ->
            steam (snd (GetUserImageInfoFor user imageType w)) = steam w
            /\ RuntimeContext.fDispatchEventTaskQueue
                 (context (snd (GetUserImageInfoFor user imageType w)))
               = RuntimeContext.fDispatchEventTaskQueue (context w)
            /\ subscribed (snd (GetUserImageInfoFor user imageType w))
               = if bool_decide (imageType = kAvatarLarge)
                 then {[user]} ∪ subscribed w else subscribed w).
  { intros imageType Hknown. unfold GetUserImageInfoFor. unfold_monad.
    rewrite Hvalid, Hfriends. cbn [negb orb].
    destruct imageType; try contradiction; cbn [bool_decide decide_rel];
      destruct (_ =? 0); cbn; repeat split. }
  destruct (Hget kAvatarLarge ltac:(discriminate)) as (Hs1 & Hq1 & Hsub1).
  destruct (Hget kAvatarSmall ltac:(discriminate)) as (_ & _ & Hsub2).
  destruct (Hget kAvatarMedium ltac:(discriminate)) as (_ & _ & Hsub3).
  fold w1 in Hs1, Hq1, Hsub1.
  split; [exact Hsub1|]. split; [exact Hsub2|]. split; [exact Hsub3|].
  eexists. split.
  { subst w2. unfold OnSteamPersonaStateChanged. cbn [fmap option_fmap option_map].
    unfold OnHandleGlobalSteamEvent. unfold_monad. cbn. rewrite Hq1. reflexivity. }
  cbn [derived acquire_task persona_special_handling]. rewrite Hs1, Hfriends.
  unfold DispatchPersonaStateChangedEventTask.has_flag in Hflag. rewrite Hflag, Huser.
  unfold subscribed in Hsub1. rewrite Hsub1.
  rewrite bool_decide_eq_true_2 by (apply elem_of_union_l, elem_of_singleton; reflexivity).
  rewrite Hlarge. reflexivity.
Qed.

Lemma X9_large_avatar_subscription_witness :
  let w := example_world_with example_steam_large_avatar in
  let changed :=
    {| PersonaStateChange_t.m_ulSteamID := 76561197960287930;
       PersonaStateChange_t.m_nChangeFlags := 64 |} in
  let w1 := snd (GetUserImageInfoFor 76561197960287930 kAvatarLarge w) in
  let w2 := snd (OnSteamPersonaStateChanged (Some changed) w1) in
  exists task,
    RuntimeContext.fDispatchEventTaskQueue (context w2) = [Some task]
    /\ event_field (PushLuaEventTableTo example_steam_large_avatar (Some example_L) (derived task))
         "largeAvatarChanged"
       = Some (LuaBoolean true).
Proof.
  intros w changed w1 w2.
  destruct (X9_large_avatar_subscription w example_L 76561197960287930
              example_friends_large_avatar changed
              eq_refl eq_refl eq_refl eq_refl eq_refl) as (_ & _ & _ & task & Hq & Hfield).
  exists task. split; [exact Hq|exact Hfield].
Defined.

(** X11: with an empty queue, no callback pending, the overlay idle
    and no render requested, a frame poll returns 0 and leaves the world
    exactly as it was; without a Lua state it does so whatever is
    pending. *)
Theorem X11_idle_poll_changes_nothing (pending : list PendingCallback) (fuel : nat)
    (L : lua_State) (w : World) :
  RuntimeContext.fDispatchEventTaskQueue (context w) = [] ->
  overlay_needs_present (steam w) = false ->
  RuntimeContext.fWasRenderRequested (context w) = false ->
  OnCoronaEnterFrame [] fuel (Some L) w = (Returned 0, w)
  /\ OnCoronaEnterFrame pending fuel None w = (Returned 0, w).
Proof.
  intros Hq Hoverlay Hflag. split; [|reflexivity].
  unfold OnCoronaEnterFrame. cbn [SteamAPI_RunCallbacks]. unfold bind at 1. unfold ret at 1.
  unfold bind at 1.
  rewrite drain_queue_drains by (rewrite Hq; cbn; lia).
  cbn [negb]. unfold_monad. cbn [steam context drained].
  unfold overlay_needs_present in Hoverlay. rewrite Hoverlay.
  cbn [set_queue RuntimeContext.fWasRenderRequested]. rewrite Hflag. cbn [orb negb].
  f_equal.
  destruct w as [s h [d q m u p r] sc dg dl sw lc]. cbn in *. subst q r.
  rewrite app_nil_r. reflexivity.
Qed.

Lemma X11_idle_poll_changes_nothing_witness :
  OnCoronaEnterFrame [] 0 (Some example_L) example_world = (Returned 0, example_world).
Proof.
  apply (X11_idle_poll_changes_nothing [] 0 example_L example_world); reflexivity.
Defined.

Lemma api_frame_refl (w : World) : api_frame w w.
Proof. unfold api_frame. repeat split; reflexivity. Qed.

Lemma api_frame_trans (w1 w2 w3 : World) :
  api_frame w1 w2 -> api_frame w2 w3 -> api_frame w1 w3.
Proof.
  unfold api_frame.
  intros (A1 & A2 & A3 & A4 & A5 & A6 & A7 & A8 & A9 & A10 & A11 & A12 & A13)
         (B1 & B2 & B3 & B4 & B5 & B6 & B7 & B8 & B9 & B10 & B11 & B12 & B13).
  repeat split; try congruence; etransitivity; eassumption.
Qed.

Section ApiFrameRules.
Context {A B : Type}.

Lemma keeps_ret (a : A) : keeps_api_frame (ret a).
Proof. intros w. apply api_frame_refl. Qed.

Lemma keeps_bind (m : M A) (k : A -> M B) :
  keeps_api_frame m -> (forall a, keeps_api_frame (k a)) -> keeps_api_frame (bind m k).
Proof.
  intros Hm Hk w. unfold bind. specialize (Hm w).
  destruct (m w) as [a w1]. cbn [snd] in Hm.
  eapply api_frame_trans; [exact Hm|apply Hk].
Qed.

Lemma keeps_read (f : World -> A) : keeps_api_frame (fun w => (f w, w)).
Proof. intros w. apply api_frame_refl. Qed.
End ApiFrameRules.

Lemma keeps_steam_call (c : SteamCall) : keeps_api_frame (steam_call c).
Proof.
  intros w. unfold api_frame. cbn. repeat split; try reflexivity.
  apply prefix_app_r. reflexivity.
Qed.

Lemma keeps_log_diagnostic (d : Diagnostic) : keeps_api_frame (log_diagnostic d).
Proof.
  intros w. unfold api_frame. cbn. repeat split; try reflexivity.
  apply prefix_app_r. reflexivity.
Qed.

Lemma keeps_log_listener_call (add : bool) (eventName : string) (listener : LuaValue) :
  keeps_api_frame (log_listener_call add eventName listener).
Proof.
  intros w. unfold api_frame. cbn. repeat split; try reflexivity.
  apply prefix_app_r. reflexivity.
Qed.

Lemma keeps_GetCachedLeaderboardHandleByName (name : option string) :
  keeps_api_frame (GetCachedLeaderboardHandleByName name).
Proof.
  intros w. unfold GetCachedLeaderboardHandleByName. unfold_monad.
  destruct name as [s|]; [destruct (_ !! s)|]; apply api_frame_refl.
Qed.

Lemma keeps_AddEventHandlerFor (kind : CallResultKind) (settings : EventHandlerSettings) :
  keeps_api_frame (AddEventHandlerFor kind settings).
Proof.
  intros w. unfold AddEventHandlerFor. unfold_monad.
  destruct (_ =? _); [apply api_frame_refl|].
  unfold api_frame. cbn. repeat split; try reflexivity.
  apply prefix_app_r. reflexivity.
Qed.

Lemma keeps_GetUserImageInfoFor (userSteamId : Z) (imageType : SteamUserImageType) :
  keeps_api_frame (GetUserImageInfoFor userSteamId imageType).
Proof.
  intros w. unfold GetUserImageInfoFor. unfold_monad.
  destruct (_ || _); [apply api_frame_refl|].
  destruct (SteamFriends (steam w)) as [friends|]; [|apply api_frame_refl].
  destruct imageType; try apply api_frame_refl;
    destruct (_ =? 0); cbn; unfold api_frame; cbn; repeat split; try reflexivity;
    try (apply prefix_app_r; reflexivity); try set_solver.
Qed.

Ltac api_step :=
  lazymatch goal with
  | |- keeps_api_frame (bind _ _) => apply keeps_bind; [|intros ?]
  | |- keeps_api_frame (ret _) => apply keeps_ret
  | |- keeps_api_frame get_steam => apply keeps_read
  | |- keeps_api_frame get_host => apply keeps_read
  | |- keeps_api_frame get_context => apply keeps_read
  | |- keeps_api_frame (fun w => (_, w)) => apply keeps_read
  | |- keeps_api_frame (steam_call _) => apply keeps_steam_call
  | |- keeps_api_frame (CoronaLuaError _ _) => apply keeps_log_diagnostic
  | |- keeps_api_frame (CoronaLuaWarning _ _) => apply keeps_log_diagnostic
  | |- keeps_api_frame (log_listener_call _ _ _) => apply keeps_log_listener_call
  | |- keeps_api_frame (GetCachedLeaderboardHandleByName _) =>
      apply keeps_GetCachedLeaderboardHandleByName
  | |- keeps_api_frame (AddEventHandlerFor _ _) => apply keeps_AddEventHandlerFor
  | |- keeps_api_frame (GetUserImageInfoFor _ _) => apply keeps_GetUserImageInfoFor
  | |- keeps_api_frame (if ?c then _ else _) => destruct c
  | |- keeps_api_frame (match ?x with _ => _ end) => destruct x
  end.

Ltac api_entry f :=
  intros [?|]; [|apply keeps_ret]; unfold f, add_or_remove_listener;
  unfold fetch_optional_userSteamId, fetch_leaderboardName, fetch_playerScope, fetch_range,
    fetch_index, fetch_progress;
  cbn beta iota; repeat api_step.

Lemma keeps_OnGetAchievementImageInfo L : keeps_api_frame (OnGetAchievementImageInfo L).
Proof. revert L. api_entry OnGetAchievementImageInfo. Qed.

Lemma keeps_OnGetAchievementInfo L : keeps_api_frame (OnGetAchievementInfo L).
Proof. revert L. api_entry OnGetAchievementInfo. Qed.

Lemma keeps_OnGetUserImageInfo L : keeps_api_frame (OnGetUserImageInfo L).
Proof. revert L. api_entry OnGetUserImageInfo. Qed.

Lemma keeps_OnGetUserInfo L : keeps_api_frame (OnGetUserInfo L).
Proof. revert L. api_entry OnGetUserInfo. Qed.

Lemma keeps_OnGetUserStatValue L : keeps_api_frame (OnGetUserStatValue L).
Proof. revert L. api_entry OnGetUserStatValue. Qed.

Lemma keeps_OnNewImageRect L : keeps_api_frame (OnNewImageRect L).
Proof. revert L. api_entry OnNewImageRect. Qed.

Lemma keeps_OnNewTexture L : keeps_api_frame (OnNewTexture L).
Proof. revert L. api_entry OnNewTexture. Qed.

Lemma keeps_OnRequestActivePlayerCount L : keeps_api_frame (OnRequestActivePlayerCount L).
Proof. revert L. api_entry OnRequestActivePlayerCount. Qed.

Lemma keeps_OnRequestLeaderboardEntries L : keeps_api_frame (OnRequestLeaderboardEntries L).
Proof. revert L. api_entry OnRequestLeaderboardEntries. Qed.

Lemma keeps_OnRequestLeaderboardInfo L : keeps_api_frame (OnRequestLeaderboardInfo L).
Proof. revert L. api_entry OnRequestLeaderboardInfo. Qed.

Lemma keeps_OnRequestSetHighScore L : keeps_api_frame (OnRequestSetHighScore L).
Proof. revert L. api_entry OnRequestSetHighScore. Qed.

Lemma keeps_OnRequestUserProgress L : keeps_api_frame (OnRequestUserProgress L).
Proof. revert L. api_entry OnRequestUserProgress. Qed.

Lemma keeps_OnResetUserProgress L : keeps_api_frame (OnResetUserProgress L).
Proof. revert L. api_entry OnResetUserProgress. Qed.

Lemma keeps_OnResetUserStats L : keeps_api_frame (OnResetUserStats L).
Proof. revert L. api_entry OnResetUserStats. Qed.

Lemma keeps_OnSetAchievementProgress L : keeps_api_frame (OnSetAchievementProgress L).
Proof. revert L. api_entry OnSetAchievementProgress. Qed.

Lemma keeps_OnSetAchievementUnlocked L : keeps_api_frame (OnSetAchievementUnlocked L).
Proof. revert L. api_entry OnSetAchievementUnlocked. Qed.

Lemma keeps_OnShowGameOverlay L : keeps_api_frame (OnShowGameOverlay L).
Proof. revert L. api_entry OnShowGameOverlay. Qed.

Lemma keeps_OnShowStoreOverlay L : keeps_api_frame (OnShowStoreOverlay L).
Proof. revert L. api_entry OnShowStoreOverlay. Qed.

Lemma keeps_OnShowUserOverlay L : keeps_api_frame (OnShowUserOverlay L).
Proof. revert L. api_entry OnShowUserOverlay. Qed.

Lemma keeps_OnShowWebOverlay L : keeps_api_frame (OnShowWebOverlay L).
Proof. revert L. api_entry OnShowWebOverlay. Qed.

Lemma keeps_OnSetNotificationPosition L : keeps_api_frame (OnSetNotificationPosition L).
Proof. revert L. api_entry OnSetNotificationPosition. Qed.

Lemma keeps_set_stat_element stats statIndex element :
  keeps_api_frame (set_stat_element stats statIndex element).
Proof. unfold set_stat_element. repeat api_step. Qed.

Lemma keeps_set_stat_elements stats elements statIndex hasSetStat :
  keeps_api_frame (set_stat_elements stats statIndex elements hasSetStat).
Proof.
  revert statIndex hasSetStat.
  induction elements as [|element rest IH]; intros statIndex hasSetStat;
    cbn [set_stat_elements]; [apply keeps_ret|].
  apply keeps_bind; [apply keeps_set_stat_element|intros ?; apply IH].
Qed.

Lemma keeps_OnSetUserStatValues L : keeps_api_frame (OnSetUserStatValues L).
Proof.
  destruct L as [L|]; [|apply keeps_ret]. unfold OnSetUserStatValues.
  repeat first [apply keeps_set_stat_elements | api_step].
Qed.

Lemma keeps_OnIsDlcInstalled L : keeps_api_frame (OnIsDlcInstalled L).
Proof. revert L. api_entry OnIsDlcInstalled. Qed.

Lemma keeps_OnGetAchievementNames L : keeps_api_frame (OnGetAchievementNames L).
Proof. revert L. api_entry OnGetAchievementNames. Qed.

Lemma keeps_OnAddEventListener L : keeps_api_frame (OnAddEventListener L).
Proof. revert L. api_entry OnAddEventListener. Qed.

Lemma keeps_OnRemoveEventListener L : keeps_api_frame (OnRemoveEventListener L).
Proof. revert L. api_entry OnRemoveEventListener. Qed.

Lemma keeps_OnAccessingField L : keeps_api_frame (OnAccessingField L).
Proof. revert L. api_entry OnAccessingField. Qed.

(** X12: the code of no function of the plugin's Lua table, and of
    no read or write of its properties, queues a dispatch task, changes the
    leaderboard handle cache or the render-request flag, replaces the
    dispatcher pointer of the context, hands an event over for delivery or
    writes the stage's visibility.  During such a call the set of
    large-avatar subscriptions and the logs of SDK requests, diagnostics,
    listener calls (additions and removals alike) and call-result handlers
    keep what they held and are only added to. *)
Theorem X12_api_calls_keep_queue_and_caches :
  Forall (fun entry => forall luaStatePointer, keeps_api_frame (snd entry luaStatePointer))
    luaFunctions
  /\ (forall luaStatePointer, keeps_api_frame (OnAccessingField luaStatePointer))
  /\ (forall luaStatePointer, keeps_api_frame (OnAssigningField luaStatePointer)).
Proof.
  split; [|split; [exact keeps_OnAccessingField|intros L; apply keeps_ret]].
  unfold luaFunctions.
  repeat (apply Forall_cons; split;
          [first [exact keeps_OnGetAchievementImageInfo | exact keeps_OnGetAchievementInfo
                 | exact keeps_OnGetAchievementNames | exact keeps_OnGetUserImageInfo
                 | exact keeps_OnGetUserInfo | exact keeps_OnGetUserStatValue
                 | exact keeps_OnNewImageRect | exact keeps_OnNewTexture
                 | exact keeps_OnRequestActivePlayerCount
                 | exact keeps_OnRequestLeaderboardEntries
                 | exact keeps_OnRequestLeaderboardInfo | exact keeps_OnRequestSetHighScore
                 | exact keeps_OnRequestUserProgress | exact keeps_OnResetUserProgress
                 | exact keeps_OnResetUserStats | exact keeps_OnSetAchievementProgress
                 | exact keeps_OnSetAchievementUnlocked | exact keeps_OnSetNotificationPosition
                 | exact keeps_OnSetUserStatValues | exact keeps_OnShowGameOverlay
                 | exact keeps_OnShowStoreOverlay | exact keeps_OnShowUserOverlay
                 | exact keeps_OnShowWebOverlay | exact keeps_OnIsDlcInstalled
                 | exact keeps_OnAddEventListener | exact keeps_OnRemoveEventListener]|]).
  apply Forall_nil. exact I.
Qed.

Lemma id_text_round_trip (id : Z) :
  id <> 0 ->
  truthy id = true
  /\ (0 <= id <= UINT64_MAX -> SteamIdFromString (stream_put_unsigned id) = id).
Proof.
  intros Hne. split.
  - unfold truthy. destruct (Z.eqb_spec id 0); [contradiction|reflexivity].
  - intros Hr. unfold SteamIdFromString, stream_get_uint64.
    rewrite stream_round_trip by (try reflexivity; exact Hr). reflexivity.
Qed.

(** The value read from a property that holds the ID [held] (none when
    the interface is missing). *)
Lemma id_property_value (held : option Z) :
  let integerId := match held with Some id => id | None => 0 end in
  let v := if truthy integerId then uint64_string integerId else LuaNil in
  (forall id, held = Some id -> id <> 0 ->
     v = LuaString (stream_put_unsigned id)
     /\ (0 <= id <= UINT64_MAX -> SteamIdFromString (stream_put_unsigned id) = id))
  /\ (held = None \/ held = Some 0 -> v = LuaNil).
Proof.
  intros integerId v. split.
  - intros id -> Hne. subst v integerId.
    destruct (id_text_round_trip id Hne) as [-> Hrt]. split; [reflexivity|exact Hrt].
  - intros [-> | ->]; reflexivity.
Qed.

Ltac other_field :=
  intros; repeat match goal with H : _ \/ _ |- _ => destruct H end; discriminate.

(** X13: reading one of the five properties leaves the world
    unchanged and gives one value: the app ID text copied (nil when none
    or empty) for [appId], a boolean for [isLoggedOn] and
    [canShowOverlay], and for the two Steam IDs nil (no interface, or ID
    0) or the ID's decimal text, which parses back to the ID.  Reading any
    other string key gives no value and logs one error; a key that is no
    string gives no value. *)
Theorem X13_property_fields (L : lua_State) (w : World) :
  let '(out, w') := OnAccessingField (Some L) w in
  match lua_arg (lua_stack L) 2 with
  | Some (LuaString fieldName) =>
      if bool_decide (fieldName ∈ property_fields) then
        w' = w
        /\ exists v, out = LuaReturn [v]
           /\ (fieldName = "appId"%string ->
                 match CopySteamAppIdTo w with
                 | Some text => if String.eqb text EmptyString then v = LuaNil
                                else v = LuaString text
                 | None => v = LuaNil
                 end)
           /\ (fieldName = "isLoggedOn"%string \/ fieldName = "canShowOverlay"%string ->
                 lua_typeof v = LUA_TBOOLEAN)
           /\ (forall id, property_id (steam w) fieldName = Some id -> id <> 0 ->
                 v = LuaString (stream_put_unsigned id)
                 /\ (0 <= id <= UINT64_MAX -> SteamIdFromString (stream_put_unsigned id) = id))
           /\ (fieldName = "appOwnerSteamId"%string \/ fieldName = "userSteamId"%string ->
                 property_id (steam w) fieldName = None
                 \/ property_id (steam w) fieldName = Some 0 ->
                 v = LuaNil)
      else
        out = LuaReturn []
        /\ w' = logged w [] [CoronaLuaError_ "Accessing unknown field: '%s'" [FmtString fieldName]]
  | _ => out = LuaReturn [] /\ w' = w
  end.
Proof.
  unfold OnAccessingField.
  destruct (lua_arg (lua_stack L) 2) as [[| | |fieldName| | | |]|];
    try (split; reflexivity).
  unfold_monad.
  assert (Hin : forall name, In name property_fields ->
            bool_decide (name ∈ property_fields) = true).
  { intros name Hname. apply bool_decide_eq_true_2, list_elem_of_In, Hname. }
  destruct (String.eqb_spec fieldName "appId") as [->|N1].
  { rewrite Hin by (cbn; tauto). unfold non_empty.
    destruct (CopySteamAppIdTo w) as [text|]; [destruct (String.eqb text EmptyString)|];
      cbn [negb default]; (split; [reflexivity|]); eexists; (split; [reflexivity|]);
      (split; [intros _; reflexivity|]);
      (split; [other_field|]); (split; other_field). }
  destruct (String.eqb_spec fieldName "appOwnerSteamId") as [->|N2].
  { rewrite Hin by (cbn; tauto).
    destruct (id_property_value (GetAppOwner <$> SteamApps (steam w))) as [Hid Hnil].
    unfold property_id. cbn [String.eqb Ascii.eqb Bool.eqb].
    destruct (SteamApps (steam w)) as [apps|]; cbn [fmap option_fmap option_map] in *;
      destruct (truthy _); (split; [reflexivity|]); eexists; (split; [reflexivity|]);
      (split; [other_field|]); (split; [other_field|]);
      (split; [exact Hid|intros _; exact Hnil]). }
  destruct (String.eqb_spec fieldName "userSteamId") as [->|N3].
  { rewrite Hin by (cbn; tauto).
    destruct (id_property_value (GetSteamID <$> SteamUser (steam w))) as [Hid Hnil].
    unfold property_id. cbn [String.eqb Ascii.eqb Bool.eqb].
    destruct (SteamUser (steam w)) as [user|]; cbn [fmap option_fmap option_map] in *;
      destruct (truthy _); (split; [reflexivity|]); eexists; (split; [reflexivity|]);
      (split; [other_field|]); (split; [other_field|]);
      (split; [exact Hid|intros _; exact Hnil]). }
  destruct (String.eqb_spec fieldName "isLoggedOn") as [->|N4].
  { rewrite Hin by (cbn; tauto). split; [reflexivity|]. eexists; split; [reflexivity|].
    split; [other_field|]. split; [reflexivity|]. split; other_field. }
  destruct (String.eqb_spec fieldName "canShowOverlay") as [->|N5].
  { rewrite Hin by (cbn; tauto). split; [reflexivity|]. eexists; split; [reflexivity|].
    split; [other_field|]. split; [reflexivity|]. split; other_field. }
  rewrite bool_decide_eq_false_2.
  - split; [reflexivity|]. unfold logged. rewrite app_nil_r. reflexivity.
  - unfold property_fields. intros H.
    repeat (apply elem_of_cons in H; destruct H as [H|H]; [contradiction|]).
    apply elem_of_nil in H. exact H.
Qed.

Lemma quiet_refl (w : World) : quiet w w.
Proof. unfold quiet. repeat split; reflexivity. Qed.

Lemma quiet_log_diagnostic (w0 w : World) (d : Diagnostic) :
  quiet w0 w -> quiet w0 (snd (log_diagnostic d w)).
Proof.
  unfold quiet. intros (H1 & H2 & H3 & H4 & H5 & H6 & H7 & H8). cbn.
  repeat split; try assumption. etransitivity; [exact H8|]. apply prefix_app_r. reflexivity.
Qed.

Section QuietRules.
Context {A B : Type}.

Lemma quietly_ret (w0 : World) (a : A) (Q : A -> World -> Prop) :
  (forall w, quiet w0 w -> Q a w) -> quietly w0 (ret a) Q.
Proof. intros H w Hw. cbn. auto. Qed.

Lemma quietly_bind (w0 : World) (R : A -> Prop) (m : M A) (k : A -> M B)
    (Q : B -> World -> Prop) :
  quietly w0 m (fun a w => quiet w0 w /\ R a) ->
  (forall a, R a -> quietly w0 (k a) Q) ->
  quietly w0 (bind m k) Q.
Proof.
  intros Hm Hk w Hw. unfold bind. specialize (Hm w Hw).
  destruct (m w) as [a w1]. destruct Hm as [Hq Ha]. exact (Hk a Ha w1 Hq).
Qed.

Lemma quietly_weaken (w0 : World) (m : M A) (Q Q' : A -> World -> Prop) :
  quietly w0 m Q -> (forall a w, Q a w -> Q' a w) -> quietly w0 m Q'.
Proof. intros Hm H w Hw. specialize (Hm w Hw). destruct (m w). auto. Qed.
End QuietRules.

Lemma quietly_get_steam (w0 : World) :
  quietly w0 get_steam (fun s w => quiet w0 w /\ s = steam w0).
Proof. intros w Hw. cbn. split; [exact Hw|apply Hw]. Qed.

Lemma quietly_get_host (w0 : World) :
  quietly w0 get_host (fun h w => quiet w0 w /\ h = host w0).
Proof. intros w Hw. cbn. split; [exact Hw|apply Hw]. Qed.

Lemma quietly_get_context (w0 : World) :
  quietly w0 get_context (fun c w => quiet w0 w /\ c = context w0).
Proof. intros w Hw. cbn. split; [exact Hw|apply Hw]. Qed.

Lemma quietly_CoronaLuaError (w0 : World) format args :
  quietly w0 (CoronaLuaError format args) (fun _ w => quiet w0 w /\ True).
Proof.
  intros w Hw. unfold CoronaLuaError.
  pose proof (quiet_log_diagnostic w0 w (CoronaLuaError_ format args) Hw) as H.
  destruct (log_diagnostic _ w). cbn in H. auto.
Qed.

Lemma quietly_GetCachedLeaderboardHandleByName (w0 : World) (name : string) :
  quietly w0 (GetCachedLeaderboardHandleByName (Some name))
    (fun handle w =>
       quiet w0 w
       /\ handle = default 0 (RuntimeContext.fLeaderboardNameHandleMap (context w0) !! name)).
Proof.
  intros w Hw. unfold GetCachedLeaderboardHandleByName. unfold_monad.
  pose proof Hw as (_ & _ & H3 & _). rewrite H3.
  destruct (_ !! name); (split; [exact Hw|reflexivity]).
Qed.

Lemma cast_int32_bounds (z : Z) : INT32_MIN <= cast_int32 z <= INT32_MAX.
Proof.
  unfold cast_int32, INT32_MIN, INT32_MAX.
  pose proof (Z.mod_pos_bound (z + 2147483648) 4294967296 ltac:(lia)). lia.
Qed.

Lemma quietly_fetch_index (w0 : World) h settings fieldName message :
  quietly w0 (fetch_index h settings fieldName message)
    (fun r w => quiet w0 w
                /\ match r with
                   | Some (_, index) => INT32_MIN <= index <= INT32_MAX
                   | None => True
                   end).
Proof.
  unfold fetch_index.
  destruct (table_getfield settings fieldName);
    try (eapply quietly_bind; [apply quietly_CoronaLuaError|];
         intros _ _; apply quietly_ret; intros; split; [assumption|exact I]).
  - apply quietly_ret. intros w Hw. split; [exact Hw|]. unfold INT32_MIN, INT32_MAX. lia.
  - apply quietly_ret. intros w Hw. split; [exact Hw|].
    unfold tointeger_int. apply cast_int32_bounds.
Qed.

Lemma quietly_fetch_range (w0 : World) h settings playerScope :
  quietly w0 (fetch_range h settings playerScope)
    (fun r w => quiet w0 w
                /\ match r with
                   | Some range => range_in_order playerScope range
                   | None => True
                   end).
Proof.
  unfold fetch_range.
  destruct (bool_decide_reflect (playerScope <> k_ELeaderboardDataRequestFriends)) as [Hne|He].
  - eapply quietly_bind; [apply quietly_fetch_index|]. intros [[hasStart first]|] Hfirst;
      [|apply quietly_ret; intros; split; [assumption|exact I]].
    eapply quietly_bind; [apply quietly_fetch_index|]. intros [[hasEnd last]|] Hlast;
      [|apply quietly_ret; intros; split; [assumption|exact I]].
    destruct (negb (Bool.eqb hasStart hasEnd)) eqn:Hboth.
    + eapply quietly_bind with (R := fun _ => True).
      * destruct hasStart; apply quietly_CoronaLuaError.
      * intros _ _. apply quietly_ret. intros; split; [assumption|exact I].
    + destruct hasStart, hasEnd; try discriminate; cbn [andb].
      * apply quietly_ret. intros w Hw. split; [exact Hw|].
        unfold range_in_order. cbn [fst snd].
        unfold INT32_MIN, INT32_MAX in *.
        destruct (bool_decide_reflect (k_ELeaderboardDataRequestGlobal = playerScope)) as [Hg|Hg];
          cbn [andb].
        -- destruct (Z.ltb_spec first 1).
           ++ destruct (Z.ltb_spec last 1); repeat split; try lia; congruence.
           ++ destruct (Z.ltb_spec last first); repeat split; try lia; congruence.
        -- destruct (Z.ltb_spec last first); repeat split; try lia; congruence.
      * destruct playerScope; apply quietly_ret; intros w Hw; (split; [exact Hw|]);
          unfold range_in_order, INT32_MIN, INT32_MAX; cbn; repeat split; try lia;
          congruence.
  - apply quietly_ret. intros w Hw. split; [exact Hw|].
    destruct playerScope; try (exfalso; apply He; discriminate).
    unfold range_in_order, INT32_MIN, INT32_MAX. cbn. repeat split; try lia; discriminate.
Qed.

Lemma quietly_fetch_leaderboardName (w0 : World) settings :
  quietly w0 (fetch_leaderboardName settings)
    (fun r w => quiet w0 w
                /\ match r with
                   | Some name => table_getfield settings "leaderboardName" = LuaString name
                                  /\ name <> EmptyString
                   | None => True
                   end).
Proof.
  unfold fetch_leaderboardName.
  destruct (table_getfield settings "leaderboardName");
    try (eapply quietly_bind; [apply quietly_CoronaLuaError|];
         intros _ _; apply quietly_ret; intros; split; [assumption|exact I]).
  destruct (String.eqb_spec s EmptyString).
  - eapply quietly_bind; [apply quietly_CoronaLuaError|].
    intros _ _; apply quietly_ret; intros; split; [assumption|exact I].
  - apply quietly_ret. intros; split; [assumption|]. split; [reflexivity|assumption].
Qed.

Lemma quietly_fetch_playerScope (w0 : World) settings :
  quietly w0 (fetch_playerScope settings) (fun _ w => quiet w0 w /\ True).
Proof.
  unfold fetch_playerScope.
  destruct (table_getfield settings "playerScope");
    try (eapply quietly_bind; [apply quietly_CoronaLuaError|];
         intros _ _; apply quietly_ret; intros; split; [assumption|exact I]);
    try (apply quietly_ret; intros; split; [assumption|exact I]).
  repeat (destruct (String.eqb _ _);
          [apply quietly_ret; intros; split; [assumption|exact I]|]).
  eapply quietly_bind; [apply quietly_CoronaLuaError|].
  intros _ _; apply quietly_ret; intros; split; [assumption|exact I].
Qed.

(** A validation failure: the message is logged and the call returns. *)
Ltac quiet_fail :=
  first
    [ apply quietly_ret; intros ? ?; left; split; [reflexivity|assumption]
    | eapply quietly_bind; [apply quietly_CoronaLuaError|];
      intros _ _; apply quietly_ret; intros ? ?; left; split; [reflexivity|assumption] ].

(** X14: a leaderboard entries request either fails (false, with
    nothing but diagnostics added) or sends exactly one SDK request for the
    non-empty name given: a lookup of the leaderboard when its handle is
    not cached, else a download with the cached handle and a range that is
    in order, within 32 bits, starts at 1 or later for the global scope
    and is (0, 0) for the friends scope. *)
Theorem X14_leaderboard_entries_request (L : lua_State) (w : World) :
  let '(out, w') := OnRequestLeaderboardEntries (Some L) w in
  (out = LuaReturn [LuaBoolean false] /\ quiet w w')
  \/ exists leaderboardName,
       table_getfield (arg_value (lua_stack L) 1) "leaderboardName" = LuaString leaderboardName
       /\ leaderboardName <> EmptyString
       /\ let cached :=
            default 0 (RuntimeContext.fLeaderboardNameHandleMap (context w) !! leaderboardName) in
          if cached =? 0 then
            steam_calls w' = steam_calls w ++ [Call_FindLeaderboard leaderboardName]
          else
            exists playerScope range,
              steam_calls w'
              = steam_calls w
                ++ [Call_DownloadLeaderboardEntries cached playerScope (fst range) (snd range)]
              /\ range_in_order playerScope range.
Proof.
  set (Q := fun (out : LuaCallOutcome) (w' : World) =>
    (out = LuaReturn [LuaBoolean false] /\ quiet w w')
    \/ exists leaderboardName,
         table_getfield (arg_value (lua_stack L) 1) "leaderboardName" = LuaString leaderboardName
         /\ leaderboardName <> EmptyString
         /\ let cached :=
              default 0 (RuntimeContext.fLeaderboardNameHandleMap (context w) !! leaderboardName) in
            if cached =? 0 then
              steam_calls w' = steam_calls w ++ [Call_FindLeaderboard leaderboardName]
            else
              exists playerScope range,
                steam_calls w'
                = steam_calls w
                  ++ [Call_DownloadLeaderboardEntries cached playerScope (fst range) (snd range)]
                /\ range_in_order playerScope range).
  assert (H : quietly w (OnRequestLeaderboardEntries (Some L)) Q).
  { unfold OnRequestLeaderboardEntries.
    destruct (negb (lua_upvalue_context L)); [quiet_fail|].
    eapply quietly_bind; [apply quietly_get_steam|]. intros s ->.
    destruct (SteamUserStats (steam w)) as [stats|]; [|quiet_fail].
    destruct (negb (lua_istable _)); [quiet_fail|].
    eapply quietly_bind; [apply quietly_fetch_leaderboardName|].
    intros [leaderboardName|] Hname; [|quiet_fail]. destruct Hname as [Hname Hne].
    eapply quietly_bind; [apply quietly_fetch_playerScope|].
    intros [playerScope|] _; [|quiet_fail].
    eapply quietly_bind; [apply quietly_get_host|]. intros h ->.
    eapply quietly_bind; [apply quietly_fetch_range|].
    intros [[first last]|] Hrange; [|quiet_fail].
    destruct (negb (lua_isfunction _)); [quiet_fail|].
    eapply quietly_bind; [apply quietly_GetCachedLeaderboardHandleByName|].
    intros cached ->.
    set (handle := default 0 (RuntimeContext.fLeaderboardNameHandleMap (context w)
                                !! leaderboardName)).
    assert (Hsent : forall (out : LuaCallOutcome) (w2 : World) (c : SteamCall),
              steam_calls w2 = steam_calls w ++ [c] ->
              (if handle =? 0 then c = Call_FindLeaderboard leaderboardName
               else c = Call_DownloadLeaderboardEntries handle playerScope first last) ->
              Q out w2).
    { intros out w2 c Hc Hkind. right. exists leaderboardName.
      split; [exact Hname|]. split; [exact Hne|]. cbv zeta. fold handle.
      destruct (handle =? 0); [subst c; exact Hc|].
      exists playerScope, (first, last). subst c. split; [exact Hc|exact Hrange]. }
    clearbody Q.
    intros w1 Hq. pose proof Hq as (_ & _ & _ & Hcalls & _).
    unfold AddEventHandlerFor.
    destruct (Z.eqb_spec 0 handle) as [E|E]; unfold_monad;
      destruct (_ =? k_uAPICallInvalid); cbn beta iota zeta;
      apply Hsent with (c := if handle =? 0 then Call_FindLeaderboard leaderboardName
                             else Call_DownloadLeaderboardEntries handle playerScope first last);
      try (destruct (handle =? 0); reflexivity);
      cbn [steam_calls]; rewrite Hcalls;
      destruct (Z.eqb_spec handle 0); try reflexivity; congruence. }
  specialize (H w (quiet_refl w)).
  destruct (OnRequestLeaderboardEntries (Some L) w) as [out w']. exact H.
Qed.

Lemma quietly_read {A} (w0 : World) (f : World -> A) :
  quietly w0 (fun w => (f w, w)) (fun _ w => quiet w0 w /\ True).
Proof. intros w Hw. cbn. auto. Qed.

Lemma quietly_overlay_call (w0 : World) (c : SteamCall) :
  CanShowSteamOverlay (steam w0) = true -> is_overlay_call c = true ->
  quietly w0 (steam_call c;; ret (LuaReturn [LuaBoolean true])) (overlay_outcome w0).
Proof.
  intros Hshow Hc w Hw. unfold_monad. left.
  split; [reflexivity|]. split; [exact Hshow|]. exists c. split; [exact Hc|].
  cbn. destruct Hw as (_ & _ & _ & -> & _). reflexivity.
Qed.

Ltac overlay_fail :=
  first
    [ apply quietly_ret; intros ? ?; right; split; [reflexivity|assumption]
    | eapply quietly_bind; [apply quietly_CoronaLuaError|];
      intros _ _; apply quietly_ret; intros ? ?; right; split; [reflexivity|assumption] ].

Ltac overlay_start f :=
  unfold f;
  eapply quietly_bind; [apply quietly_get_steam|]; intros ? ->;
  destruct (SteamFriends (steam _)) as [?|]; [|overlay_fail];
  destruct (CanShowSteamOverlay (steam _)) eqn:Hshow; [|overlay_fail];
  cbn [negb].

Lemma quietly_OnShowGameOverlay (L : lua_State) (w : World) :
  quietly w (OnShowGameOverlay (Some L)) (overlay_outcome w).
Proof.
  overlay_start OnShowGameOverlay.
  destruct (lua_arg (lua_stack L) 1) as [[]|];
    first [apply quietly_overlay_call; [exact Hshow|reflexivity] | overlay_fail].
Qed.

Lemma quietly_OnShowWebOverlay (L : lua_State) (w : World) :
  quietly w (OnShowWebOverlay (Some L)) (overlay_outcome w).
Proof.
  overlay_start OnShowWebOverlay.
  destruct (lua_arg (lua_stack L) 1) as [[]|];
    first [apply quietly_overlay_call; [exact Hshow|reflexivity] | overlay_fail].
Qed.

Lemma quietly_OnShowUserOverlay (L : lua_State) (w : World) :
  quietly w (OnShowUserOverlay (Some L)) (overlay_outcome w).
Proof.
  overlay_start OnShowUserOverlay.
  destruct (lua_arg (lua_stack L) 1) as [[]|]; try overlay_fail.
  destruct (String.eqb _ _); [overlay_fail|].
  destruct (negb _); [overlay_fail|].
  destruct (lua_arg (lua_stack L) 2) as [[]|];
    first [apply quietly_overlay_call; [exact Hshow|reflexivity] | overlay_fail].
Qed.

Lemma quietly_OnShowStoreOverlay (L : lua_State) (w : World) :
  quietly w (OnShowStoreOverlay (Some L)) (overlay_outcome w).
Proof.
  overlay_start OnShowStoreOverlay.
  assert (Hrest : forall stringId : string,
    quietly w
      (copied <- (fun w : World => (CopySteamAppIdTo w, w));;
       let stringId :=
         if String.eqb stringId EmptyString then default EmptyString copied else stringId in
       if String.eqb stringId EmptyString then ret (LuaReturn [LuaBoolean false])
       else
         match stream_get_uint32 stringId with
         | None =>
             CoronaLuaError "Given string is an invalid app ID: '%s'" [FmtString stringId];;
             ret (LuaReturn [LuaBoolean false])
         | Some integerId =>
             steam_call (Call_ActivateGameOverlayToStore integerId);;
             ret (LuaReturn [LuaBoolean true])
         end)
      (overlay_outcome w)).
  { intros stringId. eapply quietly_bind; [apply quietly_read|]. intros copied _.
    cbv zeta.
    lazymatch goal with |- quietly _ (if ?c then _ else _) _ => destruct c end;
      [overlay_fail|].
    lazymatch goal with |- quietly _ (match ?x with _ => _ end) _ => destruct x end;
      [|overlay_fail].
    apply quietly_overlay_call; [exact Hshow|reflexivity]. }
  destruct (lua_arg (lua_stack L) 1) as [[]|]; first [apply Hrest | overlay_fail].
Qed.

(** X15: each of the four overlay functions either returns true after
    sending exactly one overlay request, and only when the overlay can be
    shown, or returns false having added nothing but diagnostics. *)
Theorem X15_overlay_requests (L : lua_State) (w : World) :
  Forall (fun entryPoint : option lua_State -> M LuaCallOutcome =>
            let '(out, w') := entryPoint (Some L) w in overlay_outcome w out w')
    [OnShowGameOverlay; OnShowStoreOverlay; OnShowUserOverlay; OnShowWebOverlay].
Proof.
  repeat (apply Forall_cons; split);
    [ pose proof (quietly_OnShowGameOverlay L w w (quiet_refl w)) as H
    | pose proof (quietly_OnShowStoreOverlay L w w (quiet_refl w)) as H
    | pose proof (quietly_OnShowUserOverlay L w w (quiet_refl w)) as H
    | pose proof (quietly_OnShowWebOverlay L w w (quiet_refl w)) as H
    | apply Forall_nil; exact I ];
    exact H.
Qed.

(** X16: with a name and two numbers, [setAchievementProgress] sends
    a progress indication when the value is below the maximum and unlocks
    the achievement otherwise (always when the maximum is zero or
    negative); both numbers are clamped at 0 and fit 32 bits; it returns
    what the SDK answered and stores the stats exactly when that is
    true. *)
Theorem X16_achievement_progress (L : lua_State) (w : World) (stats : ISteamUserStats)
    (achievementName : string) (value maxValue : lua_Number) :
  lua_arg (lua_stack L) 1 = Some (LuaString achievementName) ->
  lua_arg (lua_stack L) 2 = Some (LuaNumber value) ->
  lua_arg (lua_stack L) 3 = Some (LuaNumber maxValue) ->
  SteamUserStats (steam w) = Some stats ->
  let current := cast_uint32 (Z.max 0 (lua_tointeger (host w) value)) in
  let maximum := cast_uint32 (Z.max 0 (lua_tointeger (host w) maxValue)) in
  let request :=
    if current <? maximum
    then Call_IndicateAchievementProgress achievementName current maximum
    else Call_SetAchievement achievementName in
  let accepted :=
    if current <? maximum
    then IndicateAchievementProgress stats achievementName current maximum
    else SetAchievement stats achievementName in
  OnSetAchievementProgress (Some L) w
  = (LuaReturn [LuaBoolean accepted],
     logged w (request :: if accepted then [Call_StoreStats] else []) [])
  /\ 0 <= current <= UINT32_MAX
  /\ 0 <= maximum <= UINT32_MAX
  /\ (lua_tointeger (host w) maxValue <= 0 -> request = Call_SetAchievement achievementName).
Proof.
  intros H1 H2 H3 Hstats current maximum request accepted.
  assert (Hmax : forall z, (if z <? 0 then 0 else z) = Z.max 0 z)
    by (intros z; destruct (Z.ltb_spec z 0); lia).
  assert (Hrange : forall z, 0 <= cast_uint32 z <= UINT32_MAX).
  { intros z. unfold cast_uint32, UINT32_MAX.
    pose proof (Z.mod_pos_bound z 4294967296 ltac:(lia)). lia. }
  split; [|split; [apply Hrange|split; [apply Hrange|]]].
  - unfold OnSetAchievementProgress, fetch_progress. rewrite H1, H2, H3.
    unfold_monad. rewrite Hstats, !Hmax.
    fold current. fold maximum. subst request accepted.
    destruct (current <? maximum).
    + destruct (IndicateAchievementProgress stats achievementName current maximum);
        unfold logged; cbn; rewrite ?app_nil_r, <- ?app_assoc; reflexivity.
    + destruct (SetAchievement stats achievementName);
        unfold logged; cbn; rewrite ?app_nil_r, <- ?app_assoc; reflexivity.
  - intros Hle. subst request maximum.
    replace (Z.max 0 (lua_tointeger (host w) maxValue)) with 0 by lia.
    change (cast_uint32 0) with 0.
    destruct (Z.ltb_spec current 0); [|reflexivity].
    pose proof (Hrange (Z.max 0 (lua_tointeger (host w) value))). subst current. lia.
Qed.

Lemma X16_achievement_progress_witness :
  OnSetAchievementProgress
    (Some (example_call [LuaString "WIN_ONE"; LuaNumber (Finite (inject_Z 3));
                         LuaNumber (Finite (inject_Z 10))]))
    example_world
  = (LuaReturn [LuaBoolean true],
     logged example_world
       [Call_IndicateAchievementProgress "WIN_ONE" 3 10; Call_StoreStats] []).
Proof.
  apply (X16_achievement_progress
           (example_call [LuaString "WIN_ONE"; LuaNumber (Finite (inject_Z 3));
                          LuaNumber (Finite (inject_Z 10))])
           example_world example_stats "WIN_ONE"
           (Finite (inject_Z 3)) (Finite (inject_Z 10))); reflexivity.
Defined.

(** Reading back the decimal text of [n] into a type with largest value
    [max]: the value, unless it does not fit. *)
Lemma stream_get_of_put (max n : Z) :
  0 <= n < 10 ^ 20 ->
  stream_get_unsigned max (stream_put_unsigned n) = if n >? max then None else Some n.
Proof.
  intros Hn. unfold stream_get_unsigned, stream_put_unsigned.
  destruct (put_decimal_head 19 n EmptyString) as (c & r & Hput & Hc); [lia|].
  destruct (is_digit_not_space_nor_sign c Hc) as (Hsp & Hplus & Hminus).
  pose proof (scan_digits_put_decimal 19 n EmptyString) as Hscan.
  rewrite Hput in *. cbn [skip_spaces]. rewrite Hsp, Hplus, Hminus, Hc.
  rewrite Hscan by (change (10 ^ (Z.of_nat 19 + 1)) with (10 ^ 20); lia).
  cbn [scan_digits]. reflexivity.
Qed.

Lemma stream_put_unsigned_not_empty (n : Z) :
  0 <= n -> String.eqb (stream_put_unsigned n) EmptyString = false.
Proof.
  intros Hn. unfold stream_put_unsigned.
  destruct (put_decimal_head 19 n EmptyString Hn) as (c & r & -> & _). reflexivity.
Qed.

(** X17: given the decimal text of an app ID, [isDlcInstalled]
    answers what the SDK says for that ID when it fits 32 bits, and
    otherwise returns false and logs the text as an invalid app ID; it
    sends no request either way. *)
Theorem X17_dlc_app_id_text (L : lua_State) (w : World) (apps : ISteamApps) (appId : Z) :
  SteamApps (steam w) = Some apps ->
  lua_arg (lua_stack L) 1 = Some (LuaString (stream_put_unsigned appId)) ->
  0 <= appId < 10 ^ 20 ->
  OnIsDlcInstalled (Some L) w
  = if appId <=? UINT32_MAX
    then (LuaReturn [LuaBoolean (BIsDlcInstalled apps appId)], w)
    else (LuaReturn [LuaBoolean false],
          logged w [] [CoronaLuaError_ "Given string is an invalid app ID: '%s'"
                         [FmtString (stream_put_unsigned appId)]]).
Proof.
  intros Happs Harg Hn. unfold OnIsDlcInstalled. unfold_monad.
  rewrite Happs, Harg, stream_put_unsigned_not_empty by lia.
  unfold stream_get_uint32. rewrite stream_get_of_put by exact Hn.
  destruct (Z.gtb_spec appId UINT32_MAX), (Z.leb_spec appId UINT32_MAX); try lia.
  - unfold logged. rewrite app_nil_r. reflexivity.
  - reflexivity.
Qed.

Lemma X17_dlc_app_id_text_witness :
  OnIsDlcInstalled (Some (example_call [LuaString "4294967296"])) example_world
  = (LuaReturn [LuaBoolean false],
     logged example_world []
       [CoronaLuaError_ "Given string is an invalid app ID: '%s'" [FmtString "4294967296"]]).
Proof.
  apply (X17_dlc_app_id_text (example_call [LuaString "4294967296"]) example_world
           example_apps 4294967296); [reflexivity|reflexivity|lia].
Defined.

(** X18: with the stats interface there, [getAchievementNames]
    returns one array with as many entries as the SDK counts achievements,
    the entry at each position being the SDK's name for that index (the
    empty string when it has none), and leaves the world unchanged. *)
Theorem X18_achievement_names (L : lua_State) (w : World) (stats : ISteamUserStats) :
  SteamUserStats (steam w) = Some stats ->
  exists names,
    OnGetAchievementNames (Some L) w = (LuaReturn [LuaTable names []], w)
    /\ length names = Z.to_nat (GetNumAchievements stats)
    /\ (forall index, 0 <= index < GetNumAchievements stats ->
          names !! Z.to_nat index
          = Some (LuaString (default EmptyString (GetAchievementName stats index))))
    /\ Forall (fun name => lua_typeof name = LUA_TSTRING) names.
Proof.
  intros Hstats. unfold OnGetAchievementNames. unfold_monad. rewrite Hstats.
  eexists. split; [reflexivity|]. split; [|split].
  - rewrite length_map, length_seqZ. reflexivity.
  - intros index Hi.
    change (map ?f ?l) with (f <$> l).
    rewrite list_lookup_fmap, lookup_seqZ_lt by lia. cbn.
    rewrite Z2Nat.id by lia. reflexivity.
  - change (map ?f ?l) with (f <$> l). apply Forall_fmap, Forall_true.
    intros index. reflexivity.
Qed.

Lemma X18_achievement_names_witness :
  exists names,
    OnGetAchievementNames (Some example_L) example_world
    = (LuaReturn [LuaTable names []], example_world)
    /\ length names = 2%nat
    /\ (forall index, 0 <= index < 2 ->
          names !! Z.to_nat index
          = Some (LuaString (default EmptyString (GetAchievementName example_stats index))))
    /\ Forall (fun name => lua_typeof name = LUA_TSTRING) names.
Proof. exact (X18_achievement_names example_L example_world example_stats eq_refl). Defined.

(** X19: [newTexture] with a numeric handle leaves the world
    unchanged; it returns nil when the handle is zero or negative or its
    image is not valid, and otherwise exactly what the host's texture
    loader pushes: a valid image implies the utilities interface, so the
    texture wrapper's missing-interface branch is never taken.  Any other
    argument gives nil and one logged error. *)
Theorem X19_new_texture (L : lua_State) (w : World) :
  let '(out, w') := OnNewTexture (Some L) w in
  match lua_arg (lua_stack L) 1 with
  | Some (LuaNumber handleNumber) =>
      let imageHandle := tointeger_int (host w) handleNumber in
      w' = w
      /\ if (imageHandle <=? 0) || IsNotValid (FromImageHandle (steam w) imageHandle)
         then out = LuaReturn [LuaNil]
         else out = LuaReturn (CoronaExternalPushTexture (host w) imageHandle)
  | _ =>
      out = LuaReturn [LuaNil]
      /\ w' = logged w [] [CoronaLuaError_ "1st argument must be a numeric 'imageHandle'." []]
  end.
Proof.
  unfold OnNewTexture.
  assert (Hlog : forall format,
            snd (CoronaLuaError format [] w) = logged w [] [CoronaLuaError_ format []]).
  { intros format. unfold logged. rewrite app_nil_r. reflexivity. }
  destruct (lua_arg (lua_stack L) 1) as [[| |handleNumber| | | | |]|];
    try (unfold_monad; split; [reflexivity|apply Hlog]).
  unfold_monad. cbv zeta.
  set (imageHandle := tointeger_int (host w) handleNumber).
  destruct (IsNotValid (FromImageHandle (steam w) imageHandle)) eqn:Hvalid.
  - rewrite orb_true_r. split; reflexivity.
  - rewrite orb_false_r. split; [reflexivity|].
    unfold IsNotValid in Hvalid. apply negb_false_iff in Hvalid.
    unfold PushTexture. destruct (imageHandle <=? 0); [reflexivity|].
    unfold FromImageHandle in Hvalid.
    destruct (SteamUtils (steam w)); [reflexivity|discriminate].
Qed.
